(** * A shallow embedding of spark_package.py (pom merge, zip, name checks)

    The development follows [src/python/spark_package/spark_package.py].
    Python strings are modelled as Rocq [string]s of ASCII characters,
    xml.etree.ElementTree elements as the nested inductive [element],
    and the two kinds of abnormal termination of the tool are kept apart:
    [Exit] is [show_error_and_exit] (message, exit code -1), [Crash] is an
    uncaught Python exception. *)

From Stdlib Require Import String Ascii List Bool Arith Lia ZArith.
Set Warnings "-register-all".
Import ListNotations.
Open Scope string_scope.
Open Scope list_scope.

(** ** Python string primitives *)

Module Py.

(** [str.isspace] on ASCII characters: \t \n \v \f \r, \x1c-\x1f and space. *)
Definition is_space (c : ascii) : bool :=
  let n := nat_of_ascii c in
  (((9 <=? n) && (n <=? 13)) || ((28 <=? n) && (n <=? 32)))%nat.

Fixpoint drop_spaces (l : list ascii) : list ascii :=
  match l with
  | [] => []
  | c :: r => if is_space c then drop_spaces r else l
  end.

(** [str.strip()] *)
Definition strip (s : string) : string :=
  string_of_list_ascii
    (rev (drop_spaces (rev (drop_spaces (list_ascii_of_string s))))).

(** [str.startswith(p)] *)
Definition startswith (s p : string) : bool := String.prefix p s.

(** [str.split(sep)] for a non-empty separator: scans left to right and
    cuts at every non-overlapping occurrence of [sep]. [skip] counts the
    characters of a separator that remain to be consumed. *)
Fixpoint split_go (sep s : string) (skip : nat) (cur : string) : list string :=
  match s with
  | EmptyString => [cur]
  | String c r =>
      match skip with
      | S k => split_go sep r k cur
      | O =>
          if String.prefix sep s
          then cur :: split_go sep r (pred (String.length sep)) EmptyString
          else split_go sep r O (cur ++ String c EmptyString)
      end
  end.

Definition split (s sep : string) : list string := split_go sep s O EmptyString.

(** [str.find(sub)]: the index of the first occurrence, [None] for -1. *)
Fixpoint find_from (sub s : string) (i : nat) : option nat :=
  if String.prefix sub s then Some i
  else match s with
       | EmptyString => None
       | String _ r => find_from sub r (S i)
       end.

Definition find (s sub : string) : option nat := find_from sub s O.

(** [s[:n]] *)
Definition slice_to (s : string) (n : nat) : string := substring 0 n s.

(** [x in s] for strings *)
Definition contains (s sub : string) : bool :=
  match find s sub with Some _ => true | None => false end.

End Py.

(** ** Outcomes: the error monad of the tool *)

Inductive message : Type :=
  | MsgNoName            (* "Please specify the name of the package using -n or --name." *)
  | MsgNameSlash         (* "The name of the package must contain exactly one slash." *)
  | MsgNameChars         (* "The name of the package can only contain letters, numbers, ..." *)
  | MsgNoReadme          (* "Cannot find README.md in the root directory of the package." *)
  | MsgNoLicense         (* "Cannot find LICENSE in the root directory of the package." *)
  | MsgNoJar             (* "... but a jar could not be found. ..." *)
  | MsgMultipleJars      (* "Your directory contains multiple jars. ... place them under lib/ ..." *)
  | MsgDepFormat         (* "... `:package_name==:version` in spark-package-deps.txt. Found: ..." *)
  | MsgDepName.          (* "... `:repo_owner_name/:repo_name` in spark-package-deps.txt. ..." *)

Inductive py_exn : Type :=
  | AssertionError
  | AttributeError   (* [None.text] *)
  | ValueError       (* unpacking a split of the wrong length *)
  | KeyError
  | IndexError
  | EOFError         (* [input()] at the end of standard input *)
  | FileNotFoundError.

Inductive outcome (A : Type) : Type :=
  | Ok (a : A)
  | Exit (m : message)
  | Crash (e : py_exn).
Arguments Ok {A} a.
Arguments Exit {A} m.
Arguments Crash {A} e.

Definition obind {A B : Type} (m : outcome A) (k : A -> outcome B) : outcome B :=
  match m with
  | Ok a => k a
  | Exit msg => Exit msg
  | Crash e => Crash e
  end.

Notation "x <- m ;; k" := (obind m (fun x => k))
  (at level 61, m at next level, right associativity).

Definition is_ok {A : Type} (m : outcome A) : bool :=
  match m with Ok _ => true | _ => false end.

(** ** xml.etree.ElementTree elements *)

Inductive element : Type :=
  | Elem (tag : string) (attrib : list (string * string)) (text : option string)
         (children : list element).

Definition el_tag (e : element) : string := let 'Elem t _ _ _ := e in t.
Definition el_attrib (e : element) := let 'Elem _ a _ _ := e in a.
Definition el_text (e : element) : option string := let 'Elem _ _ x _ := e in x.
Definition el_children (e : element) : list element := let 'Elem _ _ _ cs := e in cs.

Definition with_text (e : element) (x : option string) : element :=
  let 'Elem t a _ cs := e in Elem t a x cs.
Definition with_children (e : element) (cs : list element) : element :=
  let 'Elem t a x _ := e in Elem t a x cs.

(** [Xml.Element(tag)] *)
Definition new_element (tag : string) : element := Elem tag [] None [].

(** [elem.find(tag)] for a plain tag: the first direct child with that tag. *)
Fixpoint find_child (tag : string) (cs : list element) : option element :=
  match cs with
  | [] => None
  | c :: r => if String.eqb (el_tag c) tag then Some c else find_child tag r
  end.

Definition find (e : element) (tag : string) : option element :=
  find_child tag (el_children e).

(** Mutating the object returned by [find]: the first child with the tag. *)
Fixpoint update_first (tag : string) (f : element -> element) (cs : list element)
  : list element :=
  match cs with
  | [] => []
  | c :: r => if String.eqb (el_tag c) tag then f c :: r else c :: update_first tag f r
  end.

(** [list.insert(i, x)] for [i >= 0]: appends when [i >= len(list)]. *)
Definition py_insert {A : Type} (i : nat) (x : A) (l : list A) : list A :=
  firstn i l ++ x :: skipn i l.

(** [pom_add_or_modify_tag(root, tag, text, insert_index=None)] *)
Definition pom_add_or_modify_tag (root : element) (tag text : string)
  (insert_index : option nat) : element :=
  match find root tag with
  | None =>
      let child := with_text (new_element tag) (Some text) in
      match insert_index with
      | None => with_children root (el_children root ++ [child])
      | Some i => with_children root (py_insert i child (el_children root))
      end
  | Some _ =>
      with_children root
        (update_first tag (fun c => with_text c (Some text)) (el_children root))
  end.

(** [dict[key]] on a dict literal, as an association list in insertion order. *)
Fixpoint dict_get (d : list (string * string)) (k : string) : option string :=
  match d with
  | [] => None
  | (k', v) :: r => if String.eqb k' k then Some v else dict_get r k
  end.

(** [key.text == values[tag]] where [key.text] may be [None]. *)
Definition text_eq (x : option string) (v : string) : bool :=
  match x with Some s => String.eqb s v | None => false end.

(** The inner loop of [pom_check_if_child_exists]: the number of comparison
    tags on which [child] agrees with [values]; [child.find(prefix + tag)]
    returning [None] makes [key.text] raise. *)
Fixpoint count_matches (prefix : string) (values : list (string * string))
  (child : element) (tags : list string) : outcome nat :=
  match tags with
  | [] => Ok 0
  | t :: r =>
      match find child (prefix ++ t) with
      | None => Crash AttributeError
      | Some key =>
          match dict_get values t with
          | None => Crash KeyError
          | Some v =>
              n <- count_matches prefix values child r ;;
              Ok (if text_eq (el_text key) v then S n else n)
          end
      end
  end.

Fixpoint check_children (prefix : string) (values : list (string * string))
  (tags : list string) (cs : list element) : outcome bool :=
  match cs with
  | [] => Ok false
  | c :: r =>
      n <- count_matches prefix values c tags ;;
      if Nat.eqb n (length tags) then Ok true
      else check_children prefix values tags r
  end.

(** [pom_check_if_child_exists(parent, prefix, values, comparison_tags)] *)
Definition pom_check_if_child_exists (parent : element) (prefix : string)
  (values : list (string * string)) (comparison_tags : list string) : outcome bool :=
  check_children prefix values comparison_tags (el_children parent).

(** [key_order.index(k)], raising ValueError when absent. *)
Fixpoint index_of (k : string) (l : list string) : option nat :=
  match l with
  | [] => None
  | x :: r => if String.eqb x k then Some 0 else option_map S (index_of k r)
  end.

Fixpoint key_items (key_order : list string) (items : list (string * string))
  : outcome (list (nat * (string * string))) :=
  match items with
  | [] => Ok []
  | kv :: r =>
      match index_of (fst kv) key_order with
      | None => Crash ValueError
      | Some i => rest <- key_items key_order r ;; Ok ((i, kv) :: rest)
      end
  end.

Fixpoint insert_sorted {A : Type} (x : nat * A) (l : list (nat * A)) : list (nat * A) :=
  match l with
  | [] => [x]
  | y :: r => if Nat.ltb (fst x) (fst y) then x :: l else y :: insert_sorted x r
  end.

(** [sorted(values.items(), key=lambda i: key_order.index(i[0]))]: a stable
    insertion sort on the index in [key_order]. *)
Definition sort_by_key_order (key_order : list string) (items : list (string * string))
  : outcome (list (string * string)) :=
  keyed <- key_items key_order items ;;
  Ok (map snd (fold_left (fun acc x => insert_sorted x acc) keyed [])).

(** [pom_add_element(root, prefix, parent, child, values, comparison_keys,
    key_order)]. The parent found by [root.find] (or created and appended)
    is an object inside [root]: appending to it updates the first child of
    [root] with its tag. *)
Definition pom_add_element (root : element) (prefix parent child : string)
  (values : list (string * string)) (comparison_keys key_order : list string)
  : outcome element :=
  let '(root1, dependencies) :=
    match find root (prefix ++ parent) with
    | Some d => (root, d)
    | None =>
        let d := new_element (prefix ++ parent) in
        (with_children root (el_children root ++ [d]), d)
    end in
  exists_ <- pom_check_if_child_exists dependencies prefix values comparison_keys ;;
  if exists_ then Ok root1
  else
    items <- sort_by_key_order key_order values ;;
    let dep := fold_left (fun d kv => pom_add_or_modify_tag d (prefix ++ fst kv) (snd kv) None)
                 items (new_element (prefix ++ child)) in
    Ok (with_children root1
          (update_first (prefix ++ parent)
             (fun d => with_children d (el_children d ++ [dep])) (el_children root1))).

(** [validate_and_return_sp_dep(line)] *)
Definition validate_and_return_sp_dep (line : string) : outcome (string * string * string) :=
  match Py.split line "==" with
  | [package_name; version] =>
      match Py.split package_name "/" with
      | [g; a] => Ok (g, a, version)
      | _ => Exit MsgDepName
      end
  | _ => Exit MsgDepFormat
  end.

Definition CR : ascii := ascii_of_nat 13.
Definition LF : ascii := ascii_of_nat 10.

(** [open(path, 'r').readlines()] in Python 3 text mode: universal newlines
    turn "\r\n" and "\r" into "\n"; every line keeps its "\n" and no empty
    line follows a final newline. *)
Fixpoint readlines_go (s cur : string) : list string :=
  match s with
  | EmptyString => match cur with EmptyString => [] | _ => [cur] end
  | String c r =>
      if Ascii.eqb c CR then
        match r with
        | String d r' =>
            if Ascii.eqb d LF then (cur ++ String LF EmptyString)%string :: readlines_go r' EmptyString
            else (cur ++ String LF EmptyString)%string :: readlines_go r EmptyString
        | EmptyString => [(cur ++ String LF EmptyString)%string]
        end
      else if Ascii.eqb c LF then (cur ++ String LF EmptyString)%string :: readlines_go r EmptyString
      else readlines_go r (cur ++ String c EmptyString)%string
  end.

Definition readlines (content : string) : list string := readlines_go content EmptyString.

(** ** prepare_pom, as a function on the element tree *)

Definition maven_ns : string := "http://maven.apache.org/POM/4.0.0".

(** [Xml.Element('project', attributes)] for a pom written from scratch. *)
Definition fresh_project : element :=
  Elem "project"
    [("xmlns", maven_ns);
     ("xmlns:xsi", "http://www.w3.org/2001/XMLSchema-instance");
     ("xsi:schemaLocation",
      "http://maven.apache.org/POM/4.0.0 http://maven.apache.org/xsd/maven-4.0.0.xsd")]
    None [].

(** The root and the prefix: the parsed root of pom.xml when it exists
    (the assert on [project.tag.find('project')]), else [fresh_project]. *)
Definition pom_root (existing : option element) : outcome (element * string) :=
  match existing with
  | Some project =>
      match Py.find (el_tag project) "project" with
      | Some prefix_length => Ok (project, Py.slice_to (el_tag project) prefix_length)
      | None => Crash AssertionError
      end
  | None => Ok (fresh_project, "")
  end.

(** [group_id, artifact_id = name.strip().split("/")] *)
Definition split_name (name : string) : outcome (string * string) :=
  match Py.split (Py.strip name) "/" with
  | [g; a] => Ok (g, a)
  | _ => Crash ValueError
  end.

Definition dep_values (g a v : string) : list (string * string) :=
  [("groupId", g); ("artifactId", a); ("version", v)].

Definition spark_repo : list (string * string) :=
  [("id", "SparkPackagesRepo");
   ("name", "Spark Packages Repository");
   ("url", "http://dl.bintray.com/spark-packages/maven/");
   ("layout", "default")].

(** The loop over the lines of python/spark-package-deps.txt. *)
Fixpoint add_sp_deps (project : element) (prefix : string) (lines : list string)
  : outcome element :=
  match lines with
  | [] => Ok project
  | l :: r =>
      let line := Py.strip l in
      if Py.startswith line "#" then add_sp_deps project prefix r
      else
        gav <- validate_and_return_sp_dep line ;;
        let '(g, a, v) := gav in
        project' <- pom_add_element project prefix "dependencies" "dependency"
                      (dep_values g a v) ["groupId"; "artifactId"]
                      ["groupId"; "artifactId"; "version"] ;;
        add_sp_deps project' prefix r
  end.

(** [prepare_pom] up to the serialisation of [project]: [existing] is the
    parsed root/pom.xml (if the file exists) and [sp_deps] the content of
    root/python/spark-package-deps.txt (if the file exists). *)
Definition prepare_pom_tree (existing : option element) (name version : string)
  (sp_deps : option string) : outcome element :=
  ga <- split_name name ;;
  let '(group_id, artifact_id) := ga in
  rp <- pom_root existing ;;
  let '(project0, prefix) := rp in
  let project1 := pom_add_or_modify_tag project0 (prefix ++ "groupId") group_id (Some 1) in
  let project2 := pom_add_or_modify_tag project1 (prefix ++ "artifactId") artifact_id (Some 2) in
  let project3 := pom_add_or_modify_tag project2 (prefix ++ "version") version (Some 3) in
  project4 <- match sp_deps with
              | Some content => add_sp_deps project3 prefix (readlines content)
              | None => Ok project3
              end ;;
  pom_add_element project4 prefix "repositories" "repository" spark_repo ["url"]
    ["id"; "name"; "url"; "layout"].

(** The element names of a tree, in document order. *)
Fixpoint tags (e : element) : list string :=
  let 'Elem t _ _ cs := e in t :: flat_map tags cs.

(** The element names [prepare_pom] creates, before the prefix. *)
Definition pom_names : list string :=
  ["groupId"; "artifactId"; "version"; "dependencies"; "dependency";
   "repositories"; "repository"; "id"; "name"; "url"; "layout"].

(** Every element name of [r] is a name of [e] or [prefix] followed by one
    of [pom_names]. *)
Definition new_tags_prefixed (e : element) (prefix : string) (r : element) : Prop :=
  forall t, In t (tags r) -> In t (tags e) \/ exists s, In s pom_names /\ t = (prefix ++ s)%string.

(** The position of the first occurrence of [sub] in [s] is [n]. *)
Definition first_occurrence (s sub : string) (n : nat) : Prop :=
  substring n (String.length sub) s = sub /\
  forall m, m < n -> substring m (String.length sub) s <> sub.

(** ** Keys of the repeated-child collections *)

(** The key tuple of an entry as [pom_check_if_child_exists] reads it:
    for each comparison tag, [None] when the entry has no such child, else
    the text of the first such child. *)
Definition key_of (prefix : string) (comparison_tags : list string) (c : element)
  : list (option (option string)) :=
  map (fun t => option_map el_text (find c (prefix ++ t))) comparison_tags.

(** The key tuple [values] stands for. *)
Definition key_target (values : list (string * string)) (comparison_tags : list string)
  : list (option (option string)) :=
  map (fun t => option_map Some (dict_get values t)) comparison_tags.

(** The entries of the collection [root.find(prefix + parent)]. *)
Definition collection (root : element) (prefix parent : string) : list element :=
  match find root (prefix ++ parent) with
  | Some d => el_children d
  | None => []
  end.

(** ** validate_name *)

(** The class [[a-zA-Z0-9-_]]: letters, digits, '-' and '_'. *)
Definition name_char (c : ascii) : bool :=
  let n := nat_of_ascii c in
  ((48 <=? n) && (n <=? 57) || (65 <=? n) && (n <=? 90) || (97 <=? n) && (n <=? 122)
   || (n =? 45) || (n =? 95))%nat.

(** [re.match('^[a-zA-Z0-9-_]*$', n)]: [*] also accepts the empty string, and
    [$] matches at the end or just before a newline that ends the string. *)
Definition name_field_matches (n : string) : bool :=
  let l := list_ascii_of_string n in
  forallb name_char l ||
  match rev l with
  | c :: r => Ascii.eqb c LF && forallb name_char r
  | [] => false
  end.

(** [validate_name(name, p)]; [None] is the missing option. *)
Definition validate_name (name : option string) : outcome unit :=
  match name with
  | None => Exit MsgNoName
  | Some n =>
      if String.eqb (Py.strip n) "" then Exit MsgNoName
      else
        let fields := Py.split n "/" in
        if negb (Nat.eqb (length fields) 2) then Exit MsgNameSlash
        else if forallb name_field_matches fields then Ok tt
        else Exit MsgNameChars
  end.

(** The name rule as the specification words it: exactly two segments,
    each a non-empty string over [[A-Za-z0-9\-_]]. *)
Definition name_valid_per_spec (n : string) : bool :=
  match Py.split n "/" with
  | [a; b] =>
      negb (String.eqb a "") && forallb name_char (list_ascii_of_string a) &&
      negb (String.eqb b "") && forallb name_char (list_ascii_of_string b)
  | _ => false
  end.

(** ** prepare_jar: choosing the built jar *)

(** [s.endswith(suf)] *)
Definition endswith (s suf : string) : bool :=
  let n := String.length s in
  let m := String.length suf in
  (m <=? n)%nat && String.eqb (substring (n - m) m s) suf.

(** [fnmatch.filter(filenames, '*.jar')] on POSIX (case-sensitive). *)
Definition fnmatch_jar (filename : string) : bool := endswith filename ".jar".

(** [os.path.join(root, filename)] for the directory paths of [os.walk('.')],
    which never end in a slash. *)
Definition path_join (root filename : string) : string := root ++ "/" ++ filename.

(** [existing_jars]: [walk] lists, in the order of [os.walk('.')], each
    directory path with its file names. The exclusion tests look at the
    file name only. *)
Definition jar_candidates (walk : list (string * list string)) : list string :=
  flat_map (fun '(root, filenames) =>
    map (path_join root)
      (filter (fun filename =>
                 negb (Py.contains filename "lib") && negb (Py.contains filename "sbt")
                 && negb (Py.contains filename "assembly"))
         (filter fnmatch_jar filenames)))
    walk.

(** The jar copied into the inner jar: [None] when the package has no
    src/main/scala nor src/main/java directory. *)
Definition select_jar (has_jvm_sources : bool) (walk : list (string * list string))
  : outcome (option string) :=
  if has_jvm_sources then
    match jar_candidates walk with
    | [] => Exit MsgNoJar
    | [j] => Ok (Some j)
    | _ => Exit MsgMultipleJars
    end
  else Ok None.

(** The candidates as the specification words it: the jar paths of the
    subtree, without those whose path contains lib, sbt or assembly. *)
Definition jar_candidates_per_spec (walk : list (string * list string)) : list string :=
  filter (fun path =>
            negb (Py.contains path "lib") && negb (Py.contains path "sbt")
            && negb (Py.contains path "assembly"))
    (flat_map (fun '(root, filenames) => map (path_join root) (filter fnmatch_jar filenames))
       walk).

(** ** The pom read back from its serialisation *)

(** The text of an element without children after [Xml.tostring],
    [pom_pretty_print] and [Xml.parse]: an empty text is written as an
    empty element and reads back as [None]; other texts read back as
    they were. *)
Definition normalize_text (x : option string) : option string :=
  match x with
  | Some EmptyString => None
  | _ => x
  end.

Section Reparse.

(** Namespace resolution on the way back: the name each tag reads back as
    (with a fresh root, the [xmlns] attribute puts every element in the
    Maven namespace). *)
Variable rename : string -> string.
(** The attributes an element reads back with. *)
Variable rt_attrib : element -> list (string * string).
(** The text an element with children reads back with: the indentation
    [toprettyxml] writes. *)
Variable container_text : element -> option string.

Fixpoint reparse (e : element) : element :=
  let 'Elem t _ x cs := e in
  Elem (rename t) (rt_attrib e)
    (match cs with [] => normalize_text x | _ :: _ => container_text e end)
    (map reparse cs).

End Reparse.

(** An entry whose comparison children read back as they are: each is an
    element without children and with a text other than the empty one. *)
Definition stable_entry (prefix : string) (comparison_tags : list string) (c : element) : Prop :=
  forall t, In t comparison_tags -> forall k, find c (prefix ++ t) = Some k ->
    el_children k = [] /\ el_text k <> Some "".

(** ** zip_artifact, with the files it writes *)

(** What [zip] reads of the package directory. *)
Record package_dir : Type := {
  root_files : list string;               (* os.listdir(root_dir) *)
  has_jvm_sources : bool;                 (* src/main/scala or src/main/java is a directory *)
  walk : list (string * list string);     (* os.walk('.') from root_dir *)
  existing_pom : option element;          (* root_dir/pom.xml, parsed, if it is a file *)
  sp_deps_file : option string            (* root_dir/python/spark-package-deps.txt, if a file *)
}.

(** The effects on the file system, in order. *)
Inductive fs_event : Type :=
  | Mkdir (path : string)
  | Create (path : string)     (* a file opened for writing *)
  | Remove (path : string).    (* shutil.rmtree *)

(** Computations that write files and may stop: the outcome together with
    the events that happened before it. *)
Definition io (A : Type) : Type := (outcome A * list fs_event)%type.

Definition io_bind {A B : Type} (m : io A) (k : A -> io B) : io B :=
  let '(r, ev) := m in
  match r with
  | Ok a => let '(r', ev') := k a in (r', ev ++ ev')
  | Exit msg => (Exit msg, ev)
  | Crash e => (Crash e, ev)
  end.

Definition io_ret {A : Type} (a : A) : io A := (Ok a, []).
Definition io_lift {A : Type} (m : outcome A) : io A := (m, []).
Definition emit (ev : fs_event) : io unit := (Ok tt, [ev]).

Notation "x <-- m ;;; k" := (io_bind m (fun x => k))
  (at level 61, m at next level, right associativity).

(** [get_license_file_name(root_dir)] *)
Definition get_license_file_name (files : list string) : option string :=
  if existsb (String.eqb "LICENSE") files then Some "LICENSE"
  else if existsb (String.eqb "LICENSE.txt") files then Some "LICENSE.txt"
  else if existsb (String.eqb "LICENSE.md") files then Some "LICENSE.md"
  else None.

(** [validate_files_exist(root_dir)] *)
Definition validate_files_exist (d : package_dir) : outcome unit :=
  if negb (existsb (String.eqb "README.md") (root_files d)) then Exit MsgNoReadme
  else match get_license_file_name (root_files d) with
       | None => Exit MsgNoLicense
       | Some _ => Ok tt
       end.

(** [artifact_name = "%s-%s." % (name.split('/')[1], version)] *)
Definition zip_artifact_name (name version : string) : outcome string :=
  match Py.split name "/" with
  | _ :: repo :: _ => Ok (repo ++ "-" ++ version ++ ".")%string
  | _ => Crash IndexError
  end.

(** [prepare_jar(root_dir, artifact_name)]: the [PyZipFile] is created
    first; the entries written into it are not modelled. *)
Definition prepare_jar (d : package_dir) (artifact_name : string) : io unit :=
  _ <-- emit (Create (artifact_name ++ "jar")%string) ;;;
  _ <-- io_lift (select_jar (has_jvm_sources d) (walk d)) ;;;
  io_ret tt.

(** [prepare_pom(root_dir, name, version, out_dir)], returning the path of
    the pom it writes. *)
Definition prepare_pom (d : package_dir) (name version out_dir : string) : io string :=
  project <-- io_lift (prepare_pom_tree (existing_pom d) name version (sp_deps_file d)) ;;;
  ga <-- io_lift (split_name name) ;;;
  let pom_path := path_join out_dir (snd ga ++ "-" ++ version ++ ".pom")%string in
  _ <-- emit (Create pom_path) ;;;
  io_ret pom_path.

(** [zip_artifact(root_dir, name, version, out_dir)]; [temp_dir] is the
    directory [tempfile.mkdtemp(dir=out_dir)] creates. [artifact.write]
    of a pom that [prepare_pom] did not write raises. *)
Definition zip_artifact (d : package_dir) (name version out_dir temp_dir : string) : io string :=
  _ <-- io_lift (validate_name (Some name)) ;;;
  _ <-- io_lift (validate_files_exist d) ;;;
  _ <-- emit (Mkdir temp_dir) ;;;
  artifact_name <-- io_lift (zip_artifact_name name version) ;;;
  _ <-- prepare_jar d (path_join temp_dir artifact_name) ;;;
  pom_path <-- prepare_pom d name version temp_dir ;;;
  let zip_path := path_join out_dir (artifact_name ++ "zip")%string in
  _ <-- emit (Create zip_path) ;;;
  _ <-- io_lift (if String.eqb pom_path (path_join temp_dir (artifact_name ++ "pom")%string)
                 then Ok tt else Crash FileNotFoundError) ;;;
  _ <-- emit (Remove temp_dir) ;;;
  io_ret zip_path.

(** ** Licenses *)

Definition licenses : list (string * string) :=
  [("Apache-2.0", "http://opensource.org/licenses/Apache-2.0");
   ("BSD 3-Clause", "http://opensource.org/licenses/BSD-3-Clause");
   ("BSD 2-Clause", "http://opensource.org/licenses/BSD-2-Clause");
   ("GPL-2.0", "http://opensource.org/licenses/GPL-2.0");
   ("GPL-3.0", "http://opensource.org/licenses/GPL-3.0");
   ("LGPL-2.1", "http://opensource.org/licenses/LGPL-2.1");
   ("LGPL-3.0", "http://opensource.org/licenses/LGPL-3.0");
   ("MIT", "http://opensource.org/licenses/MIT");
   ("MPL-2.0", "http://opensource.org/licenses/MPL-2.0");
   ("EPL-1.0", "http://opensource.org/licenses/EPL-1.0");
   ("other license (decide later)", "n/a")].

(** [get_license_id()]: standard input is the list of the lines still to be
    read, each as the value of [int(line)] ([None] when [int] raises); the
    result comes with the lines left. *)
Fixpoint get_license_id_loop (inputs : list (option Z)) : outcome (Z * list (option Z)) :=
  match inputs with
  | [] => Crash EOFError
  | None :: _ => Crash ValueError
  | Some license_id :: rest =>
      if (license_id <? 1)%Z || (Z.of_nat (length licenses) <? license_id)%Z
      then get_license_id_loop rest
      else Ok (license_id, rest)
  end.

Definition get_license_id (inputs : list (option Z)) : outcome (Z * list (option Z)) :=
  get_license_id_loop inputs.

(** The [license_id] form field of [publish_release]. *)
Definition publish_license_id (inputs : list (option Z)) : outcome Z :=
  r <- get_license_id inputs ;; Ok (fst r - 1)%Z.

(** The [license_id] that [init_empty_package] passes to [create_license_file]. *)
Definition init_license_id (inputs : list (option Z)) : outcome Z :=
  r <- get_license_id inputs ;; Ok (fst r).

(** The resource [create_license_file(license_id)] copies. *)
Definition license_resource (license_id : Z) : string :=
  if (license_id =? Z.of_nat (length licenses))%Z then "LICENSE"
  else fst (nth (Z.to_nat (license_id - 1)) licenses ("", "")).

(** ** Concrete inputs used by the witnesses and counterexamples *)

Definition leaf (tag text : string) : element := Elem tag [] (Some text) [].

(** A pom.xml without coordinates whose root has three other children. *)
Definition pom_without_coordinates : element :=
  Elem "project" [] None
    [leaf "modelVersion" "4.0.0"; leaf "name" "n"; leaf "description" "d"].

(** A pom.xml in the Maven namespace, as ElementTree parses it. *)
Definition ns_prefix : string := "{" ++ maven_ns ++ "}".

Definition namespaced_pom : element :=
  Elem (ns_prefix ++ "project") [] None [leaf (ns_prefix ++ "modelVersion") "4.0.0"].

(** The entry [pom_add_element] builds from sorted [items]: one leaf per
    item, in the order of [items]. *)
Definition entry (prefix child : string) (items : list (string * string)) : element :=
  Elem (prefix ++ child) [] None (map (fun kv => leaf (prefix ++ fst kv) (snd kv)) items).

(** A pom.xml whose repository entry has no url. *)
Definition pom_keyless_repo : element :=
  Elem "project" [] None
    [Elem "repositories" [] None [Elem "repository" [] None [leaf "id" "central"]]].

(** A pom.xml that already lists one dependency twice. *)
Definition dep_entry (g a v : string) : element :=
  Elem "dependency" [] None [leaf "groupId" g; leaf "artifactId" a; leaf "version" v].

Definition pom_duplicate_deps : element :=
  Elem "project" [] None
    [Elem "dependencies" [] None [dep_entry "org" "lib" "1"; dep_entry "org" "lib" "1"]].

(** A package with LICENSE, README.md and python/spark-package-deps.txt
    holding [content], no JVM sources and no pom.xml. *)
Definition python_package (content : string) : package_dir :=
  {| root_files := ["LICENSE"; "README.md"; "python"];
     has_jvm_sources := false;
     walk := [(".", ["LICENSE"; "README.md"]); ("./python", ["spark-package-deps.txt"])];
     existing_pom := None;
     sp_deps_file := Some content |}.

(** ================================================================== *)
(** Dependency files of one line: one with an empty owner, one with both
    parts non-empty. *)
Definition deps_empty_owner : string := ("/b==1" ++ String LF EmptyString)%string.

Definition deps_one : string := ("org/lib==1" ++ String LF EmptyString)%string.

(** Reading back a pom written from [fresh_project]: its [xmlns] attribute
    puts every tag in the Maven namespace. *)
Definition ns_rename (t : string) : string := (ns_prefix ++ t)%string.

(** ** The command line: credentials, descriptions and the dispatch of [main] *)

(** The messages of [show_error_and_exit] outside [zip]. *)
Inductive cli_message : Type :=
  | Tool (m : message)        (* a message of the functions above *)
  | MsgCredUser               (* "Could not resolve github username from the file: ..." *)
  | MsgCredToken              (* "Could not resolve github token from the file: ..." *)
  | MsgEmptyUser              (* "Empty username provided!" *)
  | MsgEmptyToken             (* "Empty token provided!" *)
  | MsgNoDescription          (* "Please supply a proper description or the path to a file:" *)
  | MsgNoAction               (* "Please specify an action, such as 'init', 'zip', ..." *)
  | MsgUnrecognizedArgs       (* "Unrecognized arguments" *)
  | MsgNoFolder               (* "Please specify the folder of the spark package" *)
  | MsgNoVersion              (* "Please specify a version for the release" *)
  | MsgNoFolderOrZip          (* "Please specify the folder of the spark package or the path ..." *)
  | MsgUnrecognizedAction.    (* "Unrecognized argument %s" *)

Inductive cli_exn : Type :=
  | PyExn (e : py_exn)
  | RuntimeError              (* "Directory %s already exists" *)
  | TypeError                 (* [os.chdir(None)] *)
  | HTTPError.                (* [resp.raise_for_status()] *)

Inductive result (A : Type) : Type :=
  | Done (a : A)
  | Quit (m : cli_message)
  | Raise (e : cli_exn).
Arguments Done {A} a.
Arguments Quit {A} m.
Arguments Raise {A} e.

Definition rbind {A B : Type} (m : result A) (k : A -> result B) : result B :=
  match m with
  | Done a => k a
  | Quit msg => Quit msg
  | Raise e => Raise e
  end.

Notation "x <-? m ;; k" := (rbind m (fun x => k))
  (at level 61, m at next level, right associativity).

Definition of_outcome {A : Type} (m : outcome A) : result A :=
  match m with
  | Ok a => Done a
  | Exit msg => Quit (Tool msg)
  | Crash e => Raise (PyExn e)
  end.

(** [str.strip('\n')]: removes line feeds at both ends. *)
Fixpoint drop_lf (l : list ascii) : list ascii :=
  match l with
  | c :: r => if Ascii.eqb c LF then drop_lf r else l
  | [] => []
  end.

Definition strip_lf (s : string) : string :=
  string_of_list_ascii (rev (drop_lf (rev (drop_lf (list_ascii_of_string s))))).

(** [s[n:]] *)
Definition slice_from (s : string) (n : nat) : string := substring n (String.length s - n) s.

(** The loop of [read_credentials_file] over the lines of the file: the
    current [(user, token)] after one line. *)
Definition credentials_step (ut : string * string) (line : string) : string * string :=
  let '(user, token) := ut in
  if Py.contains line "user=" then
    (Py.strip (slice_from (Py.strip line) (String.length "user=")), token)
  else if Py.contains line "password=" then
    (user, Py.strip (slice_from (Py.strip line) (String.length "password=")))
  else (user, token).

(** [read_credentials_file(file)], on the content of the file. *)
Definition read_credentials_file (content : string) : result (string * string) :=
  let lines := map strip_lf (readlines content) in
  let '(user, token) := fold_left credentials_step lines ("", "") in
  if String.eqb user "" then Quit MsgCredUser
  else if String.eqb token "" then Quit MsgCredToken
  else Done (user, token).

(** What the command line reads besides its options: the file system (as
    [os.path.isfile], [os.path.isdir] and the content of a file) and the
    answers to the username and token prompts ([None] at the end of input,
    where [input] and [getpass] raise [EOFError]). *)
Record env : Type := {
  is_file : string -> bool;
  is_dir : string -> bool;
  read_file : string -> string;
  answer_user : option string;
  answer_token : option string
}.

Definition prompt (answer : option string) : result string :=
  match answer with
  | Some s => Done (Py.strip s)
  | None => Raise (PyExn EOFError)
  end.

(** [user is None or len(user.strip()) == 0] *)
Definition blank (o : option string) : bool :=
  match o with
  | None => true
  | Some s => String.eqb (Py.strip s) ""
  end.

(** [resolve_credentials(user, token, file)] *)
Definition resolve_credentials (E : env) (user token file : option string)
  : result (string * string) :=
  let ask :=
    git_user <-? (match user with
                  | Some u => if blank (Some u) then prompt (answer_user E) else Done u
                  | None => prompt (answer_user E)
                  end) ;;
    if String.eqb git_user "" then Quit MsgEmptyUser
    else
      git_token <-? (match token with
                     | Some t => if blank (Some t) then prompt (answer_token E) else Done t
                     | None => prompt (answer_token E)
                     end) ;;
      if String.eqb git_token "" then Quit MsgEmptyToken
      else Done (git_user, git_token) in
  match file with
  | Some f => if is_file E f then read_credentials_file (read_file E f) else ask
  | None => ask
  end.

(** [get_description(desc_prompt)]; [answer] is the line typed. *)
Definition get_description (E : env) (answer : option string) : result string :=
  desc_raw <-? prompt answer ;;
  if String.eqb desc_raw "" then Quit MsgNoDescription
  else if is_file E desc_raw then
    let desc := read_file E desc_raw in
    if String.eqb (Py.strip desc) "" then Raise (PyExn AssertionError) else Done desc
  else Done desc_raw.

(** [check_path_exists(option)] *)
Definition check_path_exists (E : env) (option : option string) : bool :=
  match option with
  | None => false
  | Some s => negb (String.eqb (Py.strip s) "") && is_dir E s
  end.

(** The options [main] parses ([--out] defaults to "."). *)
Record options : Type := {
  o_out : string;
  o_name : option string;
  o_version : option string;
  o_folder : option string;
  o_scala : bool; o_java : bool; o_python : bool; o_r : bool;
  o_user : option string;
  o_token : option string;
  o_cred : option string;
  o_zip : option string
}.

(** The call [main] ends with, with its arguments. *)
Inductive action : Type :=
  | ActInit (base_dir name : string) (scala java python r : bool)
  | ActZip (folder name version out : string)
  | ActRegister (name user token : string)
  | ActPublish (name user token : string) (folder : option string) (version out : string)
      (zip : option string).

(** [options.version is None or len(options.version.strip()) == 0] leads to
    the version message; otherwise the continuation gets the version. *)
Definition require_version {A : Type} (version : option string) (k : string -> result A)
  : result A :=
  match version with
  | Some v => if blank (Some v) then Quit MsgNoVersion else k v
  | None => Quit MsgNoVersion
  end.

(** [main()] after [p.parse_args()], up to the call that performs the action. *)
Definition main (E : env) (o : options) (arguments : list string) : result action :=
  match arguments with
  | [] => Quit MsgNoAction
  | _ :: _ :: _ => Quit MsgUnrecognizedArgs
  | [arg] =>
      _ <-? of_outcome (validate_name (o_name o)) ;;
      match o_name o with
      | None => Quit (Tool MsgNoName)   (* not reached: validate_name has stopped *)
      | Some name =>
          if String.eqb arg "init" then
            let scala := if negb (o_scala o) && negb (o_java o) && negb (o_python o) && negb (o_r o)
                         then true else o_scala o in
            Done (ActInit (o_out o) name scala (o_java o) (o_python o) (o_r o))
          else if String.eqb arg "zip" then
            match o_folder o with
            | Some folder =>
                if negb (check_path_exists E (Some folder)) then Quit MsgNoFolder
                else require_version (o_version o) (fun v => Done (ActZip folder name v (o_out o)))
            | None => Quit MsgNoFolder
            end
          else if String.eqb arg "register" then
            ut <-? resolve_credentials E (o_user o) (o_token o) (o_cred o) ;;
            Done (ActRegister name (fst ut) (snd ut))
          else if String.eqb arg "publish" then
            ut <-? resolve_credentials E (o_user o) (o_token o) (o_cred o) ;;
            if negb (check_path_exists E (o_folder o)) && negb (check_path_exists E (o_zip o))
            then Quit MsgNoFolderOrZip
            else require_version (o_version o) (fun v =>
                   Done (ActPublish name (fst ut) (snd ut) (o_folder o) v (o_out o) (o_zip o)))
          else Quit MsgUnrecognizedAction
      end
  end.

(** ** init: the package template *)

(** Computations with effects of type [Ev] that may stop, with the outcome
    of the command line: the outcome together with the effects that
    happened before it. *)
Definition wio (Ev A : Type) : Type := (result A * list Ev)%type.

Definition wbind {Ev A B : Type} (m : wio Ev A) (k : A -> wio Ev B) : wio Ev B :=
  let '(r, ev) := m in
  match r with
  | Done a => let '(r', ev') := k a in (r', ev ++ ev')
  | Quit msg => (Quit msg, ev)
  | Raise e => (Raise e, ev)
  end.

Definition wret {Ev A : Type} (a : A) : wio Ev A := (Done a, []).
Definition wlift {Ev A : Type} (m : result A) : wio Ev A := (m, []).
Definition wemit {Ev : Type} (ev : Ev) : wio Ev unit := (Done tt, [ev]).

Notation "x <~ m ;;; k" := (wbind m (fun x => k))
  (at level 61, m at next level, right associativity).

(** The file system effects of init. *)
Abbreviation cio := (wio fs_event).

(** [os.chdir(d)] followed by [m]: the relative paths [m] uses are paths
    under [d]. *)
Definition rebase (d : string) (ev : fs_event) : fs_event :=
  match ev with
  | Mkdir p => Mkdir (path_join d p)
  | Create p => Create (path_join d p)
  | Remove p => Remove (path_join d p)
  end.

Definition in_dir {A : Type} (d : string) (m : cio A) : cio A :=
  (fst m, map (rebase d) (snd m)).

(** [l[i]] for a Python list and an int [i], negative indices counting
    from the end. *)
Definition py_index {A : Type} (l : list A) (i : Z) : result A :=
  let j := if (i <? 0)%Z then (i + Z.of_nat (length l))%Z else i in
  if (j <? 0)%Z then Raise (PyExn IndexError)
  else match nth_error l (Z.to_nat j) with
       | Some x => Done x
       | None => Raise (PyExn IndexError)
       end.

(** [name.split("/")[1]] *)
Definition repo_of (name : string) : result string :=
  match Py.split name "/" with
  | _ :: repo :: _ => Done repo
  | _ => Raise (PyExn IndexError)
  end.

(** The double quote character. *)
Definition dq : string := String (ascii_of_nat 34) EmptyString.

(** [get_license_replacement(license_id, just_name)] *)
Definition get_license_replacement (license_id : Z) (just_name : bool) : result (string * string) :=
  if negb (license_id =? Z.of_nat (length licenses))%Z then
    lic <-? py_index licenses (license_id - 1) ;;
    let '(license_name, license_url) := lic in
    if just_name then Done ("$$license$$", license_name)
    else Done ("$$license$$", "licenses := Seq(" ++ dq ++ license_name ++ dq ++ " -> url(" ++ dq
                               ++ license_url ++ dq ++ "))" ++ String LF EmptyString)%string
  else if just_name then Done ("$$license$$", "Please specify a license")
  else Done ("$$license$$", "// format: licenses := Seq($LICENSE_NAME -> $LICENSE_URL)").

(** [os.makedirs(path)] *)
Definition makedirs (path : string) : cio unit := wemit (Mkdir path).

(** [create_static_file(file, permission, replacements)]: the file is
    opened for writing; the packaged resources exist, and the content
    (with the replacements made) and the permission are not modelled. *)
Definition create_static_file (file : string) (replacements : list (string * string)) : cio unit :=
  wemit (Create file).

(** [create_license_file(license_id)], with the resource it reads. *)
Definition create_license_file (license_id : Z) : cio unit :=
  _ <~ wlift (if (license_id =? Z.of_nat (length licenses))%Z then Done "LICENSE"
              else lic <-? py_index licenses (license_id - 1) ;; Done (fst lic)) ;;;
  wemit (Create "LICENSE").

(** [init_src_directories(suffix)] *)
Definition init_src_directories (suffix : string) : cio unit :=
  _ <~ makedirs (path_join (path_join "src" "main") suffix) ;;;
  makedirs (path_join (path_join "src" "test") suffix).

(** [init_sbt_directories(name, license_id)] *)
Definition init_sbt_directories (name : string) (license_id : Z) : cio unit :=
  _ <~ makedirs "project" ;;;
  lr <~ wlift (get_license_replacement license_id false) ;;;
  _ <~ create_static_file "build.sbt" [("$$packageName$$", name); lr] ;;;
  _ <~ create_static_file (path_join "project" "build.properties") [] ;;;
  _ <~ create_static_file (path_join "project" "plugins.sbt") [] ;;;
  _ <~ makedirs "build" ;;;
  _ <~ create_static_file (path_join "build" "sbt") [] ;;;
  create_static_file (path_join "build" "sbt-launch-lib.bash") [].

(** [init_python_directories()] *)
Definition init_python_directories : cio unit :=
  _ <~ makedirs "python" ;;;
  _ <~ create_static_file (path_join "python" "setup.py") [] ;;;
  _ <~ create_static_file (path_join "python" "setup.cfg") [] ;;;
  _ <~ create_static_file (path_join "python" "MANIFEST.in") [] ;;;
  _ <~ create_static_file (path_join "python" "requirements.txt") [] ;;;
  _ <~ create_static_file (path_join "python" "spark-package-deps.txt") [] ;;;
  create_static_file (path_join "python" "tests.py") [].

Definition r_pkg (f : string) : string := path_join (path_join "R" "pkg") f.

(** [init_r_directories(name, license_id)]; [today] is
    [datetime.datetime.now().strftime("%Y-%m-%d")]. *)
Definition init_r_directories (name : string) (license_id : Z) (today : string) : cio unit :=
  _ <~ makedirs (r_pkg "R") ;;;
  _ <~ makedirs (r_pkg "man") ;;;
  _ <~ makedirs (r_pkg "data") ;;;
  _ <~ makedirs (r_pkg "src") ;;;
  repo <~ wlift (repo_of name) ;;;
  lr <~ wlift (get_license_replacement license_id true) ;;;
  let replacements := [("$$packageName$$", repo); ("$$date$$", today); lr] in
  _ <~ create_static_file (r_pkg "DESCRIPTION") replacements ;;;
  _ <~ create_static_file (r_pkg "NAMESPACE") [] ;;;
  _ <~ create_static_file (path_join (r_pkg "man") "documentation.Rd") replacements ;;;
  create_static_file (r_pkg "Read-and-delete-me") [].

(** [if b: m] *)
Definition cwhen (b : bool) (m : cio unit) : cio unit := if b then m else wret tt.

(** The part of [init_empty_package] after [os.chdir(package_dir)]. *)
Definition package_contents (name : string) (scala java python r : bool) (license_id : Z)
  (today : string) : cio unit :=
  _ <~ create_license_file license_id ;;;
  _ <~ create_static_file "README.md" [] ;;;
  _ <~ create_static_file ".gitignore" [] ;;;
  if negb scala && negb java then
    _ <~ cwhen python init_python_directories ;;;
    cwhen r (init_r_directories name license_id today)
  else
    _ <~ init_src_directories "resources" ;;;
    _ <~ cwhen (java || scala) (init_sbt_directories name license_id) ;;;
    _ <~ cwhen java (init_src_directories "java") ;;;
    _ <~ cwhen scala (init_src_directories "scala") ;;;
    _ <~ cwhen python init_python_directories ;;;
    cwhen r (init_r_directories name license_id today).

(** [init_empty_package(base_dir, name, scala, java, python, r)]:
    [path_exists] is [os.path.exists] and [inputs] the answers to the
    license prompt. *)
Definition init_empty_package (path_exists : string -> bool) (base_dir name : string)
  (scala java python r : bool) (inputs : list (option Z)) (today : string) : cio unit :=
  repo_name <~ wlift (repo_of name) ;;;
  let package_dir := path_join base_dir repo_name in
  if path_exists package_dir then wlift (Raise RuntimeError)
  else
    license_id <~ wlift (of_outcome (init_license_id inputs)) ;;;
    _ <~ makedirs package_dir ;;;
    in_dir package_dir (package_contents name scala java python r license_id today).


(** ** register and publish *)

(** The requests of the tool. [auth] is the pair whose "user:token" is
    base64-encoded into the Authorization header. *)
Inductive net_event : Type :=
  | HttpGet (url : string)
  | PostPackage (auth : string * string) (form : list (string * string))
      (* http://spark-packages.org/api/submit-package *)
  | PostRelease (auth : string * string) (git_commit_sha1 version : string) (license_id : Z)
      (name : string) (artifact_zip : string).
      (* http://spark-packages.org/api/submit-release; the artifact is the
         content of the zip file at [artifact_zip] *)



(** The effects of publish: on the file system (through [zip_artifact])
    and on the network. *)
Inductive tool_event : Type :=
  | FsEv (e : fs_event)
  | NetEv (e : net_event).

Definition of_io {A : Type} (m : io A) : wio tool_event A :=
  (of_outcome (fst m), map FsEv (snd m)).

(** [publish_release(name, user, token, folder, version, out, zip)]: [d]
    is the package directory at [folder] and [temp_dir] the directory
    [zip_artifact] would create, [git_out] the output of
    [git rev-parse HEAD] in [folder], [inputs] the answers to the license
    prompt and [post_status] the status of the POST. *)
Definition publish_release (E : env) (d : package_dir) (temp_dir : string)
  (name user token : string) (folder : option string) (version out : string)
  (zip : option string) (git_out : string) (inputs : list (option Z)) (post_status : Z)
  : wio tool_event bool :=
  f <~ wlift (match folder with
              | None => Raise TypeError
              | Some f => if is_dir E f then Done f else Raise (PyExn FileNotFoundError)
              end) ;;;
  if String.eqb (Py.strip git_out) "" then wlift (Raise (PyExn AssertionError))
  else
    let git_sha1 := Py.strip git_out in
    license_id <~ wlift (of_outcome (publish_license_id inputs)) ;;;
    zip_path <~ (match zip with
                 | None => of_io (zip_artifact d name version out temp_dir)
                 | Some z => if is_file E z then wret z else wlift (Raise (PyExn FileNotFoundError))
                 end) ;;;
    _ <~ wemit (NetEv (PostRelease (user, token) git_sha1 version license_id name zip_path)) ;;;
    wret (post_status =? 201)%Z.

(** ** Concrete command lines used by the witnesses *)

(** A credentials file as the help text of --cred describes it. *)
Definition cred_content : string :=
  ("user= alice" ++ String LF EmptyString ++ "password= tok" ++ String LF EmptyString)%string.

(** A working directory with the credentials file [creds] and the
    directories [pkg] and [out]. *)
Definition sample_env : env :=
  {| is_file := fun p => String.eqb p "creds";
     is_dir := fun p => String.eqb p "pkg" || String.eqb p "out";
     read_file := fun p => if String.eqb p "creds" then cred_content else "";
     answer_user := Some "alice";
     answer_token := Some "tok" |}.

Definition sample_options : options :=
  {| o_out := "out"; o_name := Some "test/pkg"; o_version := Some "0.2";
     o_folder := Some "pkg"; o_scala := false; o_java := false; o_python := false; o_r := false;
     o_user := None; o_token := None; o_cred := Some "creds"; o_zip := None |}.



(** * Proofs *)

(** ** Lemmas on the string primitives *)

Lemma substring_empty (m n : nat) : substring m n EmptyString = EmptyString.
Proof. destruct m, n; reflexivity. Qed.

Lemma find_from_unfold (sub s : string) (i : nat) :
  Py.find_from sub s i =
  if String.prefix sub s then Some i
  else match s with
       | EmptyString => None
       | String _ r => Py.find_from sub r (S i)
       end.
Proof. destruct s; reflexivity. Qed.

Lemma find_from_none (sub s : string) (i : nat) :
  Py.find_from sub s i = None -> forall m, substring m (String.length sub) s <> sub.
Proof.
  revert i; induction s as [|c r IH]; intros i H m Heq; revert H; rewrite find_from_unfold.
  - destruct (String.prefix sub EmptyString) eqn:Hp; [discriminate|intros _].
    rewrite substring_empty in Heq; subst sub; discriminate.
  - destruct (String.prefix sub (String c r)) eqn:Hp; [discriminate|intros H].
    destruct m as [|m].
    + apply prefix_correct in Heq. congruence.
    + simpl in Heq. exact (IH _ H m Heq).
Qed.

Lemma find_from_some (sub s : string) (i k : nat) :
  Py.find_from sub s i = Some k -> i <= k /\ first_occurrence s sub (k - i).
Proof.
  revert i; induction s as [|c r IH]; intros i H; revert H; rewrite find_from_unfold.
  - destruct (String.prefix sub EmptyString) eqn:Hp; [|discriminate].
    intros H; injection H as <-. rewrite Nat.sub_diag. split; [lia|].
    split; [apply prefix_correct; exact Hp | intros m Hm; lia].
  - destruct (String.prefix sub (String c r)) eqn:Hp; intros H.
    + injection H as <-. rewrite Nat.sub_diag. split; [lia|].
      split; [apply prefix_correct; exact Hp | intros m Hm; lia].
    + destruct (IH _ H) as [Hle [Hat Hbefore]]. split; [lia|].
      replace (k - i) with (S (k - S i)) by lia. split; [exact Hat|].
      intros [|m] Hm Heq.
      * apply prefix_correct in Heq. congruence.
      * apply (Hbefore m); [lia | exact Heq].
Qed.

Lemma py_find_some (s sub : string) (n : nat) :
  Py.find s sub = Some n -> first_occurrence s sub n.
Proof.
  unfold Py.find; intros H. apply find_from_some in H. rewrite Nat.sub_0_r in H.
  apply H.
Qed.

Lemma py_find_none (s sub : string) :
  Py.find s sub = None -> forall m, substring m (String.length sub) s <> sub.
Proof. apply find_from_none. Qed.

(** ** Lemmas on children lists *)

Lemma find_child_some (tag : string) (cs : list element) (c : element) :
  find_child tag cs = Some c ->
  exists pre post,
    cs = pre ++ c :: post /\ Forall (fun x => el_tag x <> tag) pre /\ el_tag c = tag /\
    forall f, update_first tag f cs = pre ++ f c :: post.
Proof.
  induction cs as [|x r IH]; cbn [find_child]; [discriminate|].
  destruct (String.eqb (el_tag x) tag) eqn:Hx.
  - intros H; injection H as <-. apply String.eqb_eq in Hx.
    exists [], r. split; [reflexivity|]. split; [constructor|]. split; [exact Hx|].
    intros f; cbn [update_first app]. now rewrite Hx, String.eqb_refl.
  - intros H. destruct (IH H) as (pre & post & Hcs & Hpre & Htag & Hupd).
    apply String.eqb_neq in Hx.
    exists (x :: pre), post. subst r. split; [reflexivity|].
    split; [constructor; assumption|]. split; [exact Htag|].
    intros f. cbn [update_first app]. destruct (String.eqb (el_tag x) tag) eqn:E;
      [apply String.eqb_eq in E; contradiction|]. now rewrite Hupd.
Qed.

Lemma find_child_none (tag : string) (cs : list element) :
  find_child tag cs = None -> Forall (fun x => el_tag x <> tag) cs.
Proof.
  induction cs as [|x r IH]; cbn [find_child]; [constructor|].
  destruct (String.eqb (el_tag x) tag) eqn:Hx; [discriminate|].
  intros H. constructor; [apply String.eqb_neq; exact Hx | exact (IH H)].
Qed.

Lemma update_first_none (tag : string) (f : element -> element) (cs : list element) :
  Forall (fun x => el_tag x <> tag) cs -> update_first tag f cs = cs.
Proof.
  induction 1 as [|x r Hx _ IH]; cbn [update_first]; [reflexivity|].
  destruct (String.eqb (el_tag x) tag) eqn:E;
    [apply String.eqb_eq in E; contradiction | now rewrite IH].
Qed.

Lemma py_insert_append {A : Type} (i : nat) (x : A) (l : list A) :
  length l <= i -> py_insert i x l = l ++ [x].
Proof.
  intros H. unfold py_insert. rewrite firstn_all2, skipn_all2 by exact H. reflexivity.
Qed.

Lemma nth_error_py_insert {A : Type} (i : nat) (x : A) (l : list A) :
  i <= length l -> nth_error (py_insert i x l) i = Some x.
Proof.
  intros H. unfold py_insert. rewrite nth_error_app2; rewrite length_firstn;
    [| lia]. replace (i - Nat.min i (length l)) with 0 by lia. reflexivity.
Qed.

(** ** Lemmas on element names *)

Lemma tags_with_text (e : element) (x : option string) : tags (with_text e x) = tags e.
Proof. destruct e; reflexivity. Qed.

Lemma tags_with_children (e : element) (cs : list element) :
  tags (with_children e cs) = el_tag e :: flat_map tags cs.
Proof. destruct e; reflexivity. Qed.

Lemma tags_children (e : element) : tags e = el_tag e :: flat_map tags (el_children e).
Proof. destruct e; reflexivity. Qed.

Lemma flat_map_update_first_text (tag : string) (x : option string) (cs : list element) :
  flat_map tags (update_first tag (fun c => with_text c x) cs) = flat_map tags cs.
Proof.
  induction cs as [|c r IH]; cbn [update_first flat_map]; [reflexivity|].
  destruct (String.eqb (el_tag c) tag); cbn [flat_map]; rewrite ?tags_with_text, ?IH; reflexivity.
Qed.

Lemma in_flat_map_py_insert (t : string) (i : nat) (x : element) (cs : list element) :
  In t (flat_map tags (py_insert i x cs)) -> In t (flat_map tags cs) \/ In t (tags x).
Proof.
  unfold py_insert. rewrite flat_map_app. simpl. rewrite !in_app_iff.
  rewrite <- (firstn_skipn i cs) at 3. rewrite flat_map_app, in_app_iff. tauto.
Qed.

Lemma add_or_modify_tags (root : element) (tag text : string) (idx : option nat) (t : string) :
  In t (tags (pom_add_or_modify_tag root tag text idx)) -> In t (tags root) \/ t = tag.
Proof.
  unfold pom_add_or_modify_tag, find. rewrite (tags_children root).
  destruct (find_child tag (el_children root)).
  - rewrite tags_with_children, flat_map_update_first_text. tauto.
  - destruct idx as [i|]; rewrite tags_with_children; simpl.
    + intros [H|H]; [tauto|]. apply in_flat_map_py_insert in H. simpl in H.
      firstorder congruence.
    + rewrite flat_map_app, in_app_iff. simpl. firstorder congruence.
Qed.

Lemma fold_add_tags (prefix : string) (items : list (string * string)) (d : element) (t : string) :
  In t (tags (fold_left (fun d kv => pom_add_or_modify_tag d (prefix ++ fst kv) (snd kv) None)
                items d)) ->
  In t (tags d) \/ exists kv, In kv items /\ t = (prefix ++ fst kv)%string.
Proof.
  revert d; induction items as [|kv r IH]; simpl; intros d H; [tauto|].
  destruct (IH _ H) as [H1|[kv' [Hin Heq]]]; [|right; exists kv'; tauto].
  apply add_or_modify_tags in H1. destruct H1 as [H1|H1]; [tauto|].
  right; exists kv; tauto.
Qed.

Lemma in_insert_sorted {A : Type} (x y : nat * A) (l : list (nat * A)) :
  In y (insert_sorted x l) -> y = x \/ In y l.
Proof.
  induction l as [|z r IH]; simpl; [firstorder|].
  destruct (Nat.ltb (fst x) (fst z)); simpl; [firstorder|].
  intros [H|H]; [tauto|]. destruct (IH H); tauto.
Qed.

Lemma in_fold_insert {A : Type} (keyed acc : list (nat * A)) (y : nat * A) :
  In y (fold_left (fun acc x => insert_sorted x acc) keyed acc) -> In y keyed \/ In y acc.
Proof.
  revert acc; induction keyed as [|x r IH]; simpl; intros acc H; [tauto|].
  destruct (IH _ H) as [H1|H1]; [tauto|]. apply in_insert_sorted in H1.
  destruct H1 as [->|H1]; tauto.
Qed.

Lemma key_items_in (order : list string) (items : list (string * string))
  (keyed : list (nat * (string * string))) :
  key_items order items = Ok keyed -> forall p, In p keyed -> In (snd p) items.
Proof.
  revert keyed; induction items as [|kv r IH]; simpl; intros keyed H.
  - injection H as <-. intros p [].
  - destruct (index_of (fst kv) order); [|discriminate].
    destruct (key_items order r) as [rest| |] eqn:E; simpl in H; try discriminate.
    injection H as <-. intros p [<-|Hp]; [left; reflexivity|].
    right. exact (IH _ eq_refl p Hp).
Qed.

Lemma sort_by_key_order_in (order : list string) (values items : list (string * string)) :
  sort_by_key_order order values = Ok items -> forall kv, In kv items -> In kv values.
Proof.
  unfold sort_by_key_order. destruct (key_items order values) as [keyed| |] eqn:E;
    simpl; try discriminate.
  intros H; injection H as <-. intros kv Hkv. apply in_map_iff in Hkv.
  destruct Hkv as [p [<- Hp]]. apply in_fold_insert in Hp. destruct Hp as [Hp|[]].
  exact (key_items_in _ _ _ E p Hp).
Qed.

Lemma update_first_append_tags (tg : string) (dep : element) (cs : list element) (t : string) :
  In t (flat_map tags (update_first tg (fun d => with_children d (el_children d ++ [dep])) cs)) ->
  In t (flat_map tags cs) \/ In t (tags dep).
Proof.
  induction cs as [|c r IH]; cbn [update_first flat_map]; [tauto|].
  destruct (String.eqb (el_tag c) tg); cbn [flat_map]; rewrite !in_app_iff.
  - rewrite tags_with_children, (tags_children c), flat_map_app. simpl.
    rewrite !in_app_iff. simpl. tauto.
  - intros [H|H]; [tauto|]. destruct (IH H); tauto.
Qed.

Lemma pom_add_element_tags (root : element) (prefix parent child : string)
  (values : list (string * string)) (keys order : list string) (r : element) :
  pom_add_element root prefix parent child values keys order = Ok r ->
  forall t, In t (tags r) ->
    In t (tags root) \/ t = (prefix ++ parent)%string \/ t = (prefix ++ child)%string \/
    exists kv, In kv values /\ t = (prefix ++ fst kv)%string.
Proof.
  unfold pom_add_element.
  set (root1 := match find root (prefix ++ parent) with
                | Some d => (root, d)
                | None => (with_children root (el_children root ++ [new_element (prefix ++ parent)]),
                           new_element (prefix ++ parent))
                end).
  assert (H1 : forall t, In t (tags (fst root1)) -> In t (tags root) \/ t = (prefix ++ parent)%string).
  { subst root1. destruct (find root (prefix ++ parent)); simpl; [tauto|].
    intros t. rewrite tags_with_children, (tags_children root), flat_map_app. simpl.
    rewrite !in_app_iff. simpl. firstorder congruence. }
  change (let '(root1, dependencies) := root1 in _) with
    (let '(root1, dependencies) := root1 in
     exists_ <- pom_check_if_child_exists dependencies prefix values keys ;;
     if exists_ then Ok root1
     else
       items <- sort_by_key_order order values ;;
       let dep := fold_left (fun d kv => pom_add_or_modify_tag d (prefix ++ fst kv) (snd kv) None)
                    items (new_element (prefix ++ child)) in
       Ok (with_children root1
             (update_first (prefix ++ parent)
                (fun d => with_children d (el_children d ++ [dep])) (el_children root1)))).
  destruct root1 as [root1 deps]. simpl in H1.
  destruct (pom_check_if_child_exists deps prefix values keys) as [b| |]; simpl; try discriminate.
  destruct b.
  - intros H; injection H as <-. intros t Ht. destruct (H1 t Ht); tauto.
  - destruct (sort_by_key_order order values) as [items| |] eqn:Hs; simpl; try discriminate.
    intros H; injection H as <-. intros t.
    rewrite tags_with_children. intros [Ht|Ht].
    + subst t. rewrite (tags_children root1) in H1. destruct (H1 _ (or_introl eq_refl)); tauto.
    + apply update_first_append_tags in Ht. destruct Ht as [Ht|Ht].
      * rewrite (tags_children root1) in H1. destruct (H1 t (or_intror Ht)); tauto.
      * apply fold_add_tags in Ht. destruct Ht as [Ht|[kv [Hkv ->]]].
        -- simpl in Ht. destruct Ht as [<-|[]]. tauto.
        -- right; right; right. exists kv. split; [|reflexivity].
           exact (sort_by_key_order_in _ _ _ Hs kv Hkv).
Qed.

Lemma in_pom_names_dep (s : string) :
  In s ["groupId"; "artifactId"; "version"; "dependencies"; "dependency"] -> In s pom_names.
Proof. unfold pom_names; simpl; tauto. Qed.

Lemma in_pom_names_repo (s : string) :
  In s ["id"; "name"; "url"; "layout"; "repositories"; "repository"] -> In s pom_names.
Proof. unfold pom_names; simpl; tauto. Qed.

Lemma add_sp_deps_tags (project : element) (prefix : string) (lines : list string) (r : element) :
  add_sp_deps project prefix lines = Ok r ->
  forall t, In t (tags r) ->
    In t (tags project) \/ exists s, In s pom_names /\ t = (prefix ++ s)%string.
Proof.
  revert project; induction lines as [|l rest IH]; intros project H t Ht;
    cbn [add_sp_deps] in H.
  - injection H as <-. tauto.
  - destruct (Py.startswith (Py.strip l) "#"); [exact (IH _ H t Ht)|].
    destruct (validate_and_return_sp_dep (Py.strip l)) as [[[g a] v]| |];
      cbn [obind] in H; try discriminate.
    destruct (pom_add_element project prefix "dependencies" "dependency" (dep_values g a v)
                ["groupId"; "artifactId"] ["groupId"; "artifactId"; "version"])
      as [p'| |] eqn:E; cbn [obind] in H; try discriminate.
    destruct (IH _ H t Ht) as [Ht'|Ht']; [|tauto].
    apply (pom_add_element_tags _ _ _ _ _ _ _ _ E) in Ht'.
    destruct Ht' as [Ht'|[->|[->|[kv [Hkv ->]]]]]; [tauto| | |].
    + right. exists "dependencies". split; [|reflexivity]. apply in_pom_names_dep; simpl; tauto.
    + right. exists "dependency". split; [|reflexivity]. apply in_pom_names_dep; simpl; tauto.
    + right. exists (fst kv). split; [|reflexivity]. apply in_pom_names_dep.
      simpl in Hkv. destruct Hkv as [<-|[<-|[<-|[]]]]; simpl; tauto.
Qed.

Lemma prepare_pom_tree_tags (existing : option element) (name version : string)
  (deps : option string) (r root : element) (prefix : string) :
  pom_root existing = Ok (root, prefix) ->
  prepare_pom_tree existing name version deps = Ok r ->
  forall t, In t (tags r) ->
    In t (tags root) \/ exists s, In s pom_names /\ t = (prefix ++ s)%string.
Proof.
  intros Hroot H. unfold prepare_pom_tree in H.
  destruct (split_name name) as [[g a]| |]; cbn [obind] in H; try discriminate.
  rewrite Hroot in H; cbn [obind] in H.
  set (p3 := pom_add_or_modify_tag
               (pom_add_or_modify_tag (pom_add_or_modify_tag root (prefix ++ "groupId") g (Some 1))
                  (prefix ++ "artifactId") a (Some 2)) (prefix ++ "version") version (Some 3)) in H.
  assert (H3 : forall t, In t (tags p3) ->
            In t (tags root) \/ exists s, In s pom_names /\ t = (prefix ++ s)%string).
  { intros t Ht. subst p3.
    apply add_or_modify_tags in Ht. destruct Ht as [Ht| ->];
      [| right; exists "version"; split; [unfold pom_names; simpl; tauto | reflexivity]].
    apply add_or_modify_tags in Ht. destruct Ht as [Ht| ->];
      [| right; exists "artifactId"; split; [unfold pom_names; simpl; tauto | reflexivity]].
    apply add_or_modify_tags in Ht. destruct Ht as [Ht| ->];
      [tauto | right; exists "groupId"; split; [unfold pom_names; simpl; tauto | reflexivity]]. }
  assert (H4 : forall p4, match deps with
                          | Some content => add_sp_deps p3 prefix (readlines content)
                          | None => Ok p3
                          end = Ok p4 ->
            forall t, In t (tags p4) ->
              In t (tags root) \/ exists s, In s pom_names /\ t = (prefix ++ s)%string).
  { intros p4 Hp4 t Ht. destruct deps as [content|].
    - destruct (add_sp_deps_tags _ _ _ _ Hp4 t Ht) as [Ht'|Ht']; [exact (H3 t Ht')|tauto].
    - injection Hp4 as <-. exact (H3 t Ht). }
  destruct (match deps with
            | Some content => add_sp_deps p3 prefix (readlines content)
            | None => Ok p3
            end) as [p4| |] eqn:E4; cbn [obind] in H; try discriminate.
  intros t Ht. apply (pom_add_element_tags _ _ _ _ _ _ _ _ H) in Ht.
  destruct Ht as [Ht|[->|[->|[kv [Hkv ->]]]]]; [exact (H4 _ eq_refl t Ht) | | |].
  - right. exists "repositories". split; [|reflexivity]. apply in_pom_names_repo; simpl; tauto.
  - right. exists "repository". split; [|reflexivity]. apply in_pom_names_repo; simpl; tauto.
  - right. exists (fst kv). split; [|reflexivity]. apply in_pom_names_repo.
    simpl in Hkv. destruct Hkv as [<-|[<-|[<-|[<-|[]]]]]; simpl; tauto.
Qed.

(** ** The root keeps its name and attributes *)

Definition same_head (e r : element) : Prop :=
  el_tag r = el_tag e /\ el_attrib r = el_attrib e /\ el_text r = el_text e.

Lemma same_head_with_children (e : element) (cs : list element) : same_head e (with_children e cs).
Proof. destruct e; repeat split. Qed.

Lemma same_head_trans (a b c : element) : same_head a b -> same_head b c -> same_head a c.
Proof. unfold same_head; intuition congruence. Qed.

Lemma add_or_modify_head (root : element) (tag text : string) (idx : option nat) :
  same_head root (pom_add_or_modify_tag root tag text idx).
Proof.
  unfold pom_add_or_modify_tag. destruct (find root tag); [|destruct idx];
    apply same_head_with_children.
Qed.

Lemma pom_add_element_head (root : element) (prefix parent child : string)
  (values : list (string * string)) (keys order : list string) (r : element) :
  pom_add_element root prefix parent child values keys order = Ok r -> same_head root r.
Proof.
  unfold pom_add_element.
  assert (H1 : forall root1 d, (root1, d) = match find root (prefix ++ parent) with
                | Some d => (root, d)
                | None => (with_children root (el_children root ++ [new_element (prefix ++ parent)]),
                           new_element (prefix ++ parent))
                end -> same_head root root1).
  { intros root1 d. destruct (find root (prefix ++ parent)); intros Heq; injection Heq as -> ->;
      [repeat split | apply same_head_with_children]. }
  destruct (match find root (prefix ++ parent) with
            | Some d => (root, d)
            | None => _
            end) as [root1 deps] eqn:E.
  specialize (H1 root1 deps eq_refl).
  destruct (pom_check_if_child_exists deps prefix values keys) as [[|]| |]; cbn [obind];
    try discriminate.
  - intros H; injection H as <-; exact H1.
  - destruct (sort_by_key_order order values); cbn [obind]; try discriminate.
    intros H; injection H as <-. eapply same_head_trans; [exact H1|].
    apply same_head_with_children.
Qed.

Lemma add_sp_deps_head (project : element) (prefix : string) (lines : list string) (r : element) :
  add_sp_deps project prefix lines = Ok r -> same_head project r.
Proof.
  revert project; induction lines as [|l rest IH]; intros project H; cbn [add_sp_deps] in H.
  - injection H as <-. repeat split.
  - destruct (Py.startswith (Py.strip l) "#"); [exact (IH _ H)|].
    destruct (validate_and_return_sp_dep (Py.strip l)) as [[[g a] v]| |];
      cbn [obind] in H; try discriminate.
    destruct (pom_add_element project prefix "dependencies" "dependency" (dep_values g a v)
                ["groupId"; "artifactId"] ["groupId"; "artifactId"; "version"])
      as [p'| |] eqn:E; cbn [obind] in H; try discriminate.
    eapply same_head_trans; [exact (pom_add_element_head _ _ _ _ _ _ _ _ E) | exact (IH _ H)].
Qed.

Lemma prepare_pom_tree_head (existing : option element) (name version : string)
  (deps : option string) (r root : element) (prefix : string) :
  pom_root existing = Ok (root, prefix) ->
  prepare_pom_tree existing name version deps = Ok r -> same_head root r.
Proof.
  intros Hroot H. unfold prepare_pom_tree in H.
  destruct (split_name name) as [[g a]| |]; cbn [obind] in H; try discriminate.
  rewrite Hroot in H; cbn [obind] in H.
  set (p3 := pom_add_or_modify_tag
               (pom_add_or_modify_tag (pom_add_or_modify_tag root (prefix ++ "groupId") g (Some 1))
                  (prefix ++ "artifactId") a (Some 2)) (prefix ++ "version") version (Some 3)) in H.
  assert (H3 : same_head root p3).
  { subst p3. eapply same_head_trans; [eapply same_head_trans|];
      apply add_or_modify_head. }
  destruct (match deps with
            | Some content => add_sp_deps p3 prefix (readlines content)
            | None => Ok p3
            end) as [p4| |] eqn:E4; cbn [obind] in H; try discriminate.
  assert (H4 : same_head root p4).
  { destruct deps as [content|].
    - exact (same_head_trans _ _ _ H3 (add_sp_deps_head _ _ _ _ E4)).
    - injection E4 as <-. exact H3. }
  exact (same_head_trans _ _ _ H4 (pom_add_element_head _ _ _ _ _ _ _ _ H)).
Qed.

(** ** C3: scalar upserts *)

(** C3 (amended). [pom_add_or_modify_tag root tag text (Some i)]: when a
    child named [tag] exists, the first one gets the new text and nothing
    else changes; otherwise a new child is placed with Python's
    [list.insert(i, child)], i.e. at index [min i (len children)], before the
    existing child at index [i] when there are more than [i] children, and
    it is appended exactly when there are at most [i] children. *)
Theorem pom_add_or_modify_tag_positions (root : element) (tag text : string) (i : nat) :
  let cs := el_children root in
  let r := pom_add_or_modify_tag root tag text (Some i) in
  same_head root r /\
  ((exists pre c post,
       cs = pre ++ c :: post /\ Forall (fun x => el_tag x <> tag) pre /\ el_tag c = tag /\
       el_children r = pre ++ with_text c (Some text) :: post) \/
   (Forall (fun x => el_tag x <> tag) cs /\
    el_children r = firstn i cs ++ leaf tag text :: skipn i cs /\
    nth_error (el_children r) (Nat.min i (length cs)) = Some (leaf tag text) /\
    (el_children r = cs ++ [leaf tag text] <-> length cs <= i))).
Proof.
  intros cs r. split; [apply add_or_modify_head|].
  subst r cs. unfold pom_add_or_modify_tag, find.
  destruct (find_child tag (el_children root)) as [c|] eqn:Hf.
  - left. destruct (find_child_some _ _ _ Hf) as (pre & post & Hcs & Hpre & Htag & Hupd).
    exists pre, c, post. repeat split; try assumption.
    destruct root as [t a x cs]; simpl. apply Hupd.
  - right. apply find_child_none in Hf.
    destruct root as [t a x cs]; simpl in *. split; [exact Hf|]. split; [reflexivity|].
    split.
    + destruct (Nat.le_gt_cases i (length cs)) as [Hle|Hgt].
      * rewrite Nat.min_l by exact Hle. apply nth_error_py_insert; exact Hle.
      * rewrite Nat.min_r by lia. rewrite py_insert_append by lia.
        rewrite nth_error_app2, Nat.sub_diag by lia. reflexivity.
    + split; [|intros Hle; apply py_insert_append; exact Hle].
      intros Happ. destruct (Nat.le_gt_cases (length cs) i) as [Hle|Hgt]; [exact Hle|].
      exfalso.
      assert (Hn : nth_error (cs ++ [leaf tag text]) i = Some (leaf tag text))
        by (rewrite <- Happ; apply nth_error_py_insert; lia).
      rewrite nth_error_app1 in Hn by lia.
      apply nth_error_In in Hn. rewrite Forall_forall in Hf. apply (Hf _ Hn). reflexivity.
Qed.

(** C3 counterexample: an existing pom with three children and no groupId;
    prepare_pom places groupId, artifactId and version at indices 1, 2, 3,
    in front of the existing [name] and [description] children, instead of
    appending them after the existing content. *)
Lemma scalars_inserted_not_appended :
  exists r,
    prepare_pom_tree (Some pom_without_coordinates) "test/pkg" "1.0" None = Ok r /\
    length (el_children pom_without_coordinates) > 1 /\
    nth_error (el_children r) 1 = Some (leaf "groupId" "test") /\
    nth_error (el_children r) 4 = Some (leaf "name" "n") /\
    firstn 3 (el_children r) <> el_children pom_without_coordinates.
Proof.
  eexists. split; [vm_compute; reflexivity|].
  split; [simpl; lia|]. split; [reflexivity|]. split; [reflexivity|].
  vm_compute. discriminate.
Qed.

(** ** C4: the element name prefix *)

(** C4. Without a pom.xml the root is a fresh [project] element with the
    Maven namespace, XML-Schema-instance and schema-location attributes and
    every element name added is unprefixed; with a pom.xml whose root name
    contains [project], the prefix is the part of the root name before the
    first occurrence of [project] and every element name added is that
    prefix followed by a pom name; when the root name does not contain
    [project] the merge fails (AssertionError once the name splits). *)
Theorem pom_prefix_from_root_tag :
  (forall name version deps r,
     prepare_pom_tree None name version deps = Ok r ->
     el_tag r = "project" /\ el_attrib r = el_attrib fresh_project /\
     new_tags_prefixed fresh_project "" r) /\
  (forall e n,
     Py.find (el_tag e) "project" = Some n ->
     first_occurrence (el_tag e) "project" n /\
     forall name version deps r,
       prepare_pom_tree (Some e) name version deps = Ok r ->
       el_tag r = el_tag e /\ new_tags_prefixed e (Py.slice_to (el_tag e) n) r) /\
  (forall e name version deps,
     Py.find (el_tag e) "project" = None ->
     (forall m, substring m (String.length "project") (el_tag e) <> "project") /\
     is_ok (prepare_pom_tree (Some e) name version deps) = false /\
     (is_ok (split_name name) = true ->
      prepare_pom_tree (Some e) name version deps = Crash AssertionError)).
Proof.
  split; [|split].
  - intros name version deps r H.
    assert (Hroot : pom_root None = Ok (fresh_project, "")) by reflexivity.
    destruct (prepare_pom_tree_head _ _ _ _ _ _ _ Hroot H) as [Ht [Ha _]].
    split; [exact Ht|]. split; [exact Ha|].
    exact (prepare_pom_tree_tags _ _ _ _ _ _ _ Hroot H).
  - intros e n Hn. split; [exact (py_find_some _ _ _ Hn)|].
    intros name version deps r H.
    assert (Hroot : pom_root (Some e) = Ok (e, Py.slice_to (el_tag e) n))
      by (simpl; rewrite Hn; reflexivity).
    split; [exact (proj1 (prepare_pom_tree_head _ _ _ _ _ _ _ Hroot H))|].
    exact (prepare_pom_tree_tags _ _ _ _ _ _ _ Hroot H).
  - intros e name version deps Hn. split; [exact (py_find_none _ _ Hn)|].
    unfold prepare_pom_tree. simpl pom_root. rewrite Hn.
    destruct (split_name name) as [[g a]| |]; simpl; split; auto; discriminate.
Qed.

Lemma pom_prefix_from_root_tag_witness :
  first_occurrence (el_tag namespaced_pom) "project" (String.length ns_prefix) /\
  exists r, prepare_pom_tree (Some namespaced_pom) "test/pkg" "1.0" None = Ok r /\
    new_tags_prefixed namespaced_pom ns_prefix r.
Proof.
  destruct pom_prefix_from_root_tag as [_ [H _]].
  destruct (H namespaced_pom (String.length ns_prefix) ltac:(vm_compute; reflexivity))
    as [Hfirst Hnew].
  split; [exact Hfirst|].
  eexists. split; [vm_compute; reflexivity|].
  exact (proj2 (Hnew "test/pkg" "1.0" None _ ltac:(vm_compute; reflexivity))).
Defined.

(** ** Lookups that a different upsert leaves alone *)

Lemma eqb_app_l (p a b : string) : String.eqb (p ++ a) (p ++ b) = String.eqb a b.
Proof. induction p as [|c p IH]; [reflexivity|]. cbn. rewrite Ascii.eqb_refl. exact IH. Qed.

Lemma find_child_update_other (tag tag' : string) (f : element -> element) (cs : list element) :
  tag <> tag' -> (forall c, el_tag (f c) = el_tag c) ->
  find_child tag (update_first tag' f cs) = find_child tag cs.
Proof.
  intros Hne Hf. induction cs as [|x r IH]; [reflexivity|]. cbn [update_first].
  destruct (String.eqb (el_tag x) tag') eqn:E'.
  - apply String.eqb_eq in E'. cbn [find_child]. rewrite Hf, E'.
    destruct (String.eqb tag' tag) eqn:E; [apply String.eqb_eq in E; congruence|reflexivity].
  - cbn [find_child]. rewrite IH. reflexivity.
Qed.

Lemma find_child_insert_other (tag : string) (x : element) (l1 l2 : list element) :
  el_tag x <> tag -> find_child tag (l1 ++ x :: l2) = find_child tag (l1 ++ l2).
Proof.
  intros Hx. induction l1 as [|y r IH]; cbn [app find_child].
  - destruct (String.eqb (el_tag x) tag) eqn:E; [apply String.eqb_eq in E; contradiction|reflexivity].
  - rewrite IH. reflexivity.
Qed.

Lemma find_add_or_modify_other (root : element) (tag tag' text : string) (idx : option nat) :
  tag <> tag' -> find (pom_add_or_modify_tag root tag' text idx) tag = find root tag.
Proof.
  intros Hne. unfold pom_add_or_modify_tag, find.
  destruct (find_child tag' (el_children root)); [|destruct idx as [i|]];
    destruct root as [t a x cs]; cbn [with_children el_children].
  - apply find_child_update_other; [exact Hne|]. intros [? ? ? ?]; reflexivity.
  - unfold py_insert. rewrite find_child_insert_other by (cbn; congruence).
    rewrite firstn_skipn. reflexivity.
  - rewrite <- (app_nil_r cs) at 2. apply find_child_insert_other. cbn; congruence.
Qed.

(** ** C8: an entry without a comparison key *)

(** C8. When the first [repositories] element of an existing pom.xml has as
    its first entry an element without a [url] child, the duplicate check of
    the repository upsert reads [.text] of the missing child: for every
    well-formed name, every version and no dependency file, the merge ends
    with an uncaught AttributeError. *)
Theorem pom_check_crashes_on_keyless_entry (e : element) (n : nat) (name version : string)
  (reps c : element) (rest : list element) :
  Py.find (el_tag e) "project" = Some n ->
  is_ok (split_name name) = true ->
  find e (Py.slice_to (el_tag e) n ++ "repositories") = Some reps ->
  el_children reps = c :: rest ->
  find c (Py.slice_to (el_tag e) n ++ "url") = None ->
  prepare_pom_tree (Some e) name version None = Crash AttributeError.
Proof.
  intros Hp Hname Hreps Hcs Hurl. unfold prepare_pom_tree.
  destruct (split_name name) as [[g a]| |]; try discriminate Hname. cbn [obind pom_root].
  rewrite Hp. cbn [obind]. set (p := Py.slice_to (el_tag e) n) in *.
  unfold pom_add_element.
  assert (Hne : forall s, String.eqb "repositories" s = false -> (p ++ "repositories" <> p ++ s)%string).
  { intros s Hs Heq. apply (f_equal (fun x => String.eqb x (p ++ s)%string)) in Heq.
    rewrite String.eqb_refl, eqb_app_l, Hs in Heq. discriminate. }
  rewrite !find_add_or_modify_other by (apply Hne; reflexivity).
  rewrite Hreps. unfold pom_check_if_child_exists. rewrite Hcs.
  cbn [check_children count_matches]. rewrite Hurl. reflexivity.
Qed.

Lemma pom_check_crashes_on_keyless_entry_witness :
  prepare_pom_tree (Some pom_keyless_repo) "test/pkg" "1.0" None = Crash AttributeError.
Proof.
  apply (pom_check_crashes_on_keyless_entry pom_keyless_repo 0 "test/pkg" "1.0"
           (Elem "repositories" [] None [Elem "repository" [] None [leaf "id" "central"]])
           (Elem "repository" [] None [leaf "id" "central"]) []); vm_compute; reflexivity.
Defined.

(** ** The duplicate check *)

Lemma text_eq_spec (x : option string) (v : string) : text_eq x v = true <-> x = Some v.
Proof.
  destruct x as [s|]; cbn [text_eq]; [|split; discriminate].
  rewrite String.eqb_eq. split; [intros ->; reflexivity | intros H; injection H as ->; reflexivity].
Qed.

Lemma count_matches_key (prefix : string) (values : list (string * string)) (c : element)
  (tgs : list string) (n : nat) :
  count_matches prefix values c tgs = Ok n ->
  n <= length tgs /\ (n = length tgs <-> key_of prefix tgs c = key_target values tgs).
Proof.
  revert n; induction tgs as [|t r IH]; intros n H; cbn [count_matches] in H.
  - injection H as <-. split; [constructor|]. split; reflexivity.
  - destruct (find c (prefix ++ t)) as [k|] eqn:Hk; [|discriminate].
    destruct (dict_get values t) as [v|] eqn:Hv; [|discriminate].
    destruct (count_matches prefix values c r) as [n'| |]; cbn [obind] in H; try discriminate.
    injection H as <-. destruct (IH n' eq_refl) as [Hle Hiff].
    change (key_of prefix (t :: r) c) with
      (option_map el_text (find c (prefix ++ t)) :: key_of prefix r c).
    change (key_target values (t :: r)) with
      (option_map Some (dict_get values t) :: key_target values r).
    cbn [length]. rewrite Hk, Hv. cbn [option_map].
    destruct (text_eq (el_text k) v) eqn:Ht.
    + apply text_eq_spec in Ht. rewrite Ht. split; [lia|].
      split; intros H; injection H as H; f_equal; apply Hiff; exact H.
    + split; [lia|]. split; [lia|]. intros H; injection H as H _.
      rewrite H in Ht. cbn in Ht. rewrite String.eqb_refl in Ht. discriminate.
Qed.

Lemma check_children_true (prefix : string) (values : list (string * string))
  (tgs : list string) (cs : list element) :
  check_children prefix values tgs cs = Ok true ->
  exists c, In c cs /\ key_of prefix tgs c = key_target values tgs.
Proof.
  induction cs as [|c r IH]; cbn [check_children]; [discriminate|].
  destruct (count_matches prefix values c tgs) as [n| |] eqn:Hn; cbn [obind]; try discriminate.
  destruct (Nat.eqb n (length tgs)) eqn:E.
  - intros _. apply Nat.eqb_eq in E. exists c. split; [left; reflexivity|].
    apply (count_matches_key _ _ _ _ _ Hn). exact E.
  - intros H. destruct (IH H) as (c' & Hin & Hk). exists c'. split; [right; exact Hin | exact Hk].
Qed.

Lemma check_children_false (prefix : string) (values : list (string * string))
  (tgs : list string) (cs : list element) :
  check_children prefix values tgs cs = Ok false ->
  forall c, In c cs -> key_of prefix tgs c <> key_target values tgs.
Proof.
  induction cs as [|c r IH]; cbn [check_children]; [intros _ _ []|].
  destruct (count_matches prefix values c tgs) as [n| |] eqn:Hn; cbn [obind]; try discriminate.
  destruct (Nat.eqb n (length tgs)) eqn:E; [discriminate|].
  intros H c' [<-|Hin].
  - apply Nat.eqb_neq in E. intros Hk. apply E. apply (count_matches_key _ _ _ _ _ Hn). exact Hk.
  - exact (IH H c' Hin).
Qed.

Lemma find_child_found (tag : string) (pre post : list element) (x : element) :
  Forall (fun y => el_tag y <> tag) pre -> el_tag x = tag ->
  find_child tag (pre ++ x :: post) = Some x.
Proof.
  intros Hpre Hx. induction Hpre as [|y r Hy _ IH]; cbn [app find_child].
  - rewrite Hx, String.eqb_refl. reflexivity.
  - destruct (String.eqb (el_tag y) tag) eqn:E; [apply String.eqb_eq in E; contradiction|exact IH].
Qed.

Lemma update_first_app_skip (tag : string) (f : element -> element) (l1 l2 : list element) :
  Forall (fun y => el_tag y <> tag) l1 -> update_first tag f (l1 ++ l2) = l1 ++ update_first tag f l2.
Proof.
  induction 1 as [|y r Hy _ IH]; [reflexivity|]. cbn [app update_first].
  destruct (String.eqb (el_tag y) tag) eqn:E; [apply String.eqb_eq in E; contradiction|].
  rewrite IH. reflexivity.
Qed.

(** Building an entry from items whose keys are distinct adds one leaf per
    item, in order. *)
Lemma fold_add_entry (prefix : string) (items : list (string * string)) (e : element) :
  NoDup (map fst items) ->
  Forall (fun y => forall kv, In kv items -> el_tag y <> (prefix ++ fst kv)%string) (el_children e) ->
  fold_left (fun d kv => pom_add_or_modify_tag d (prefix ++ fst kv) (snd kv) None) items e =
  with_children e (el_children e ++ map (fun kv => leaf (prefix ++ fst kv) (snd kv)) items).
Proof.
  revert e; induction items as [|kv r IH]; intros e Hnd Hcs; cbn [fold_left map].
  - rewrite app_nil_r. destruct e; reflexivity.
  - inversion Hnd as [|? ? Hnin Hnd']; subst.
    assert (Hnone : find e (prefix ++ fst kv) = None).
    { unfold find. induction Hcs as [|y l Hy _ IHl]; [reflexivity|]. cbn [find_child].
      destruct (String.eqb (el_tag y) (prefix ++ fst kv)) eqn:E;
        [apply String.eqb_eq in E; exfalso; exact (Hy kv (or_introl eq_refl) E) | exact IHl]. }
    unfold pom_add_or_modify_tag at 2. rewrite Hnone.
    rewrite IH; [| exact Hnd' |].
    + destruct e as [t a x cs]; cbn [with_children el_children].
      rewrite <- app_assoc. reflexivity.
    + destruct e as [t a x cs]; cbn [with_children el_children] in *.
      apply Forall_app. split.
      * eapply Forall_impl; [|exact Hcs]. intros y Hy kv' Hkv'. apply Hy. right. exact Hkv'.
      * constructor; [|constructor]. intros kv' Hkv' Heq. cbn in Heq.
        apply (f_equal (fun s => String.eqb s (prefix ++ fst kv')%string)) in Heq.
        rewrite String.eqb_refl, eqb_app_l in Heq. apply String.eqb_eq in Heq.
        apply Hnin. rewrite Heq. apply in_map. exact Hkv'.
Qed.

(** [pom_add_element] either leaves the collection as it is, when an entry
    with the key of [values] exists, or appends the new entry to it. *)
Lemma pom_add_element_collection (root : element) (prefix parent child : string)
  (values : list (string * string)) (keys order : list string) (r : element) :
  pom_add_element root prefix parent child values keys order = Ok r ->
  (collection r prefix parent = collection root prefix parent /\
   check_children prefix values keys (collection root prefix parent) = Ok true)
  \/ (exists items, sort_by_key_order order values = Ok items /\
      collection r prefix parent = collection root prefix parent ++
        [fold_left (fun d kv => pom_add_or_modify_tag d (prefix ++ fst kv) (snd kv) None)
           items (new_element (prefix ++ child))] /\
      check_children prefix values keys (collection root prefix parent) = Ok false).
Proof.
  unfold pom_add_element.
  destruct (find root (prefix ++ parent)) as [d|] eqn:Hd; unfold pom_check_if_child_exists.
  - assert (Hcoll : collection root prefix parent = el_children d)
      by (unfold collection; rewrite Hd; reflexivity).
    rewrite Hcoll.
    destruct (check_children prefix values keys (el_children d)) as [[|]| |] eqn:Hc;
      cbn [obind]; try discriminate.
    + intros H; injection H as <-. left. rewrite Hcoll.
      split; reflexivity.
    + destruct (sort_by_key_order order values) as [items| |]; cbn [obind]; try discriminate.
      intros H; injection H as <-. right. exists items. split; [reflexivity|].
      split; [|reflexivity].
      unfold find in Hd. destruct (find_child_some _ _ _ Hd) as (pre & post & Hcs & Hpre & Htag & Hupd).
      unfold collection, find. destruct root as [t a x cs]; cbn [with_children el_children] in *.
      rewrite Hupd, find_child_found; [| exact Hpre | destruct d; exact Htag].
      destruct d; reflexivity.
  - assert (Hcoll : collection root prefix parent = [])
      by (unfold collection; rewrite Hd; reflexivity).
    rewrite Hcoll. cbn [el_children check_children obind new_element].
    destruct (sort_by_key_order order values) as [items| |]; cbn [obind]; try discriminate.
    intros H; injection H as <-. right. exists items. split; [reflexivity|].
    split; [|reflexivity].
    unfold find in Hd. apply find_child_none in Hd.
    unfold collection, find. destruct root as [t a x cs]; cbn [with_children el_children] in *.
    rewrite update_first_app_skip by exact Hd. cbn [update_first el_tag].
    rewrite String.eqb_refl. rewrite find_child_found; [reflexivity | exact Hd | reflexivity].
Qed.

Lemma NoDup_snoc {A : Type} (l : list A) (x : A) :
  NoDup l -> ~ In x l -> NoDup (l ++ [x]).
Proof.
  induction 1 as [|y r Hy Hr IH]; intros Hx; cbn [app].
  - constructor; [intros []|constructor].
  - constructor.
    + rewrite in_app_iff. intros [H|[H|[]]]; [contradiction|]. apply Hx. left. symmetry. exact H.
    + apply IH. intros H. apply Hx. right. exact H.
Qed.

Lemma pom_add_element_skip_or_append (root r : element) (prefix parent child : string)
  (values items : list (string * string)) (keys order : list string) :
  sort_by_key_order order values = Ok items -> NoDup (map fst items) ->
  key_of prefix keys (entry prefix child items) = key_target values keys ->
  pom_add_element root prefix parent child values keys order = Ok r ->
  let C := collection root prefix parent in
  let C' := collection r prefix parent in
  ((C' = C /\ exists c, In c C /\ key_of prefix keys c = key_target values keys) \/
   (C' = C ++ [entry prefix child items] /\
    forall c, In c C -> key_of prefix keys c <> key_target values keys)) /\
  (NoDup (map (key_of prefix keys) C) -> NoDup (map (key_of prefix keys) C')).
Proof.
  intros Hs Hnd Hkey H. cbv zeta.
  destruct (pom_add_element_collection _ _ _ _ _ _ _ _ H)
    as [[Heq Hex] | (items' & Hs' & Heq & Hnot)].
  - rewrite Heq. split; [left; split; [reflexivity | exact (check_children_true _ _ _ _ Hex)]
                        | exact (fun h => h)].
  - rewrite Hs in Hs'. injection Hs' as <-.
    rewrite fold_add_entry in Heq by (exact Hnd || constructor).
    change (with_children (new_element (prefix ++ child)) ([] ++
              map (fun kv => leaf (prefix ++ fst kv) (snd kv)) items))
      with (entry prefix child items) in Heq.
    pose proof (check_children_false _ _ _ _ Hnot) as Hnot'. clear Hnot. rename Hnot' into Hnot.
    rewrite Heq. split; [right; split; [reflexivity | exact Hnot]|].
    intros Hnd0. rewrite map_app. cbn [map]. apply NoDup_snoc; [exact Hnd0|].
    intros Hin. apply in_map_iff in Hin. destruct Hin as (c & Hc & Hin).
    apply (Hnot c Hin). rewrite Hc. exact Hkey.
Qed.

Lemma key_of_entry (prefix child : string) (items : list (string * string)) (keys : list string) :
  key_of prefix keys (entry prefix child items) = key_target items keys.
Proof.
  unfold key_of, key_target. apply map_ext. intros t.
  unfold find, entry. cbn [el_children]. induction items as [|[k v] r IH]; [reflexivity|].
  cbn [map find_child el_tag leaf fst snd dict_get]. rewrite eqb_app_l.
  destruct (String.eqb k t); [reflexivity | exact IH].
Qed.

(** ** C1: upserting dependencies and the repository *)

(** C1 (amended). Each merge step of [prepare_pom] on the [dependencies]
    collection (with the spec (g, a, v)) and on the [repositories]
    collection (with the Spark Packages repository) either leaves the
    collection unchanged, when some entry already has the same
    (groupId, artifactId), resp. url, or appends one new entry whose fields
    are groupId, artifactId, version, resp. id, name, url, layout, in that
    order, when no entry has that key. Hence a step never creates a second
    entry with an existing key: keys that were pairwise distinct stay so. *)
Theorem pom_merge_skip_or_append (root r : element) (prefix g a v : string) :
  (pom_add_element root prefix "dependencies" "dependency" (dep_values g a v)
     ["groupId"; "artifactId"] ["groupId"; "artifactId"; "version"] = Ok r ->
   let C := collection root prefix "dependencies" in
   let C' := collection r prefix "dependencies" in
   let key := key_of prefix ["groupId"; "artifactId"] in
   ((C' = C /\ exists c, In c C /\ key c = [Some (Some g); Some (Some a)]) \/
    (C' = C ++ [entry prefix "dependency" (dep_values g a v)] /\
     forall c, In c C -> key c <> [Some (Some g); Some (Some a)])) /\
   (NoDup (map key C) -> NoDup (map key C'))) /\
  (pom_add_element root prefix "repositories" "repository" spark_repo ["url"]
     ["id"; "name"; "url"; "layout"] = Ok r ->
   let C := collection root prefix "repositories" in
   let C' := collection r prefix "repositories" in
   let key := key_of prefix ["url"] in
   ((C' = C /\ exists c, In c C /\
       key c = [Some (Some "http://dl.bintray.com/spark-packages/maven/")]) \/
    (C' = C ++ [entry prefix "repository" spark_repo] /\
     forall c, In c C -> key c <> [Some (Some "http://dl.bintray.com/spark-packages/maven/")])) /\
   (NoDup (map key C) -> NoDup (map key C'))).
Proof.
  split; intros H.
  - refine (pom_add_element_skip_or_append root r prefix "dependencies" "dependency"
              (dep_values g a v) (dep_values g a v) ["groupId"; "artifactId"]
              ["groupId"; "artifactId"; "version"] eq_refl _ _ H).
    + cbn. repeat constructor; cbn; intuition discriminate.
    + apply key_of_entry.
  - refine (pom_add_element_skip_or_append root r prefix "repositories" "repository"
              spark_repo spark_repo ["url"] ["id"; "name"; "url"; "layout"] eq_refl _ _ H).
    + cbn. repeat constructor; cbn; intuition discriminate.
    + apply key_of_entry.
Qed.

Lemma pom_merge_skip_or_append_witness :
  exists r, pom_add_element pom_duplicate_deps "" "dependencies" "dependency"
              (dep_values "org" "new" "2") ["groupId"; "artifactId"]
              ["groupId"; "artifactId"; "version"] = Ok r /\
    collection r "" "dependencies" =
    collection pom_duplicate_deps "" "dependencies" ++ [entry "" "dependency" (dep_values "org" "new" "2")].
Proof.
  eexists. split; [vm_compute; reflexivity|].
  destruct (proj1 (pom_merge_skip_or_append pom_duplicate_deps _ "" "org" "new" "2")
              (eq_refl _)) as [[[_ (c & Hin & Hk)] | [Heq _]] _].
  - exfalso. vm_compute in Hin. destruct Hin as [<-|[<-|[]]]; vm_compute in Hk; discriminate Hk.
  - exact Heq.
Defined.

(** Counterexample to C1: entries that were duplicates before the merge stay
    duplicates; the merge only avoids adding new ones. *)
Lemma merge_keeps_existing_duplicates :
  exists r, prepare_pom_tree (Some pom_duplicate_deps) "test/pkg" "1.0" (Some "org/lib==1") = Ok r /\
    ~ NoDup (map (key_of "" ["groupId"; "artifactId"]) (collection r "" "dependencies")).
Proof.
  eexists. split; [vm_compute; reflexivity|]. vm_compute.
  intros Hnd. inversion Hnd as [|? ? Hn]. apply Hn. left. reflexivity.
Qed.

(** ** C5: package names *)

(** C5 (a slip in validate_name). The pattern [^[a-zA-Z0-9-_]*$] accepts an
    empty segment, and its [$] accepts a segment ending in a newline: the
    names "org/" and "org/repo" followed by a newline pass [validate_name],
    while the rule of two non-empty segments over [[A-Za-z0-9\-_]] rejects
    both. *)
Theorem validate_name_accepts_empty_segment :
  validate_name (Some "org/") = Ok tt /\ name_valid_per_spec "org/" = false /\
  validate_name (Some ("org/repo" ++ String LF "")%string) = Ok tt /\
  name_valid_per_spec ("org/repo" ++ String LF "")%string = false.
Proof. vm_compute. repeat split. Qed.

(** ** C6: the jar to package *)

(** C6 (a slip in prepare_jar). The exclusion of lib, sbt and assembly jars
    tests the file name, not the path: a dependency jar ./lib/dep.jar stays
    a candidate next to the built jar, so [zip] stops with the
    multiple-jars message, while the path-based rule leaves exactly one
    candidate. *)
Theorem select_jar_keeps_lib_directory_jars :
  let walk := [(".", ["README.md"; "build.sbt"]); ("./lib", ["dep.jar"]);
               ("./target/scala-2.10", ["pkg_2.10-0.1.jar"])] in
  jar_candidates walk = ["./lib/dep.jar"; "./target/scala-2.10/pkg_2.10-0.1.jar"] /\
  select_jar true walk = Exit MsgMultipleJars /\
  jar_candidates_per_spec walk = ["./target/scala-2.10/pkg_2.10-0.1.jar"].
Proof. vm_compute. repeat split. Qed.

(** ** C10: the license index *)

Lemma get_license_id_range (inputs rest : list (option Z)) (k : Z) :
  get_license_id inputs = Ok (k, rest) -> (1 <= k <= Z.of_nat (length licenses))%Z.
Proof.
  unfold get_license_id. induction inputs as [|[x|] r IH]; cbn [get_license_id_loop];
    try discriminate.
  destruct ((x <? 1)%Z || (Z.of_nat (length licenses) <? x)%Z) eqn:E; [exact IH|].
  intros H; injection H as -> _. apply orb_false_iff in E as [E1 E2].
  apply Z.ltb_ge in E1, E2. lia.
Qed.

(** C10. When [publish_release] reads the license index from standard
    input, the value it submits as [license_id] is the index [get_license_id]
    returned minus one; the index lies in [1, 11], so the submitted value
    lies in [0, 10] and [init_empty_package], given the same input, works
    with the value one larger. *)
Theorem publish_license_id_zero_based (inputs : list (option Z)) (w : Z) :
  publish_license_id inputs = Ok w ->
  Z.of_nat (length licenses) = 11%Z /\
  (0 <= w <= Z.of_nat (length licenses) - 1)%Z /\
  (exists rest, get_license_id inputs = Ok (w + 1, rest))%Z /\
  init_license_id inputs = Ok (w + 1)%Z.
Proof.
  unfold publish_license_id, init_license_id.
  destruct (get_license_id inputs) as [[k rest]| |] eqn:E; cbn [obind fst]; try discriminate.
  intros H; injection H as <-. apply get_license_id_range in E as Hr.
  replace (k - 1 + 1)%Z with k by lia.
  split; [reflexivity|]. split; [lia|]. split; [exists rest; reflexivity | reflexivity].
Qed.

Lemma publish_license_id_zero_based_witness :
  publish_license_id [Some 0%Z; Some 12%Z; Some 1%Z] = Ok 0%Z /\
  init_license_id [Some 0%Z; Some 12%Z; Some 1%Z] = Ok 1%Z /\
  license_resource 1 = "Apache-2.0".
Proof.
  split; [reflexivity|]. split; [|reflexivity].
  exact (proj2 (proj2 (proj2 (publish_license_id_zero_based
    [Some 0%Z; Some 12%Z; Some 1%Z] 0%Z eq_refl)))).
Defined.

(** ** A malformed dependency line *)

Lemma add_sp_deps_bad_line (project : element) (prefix : string) (lines : list string) (l : string) :
  In l lines -> Py.startswith (Py.strip l) "#" = false ->
  is_ok (validate_and_return_sp_dep (Py.strip l)) = false ->
  is_ok (add_sp_deps project prefix lines) = false.
Proof.
  intros Hin Hc Hv. revert project. induction lines as [|x r IH]; intros project; [destruct Hin|].
  cbn [add_sp_deps]. destruct Hin as [->|Hin].
  - rewrite Hc. destruct (validate_and_return_sp_dep (Py.strip l)) as [[[g a] v]| |];
      [discriminate | reflexivity | reflexivity].
  - destruct (Py.startswith (Py.strip x) "#"); [exact (IH Hin project)|].
    destruct (validate_and_return_sp_dep (Py.strip x)) as [[[g a] v]| |]; cbn [obind];
      try reflexivity.
    destruct (pom_add_element project prefix "dependencies" "dependency" (dep_values g a v)
                ["groupId"; "artifactId"] ["groupId"; "artifactId"; "version"]);
      cbn [obind]; [exact (IH Hin _) | reflexivity | reflexivity].
Qed.

Lemma prepare_pom_tree_bad_line (existing : option element) (name version content l : string) :
  In l (readlines content) -> Py.startswith (Py.strip l) "#" = false ->
  is_ok (validate_and_return_sp_dep (Py.strip l)) = false ->
  is_ok (prepare_pom_tree existing name version (Some content)) = false.
Proof.
  intros Hin Hc Hv. unfold prepare_pom_tree.
  destruct (split_name name) as [[g a]| |]; cbn [obind]; try reflexivity.
  destruct (pom_root existing) as [[p0 prefix]| |]; cbn [obind]; try reflexivity.
  pose proof (add_sp_deps_bad_line
    (pom_add_or_modify_tag (pom_add_or_modify_tag (pom_add_or_modify_tag p0
       (prefix ++ "groupId") g (Some 1)) (prefix ++ "artifactId") a (Some 2))
       (prefix ++ "version") version (Some 3)) prefix _ l Hin Hc Hv) as H.
  destruct (add_sp_deps _ prefix (readlines content)); [discriminate | reflexivity | reflexivity].
Qed.

Ltac io_steps := cbn [io_bind io_lift io_ret emit fst snd app is_ok].

Ltac io_stop := split; [reflexivity|]; intros ev Hin;
  repeat (destruct Hin as [<-|Hin]; [solve [left; reflexivity | right; eexists; split; reflexivity]|]);
  destruct Hin.

Lemma zip_artifact_pom_fails (d : package_dir) (name version out_dir temp_dir : string) :
  is_ok (prepare_pom_tree (existing_pom d) name version (sp_deps_file d)) = false ->
  let res := zip_artifact d name version out_dir temp_dir in
  is_ok (fst res) = false /\
  forall ev, In ev (snd res) ->
    ev = Mkdir temp_dir \/
    exists a, zip_artifact_name name version = Ok a /\
              ev = Create (path_join temp_dir a ++ "jar")%string.
Proof.
  intros Hpp. cbv zeta. unfold zip_artifact.
  destruct (validate_name (Some name)) as [[]| |]; io_steps; try io_stop.
  destruct (validate_files_exist d) as [[]| |]; io_steps; try io_stop.
  destruct (zip_artifact_name name version) as [a| |] eqn:Ha; io_steps; try io_stop.
  unfold prepare_jar. destruct (select_jar (has_jvm_sources d) (walk d)); io_steps; try io_stop.
  unfold prepare_pom. destruct (prepare_pom_tree (existing_pom d) name version (sp_deps_file d));
    [discriminate Hpp| |]; io_steps; io_stop.
Qed.

(** ** C7: malformed dependency lines stop zip *)

(** C7 (amended). If a line of python/spark-package-deps.txt that is not a
    comment violates the form owner/repo==version, [zip] fails, and the pom
    and the release zip are never written: by then it has at most created
    the temporary directory and, inside it, the inner jar. *)
Theorem zip_bad_dep_line_stops_before_pom (d : package_dir)
  (name version out_dir temp_dir content l : string) :
  sp_deps_file d = Some content -> In l (readlines content) ->
  Py.startswith (Py.strip l) "#" = false ->
  is_ok (validate_and_return_sp_dep (Py.strip l)) = false ->
  let res := zip_artifact d name version out_dir temp_dir in
  is_ok (fst res) = false /\
  forall ev, In ev (snd res) ->
    ev = Mkdir temp_dir \/
    exists a, zip_artifact_name name version = Ok a /\
              ev = Create (path_join temp_dir a ++ "jar")%string.
Proof.
  intros Hd Hin Hc Hv. apply zip_artifact_pom_fails. rewrite Hd.
  exact (prepare_pom_tree_bad_line _ _ _ _ _ Hin Hc Hv).
Qed.

Lemma zip_bad_dep_line_stops_before_pom_witness :
  let res := zip_artifact (python_package ("wrong/format" ++ String LF "")%string)
               "test/pkg" "0.2" "out" "out/tmp1" in
  is_ok (fst res) = false /\
  forall ev, In ev (snd res) ->
    ev = Mkdir "out/tmp1" \/
    exists a, zip_artifact_name "test/pkg" "0.2" = Ok a /\
              ev = Create (path_join "out/tmp1" a ++ "jar")%string.
Proof.
  apply (zip_bad_dep_line_stops_before_pom _ _ _ _ _ ("wrong/format" ++ String LF "")%string
           ("wrong/format" ++ String LF "")%string);
    [reflexivity | left; reflexivity | reflexivity | reflexivity].
Defined.

(** Counterexample to C7: with the line wrong/format, [zip] stops with the
    malformed-dependency message after it has created the temporary
    directory and the inner jar in it. *)
Lemma zip_writes_before_dep_check :
  zip_artifact (python_package ("wrong/format" ++ String LF "")%string)
    "test/pkg" "0.2" "out" "out/tmp1" =
  (Exit MsgDepFormat, [Mkdir "out/tmp1"; Create "out/tmp1/pkg-0.2.jar"]).
Proof. vm_compute. reflexivity. Qed.

(** ** C9: blank lines in the dependency file *)

Lemma add_sp_deps_app (project project' : element) (prefix : string) (l1 l2 : list string) :
  add_sp_deps project prefix l1 = Ok project' ->
  add_sp_deps project prefix (l1 ++ l2) = add_sp_deps project' prefix l2.
Proof.
  revert project. induction l1 as [|x r IH]; intros project H; cbn [app add_sp_deps] in *.
  - injection H as <-. reflexivity.
  - destruct (Py.startswith (Py.strip x) "#"); [exact (IH _ H)|].
    destruct (validate_and_return_sp_dep (Py.strip x)) as [[[g a] v]| |];
      cbn [obind] in *; try discriminate.
    destruct (pom_add_element project prefix "dependencies" "dependency" (dep_values g a v)
                ["groupId"; "artifactId"] ["groupId"; "artifactId"; "version"]);
      cbn [obind] in *; [exact (IH _ H) | discriminate | discriminate].
Qed.

(** C9. A line of python/spark-package-deps.txt that is empty after
    [strip()] is neither a comment nor a dependency: the loop of
    [prepare_pom] stops at it with the malformed-dependency message,
    whatever the lines before it did, and [zip] on a package whose
    dependency file has such a line fails. *)
Theorem blank_dep_line_is_fatal (d : package_dir) (name version out_dir temp_dir content l : string) :
  sp_deps_file d = Some content -> In l (readlines content) -> Py.strip l = "" ->
  Py.startswith (Py.strip l) "#" = false /\
  validate_and_return_sp_dep (Py.strip l) = Exit MsgDepFormat /\
  (forall project project' prefix l1 l2,
     add_sp_deps project prefix l1 = Ok project' ->
     add_sp_deps project prefix (l1 ++ l :: l2) = Exit MsgDepFormat) /\
  is_ok (fst (zip_artifact d name version out_dir temp_dir)) = false.
Proof.
  intros Hd Hin Hb. rewrite Hb.
  assert (Hc : Py.startswith "" "#" = false) by reflexivity.
  assert (Hv : validate_and_return_sp_dep "" = Exit MsgDepFormat) by reflexivity.
  split; [exact Hc|]. split; [exact Hv|]. split.
  - intros project project' prefix l1 l2 H. rewrite (add_sp_deps_app _ _ _ _ _ H).
    cbn [add_sp_deps]. rewrite Hb, Hc, Hv. reflexivity.
  - apply zip_artifact_pom_fails. rewrite Hd.
    apply (prepare_pom_tree_bad_line _ _ _ _ l Hin); rewrite Hb; reflexivity.
Qed.

Lemma blank_dep_line_is_fatal_witness :
  let content := ("# dependencies" ++ String LF (String LF "org/lib==1") ++ String LF "")%string in
  fst (zip_artifact (python_package content) "test/pkg" "0.2" "out" "out/tmp1") = Exit MsgDepFormat /\
  is_ok (fst (zip_artifact (python_package content) "test/pkg" "0.2" "out" "out/tmp1")) = false.
Proof.
  intros content. split; [vm_compute; reflexivity|].
  assert (Hin : In (String LF "") (readlines content)) by (vm_compute; right; left; reflexivity).
  exact (proj2 (proj2 (proj2 (blank_dep_line_is_fatal (python_package content) "test/pkg" "0.2"
           "out" "out/tmp1" content (String LF "") eq_refl Hin eq_refl)))).
Defined.

(** ** Merging twice *)

Lemma count_matches_full (prefix : string) (values : list (string * string)) (c : element)
  (tgs : list string) :
  key_of prefix tgs c = key_target values tgs ->
  Forall (fun t => dict_get values t <> None) tgs ->
  count_matches prefix values c tgs = Ok (length tgs).
Proof.
  intros Hk Hd. induction Hd as [|t r Ht _ IH]; [reflexivity|].
  change (key_of prefix (t :: r) c) with
    (option_map el_text (find c (prefix ++ t)) :: key_of prefix r c) in Hk.
  change (key_target values (t :: r)) with
    (option_map Some (dict_get values t) :: key_target values r) in Hk.
  injection Hk as Hk1 Hk2. cbn [count_matches length].
  destruct (dict_get values t) as [v|]; [|contradiction].
  destruct (find c (prefix ++ t)) as [k|]; [|discriminate]. cbn in Hk1. injection Hk1 as Hk1.
  rewrite (IH Hk2). cbn [obind]. rewrite Hk1. cbn [text_eq]. rewrite String.eqb_refl. reflexivity.
Qed.

Lemma check_children_app_true (prefix : string) (values : list (string * string))
  (tgs : list string) (l1 l2 : list element) :
  check_children prefix values tgs l1 = Ok true -> check_children prefix values tgs (l1 ++ l2) = Ok true.
Proof.
  induction l1 as [|c r IH]; cbn [check_children app]; [discriminate|].
  destruct (count_matches prefix values c tgs) as [n| |]; cbn [obind]; try discriminate.
  destruct (Nat.eqb n (length tgs)); [reflexivity | exact IH].
Qed.

Lemma check_children_app_false (prefix : string) (values : list (string * string))
  (tgs : list string) (l1 l2 : list element) :
  check_children prefix values tgs l1 = Ok false ->
  check_children prefix values tgs (l1 ++ l2) = check_children prefix values tgs l2.
Proof.
  induction l1 as [|c r IH]; cbn [check_children app]; [reflexivity|].
  destruct (count_matches prefix values c tgs) as [n| |]; cbn [obind]; try discriminate.
  destruct (Nat.eqb n (length tgs)); [discriminate | exact IH].
Qed.

(** A lookup of another name than the parent's sees the same element. *)
Lemma pom_add_element_find_other (root r : element) (prefix parent child : string)
  (values : list (string * string)) (keys order : list string) (tg : string) :
  tg <> (prefix ++ parent)%string ->
  pom_add_element root prefix parent child values keys order = Ok r -> find r tg = find root tg.
Proof.
  intros Hne. unfold pom_add_element.
  assert (Hf : forall (g : element -> list element) cs,
             find_child tg (update_first (prefix ++ parent) (fun d => with_children d (g d)) cs)
             = find_child tg cs).
  { intros g cs. apply find_child_update_other; [exact Hne|]. intros [? ? ? ?]; reflexivity. }
  destruct (find root (prefix ++ parent)) as [d|] eqn:Hd; unfold pom_check_if_child_exists.
  - destruct (check_children prefix values keys (el_children d)) as [[|]| |];
      cbn [obind]; try discriminate.
    + intros H; injection H as <-. reflexivity.
    + destruct (sort_by_key_order order values) as [items| |]; cbn [obind]; try discriminate.
      intros H; injection H as <-. unfold find. destruct root as [t a x cs].
      cbn [with_children el_children]. apply Hf.
  - cbn [el_children check_children obind].
    destruct (sort_by_key_order order values) as [items| |]; cbn [obind]; try discriminate.
    intros H; injection H as <-. unfold find. destruct root as [t a x cs].
    cbn [with_children el_children]. rewrite Hf.
    rewrite <- (app_nil_r cs) at 2. apply find_child_insert_other. cbn. congruence.
Qed.

(** When an entry with the key exists, [pom_add_element] changes nothing. *)
Lemma pom_add_element_found (root : element) (prefix parent child : string)
  (values : list (string * string)) (keys order : list string) :
  check_children prefix values keys (collection root prefix parent) = Ok true ->
  pom_add_element root prefix parent child values keys order = Ok root.
Proof.
  unfold collection, pom_add_element, pom_check_if_child_exists.
  destruct (find root (prefix ++ parent)); [|discriminate].
  intros H; rewrite H; reflexivity.
Qed.

Lemma find_entry (prefix child : string) (items : list (string * string)) (t : string) :
  find (entry prefix child items) (prefix ++ t) =
  option_map (fun v => leaf (prefix ++ t) v) (dict_get items t).
Proof.
  unfold find, entry. cbn [el_children]. induction items as [|[k v] r IH]; [reflexivity|].
  cbn [map find_child el_tag leaf fst snd dict_get]. rewrite eqb_app_l.
  destruct (String.eqb k t) eqn:E; [apply String.eqb_eq in E; subst k; reflexivity | exact IH].
Qed.

Lemma entry_stable (prefix child : string) (items : list (string * string)) (keys : list string) :
  (forall t, In t keys -> dict_get items t <> Some "") -> stable_entry prefix keys (entry prefix child items).
Proof.
  intros Hv t Ht k. rewrite find_entry. destruct (dict_get items t) as [v|] eqn:E; [|discriminate].
  intros H; injection H as <-. split; [reflexivity|]. cbn. intros Hs; injection Hs as ->.
  exact (Hv t Ht E).
Qed.

(** After [pom_add_element], the duplicate check finds the key of [values]
    in the collection, which only grew at its end. *)
Lemma pom_add_element_after (root r : element) (prefix parent child : string)
  (values items : list (string * string)) (keys order : list string) :
  sort_by_key_order order values = Ok items -> NoDup (map fst items) ->
  key_of prefix keys (entry prefix child items) = key_target values keys ->
  Forall (fun t => dict_get values t <> None) keys ->
  pom_add_element root prefix parent child values keys order = Ok r ->
  check_children prefix values keys (collection r prefix parent) = Ok true /\
  (exists extra, collection r prefix parent = collection root prefix parent ++ extra /\
     (stable_entry prefix keys (entry prefix child items) ->
      Forall (stable_entry prefix keys) extra)).
Proof.
  intros Hs Hnd Hkey Hd H.
  destruct (pom_add_element_collection _ _ _ _ _ _ _ _ H)
    as [[Heq Hc] | (items' & Hs' & Heq & Hc)].
  - rewrite Heq. split; [exact Hc|]. exists []. rewrite app_nil_r. split; [reflexivity|].
    intros _. constructor.
  - rewrite Hs in Hs'. injection Hs' as <-.
    rewrite fold_add_entry in Heq by (exact Hnd || constructor).
    assert (He : with_children (new_element (prefix ++ child))
                   (el_children (new_element (prefix ++ child)) ++
                    map (fun kv => leaf (prefix ++ fst kv) (snd kv)) items)
                 = entry prefix child items) by reflexivity.
    rewrite He in Heq. rewrite Heq. split.
    + rewrite (check_children_app_false _ _ _ _ _ Hc). cbn [check_children].
      rewrite (count_matches_full _ _ _ _ Hkey Hd). cbn [obind]. rewrite Nat.eqb_refl. reflexivity.
    + exists [entry prefix child items]. split; [reflexivity|]. intros Hst. constructor; [exact Hst|constructor].
Qed.

Lemma dep_step_facts (g a v : string) :
  sort_by_key_order ["groupId"; "artifactId"; "version"] (dep_values g a v) = Ok (dep_values g a v) /\
  NoDup (map fst (dep_values g a v)) /\
  Forall (fun t => dict_get (dep_values g a v) t <> None) ["groupId"; "artifactId"].
Proof.
  split; [reflexivity|]. split.
  - cbn. repeat constructor; cbn; intuition discriminate.
  - repeat constructor; cbn; discriminate.
Qed.

(** The first run of the dependency loop: afterwards the duplicate check
    finds every dependency of the file, the dependency collection only grew
    at its end, by entries that read back as they are, and nothing outside
    the [dependencies] element changed. *)
Lemma add_sp_deps_first_run (project r : element) (prefix : string) (lines : list string) :
  (forall l g a v, In l lines -> Py.startswith (Py.strip l) "#" = false ->
     validate_and_return_sp_dep (Py.strip l) = Ok (g, a, v) -> g <> "" /\ a <> "") ->
  Forall (stable_entry prefix ["groupId"; "artifactId"]) (collection project prefix "dependencies") ->
  add_sp_deps project prefix lines = Ok r ->
  Forall (stable_entry prefix ["groupId"; "artifactId"]) (collection r prefix "dependencies") /\
  (exists extra, collection r prefix "dependencies" = collection project prefix "dependencies" ++ extra) /\
  (forall tg, tg <> (prefix ++ "dependencies")%string -> find r tg = find project tg) /\
  (forall l, In l lines -> Py.startswith (Py.strip l) "#" = false ->
     exists g a v, validate_and_return_sp_dep (Py.strip l) = Ok (g, a, v) /\
       check_children prefix (dep_values g a v) ["groupId"; "artifactId"]
         (collection r prefix "dependencies") = Ok true).
Proof.
  revert project. induction lines as [|l rest IH]; intros project Hne Hst H; cbn [add_sp_deps] in H.
  - injection H as <-. split; [exact Hst|]. split; [exists []; rewrite app_nil_r; reflexivity|].
    split; [reflexivity|]. intros l [].
  - destruct (Py.startswith (Py.strip l) "#") eqn:Hc.
    + destruct (IH project (fun l' g a v Hin => Hne l' g a v (or_intror Hin)) Hst H)
        as (Hst' & Hext & Hfind & Hall).
      split; [exact Hst'|]. split; [exact Hext|]. split; [exact Hfind|].
      intros l' [<-|Hin] Hc'; [rewrite Hc in Hc'; discriminate | exact (Hall l' Hin Hc')].
    + destruct (validate_and_return_sp_dep (Py.strip l)) as [[[g a] v]| |] eqn:Hv;
        cbn [obind] in H; try discriminate.
      destruct (pom_add_element project prefix "dependencies" "dependency" (dep_values g a v)
                  ["groupId"; "artifactId"] ["groupId"; "artifactId"; "version"])
        as [p1| |] eqn:Hp1; cbn [obind] in H; try discriminate.
      destruct (dep_step_facts g a v) as (Hs & Hnd & Hd).
      destruct (pom_add_element_after _ _ _ _ _ _ _ _ _ Hs Hnd (key_of_entry _ _ _ _) Hd Hp1)
        as [Hchk1 (extra1 & Hext1 & Hst1)].
      destruct (Hne l g a v (or_introl eq_refl) Hc Hv) as [Hg Ha].
      assert (Hste : stable_entry prefix ["groupId"; "artifactId"] (entry prefix "dependency" (dep_values g a v))).
      { apply entry_stable. intros t [<-|[<-|[]]]; cbn; intros E; injection E as E; contradiction. }
      assert (Hst1' : Forall (stable_entry prefix ["groupId"; "artifactId"]) (collection p1 prefix "dependencies")).
      { rewrite Hext1. apply Forall_app. split; [exact Hst | exact (Hst1 Hste)]. }
      destruct (IH p1 (fun l' g a v Hin => Hne l' g a v (or_intror Hin)) Hst1' H)
        as (Hst' & (extra2 & Hext2) & Hfind & Hall).
      split; [exact Hst'|]. split.
      * exists (extra1 ++ extra2). rewrite Hext2, Hext1, app_assoc. reflexivity.
      * split.
        -- intros tg Htg. rewrite (Hfind tg Htg). exact (pom_add_element_find_other _ _ _ _ _ _ _ _ _ Htg Hp1).
        -- intros l' [<-|Hin] Hc'.
           ++ exists g, a, v. split; [exact Hv|]. rewrite Hext2. apply check_children_app_true. exact Hchk1.
           ++ exact (Hall l' Hin Hc').
Qed.

Section ReparseLemmas.

Variable rename : string -> string.
Variable rt_attrib : element -> list (string * string).
Variable container_text : element -> option string.
Hypothesis rename_eqb : forall x y, String.eqb (rename x) (rename y) = String.eqb x y.

Local Abbreviation rt := (reparse rename rt_attrib container_text).

Lemma el_tag_reparse (e : element) : el_tag (rt e) = rename (el_tag e).
Proof. destruct e; reflexivity. Qed.

Lemma find_reparse (e : element) (tg : string) :
  find (rt e) (rename tg) = option_map rt (find e tg).
Proof.
  destruct e as [t a x cs]. unfold find. cbn [reparse el_children].
  induction cs as [|c r IH]; [reflexivity|]. cbn [map find_child].
  rewrite el_tag_reparse, rename_eqb. destruct (String.eqb (el_tag c) tg); [reflexivity | exact IH].
Qed.

Lemma collection_reparse (e : element) (prefix prefix' parent : string) :
  rename (prefix ++ parent) = (prefix' ++ parent)%string ->
  collection (rt e) prefix' parent = map rt (collection e prefix parent).
Proof.
  intros Hp. unfold collection. rewrite <- Hp, find_reparse.
  destruct (find e (prefix ++ parent)) as [[t a x cs]|]; reflexivity.
Qed.

Lemma count_matches_reparse (prefix prefix' : string) (values : list (string * string))
  (c : element) (tgs : list string) :
  (forall t, In t tgs -> rename (prefix ++ t) = (prefix' ++ t)%string) ->
  stable_entry prefix tgs c ->
  count_matches prefix' values (rt c) tgs = count_matches prefix values c tgs.
Proof.
  intros Hp Hst. induction tgs as [|t r IH]; [reflexivity|]. cbn [count_matches].
  rewrite <- (Hp t (or_introl eq_refl)), find_reparse.
  destruct (find c (prefix ++ t)) as [k|] eqn:Hk; [|reflexivity]. cbn [option_map].
  destruct (Hst t (or_introl eq_refl) k Hk) as [Hleaf Hne].
  rewrite IH.
  - destruct k as [kt ka kx kcs]; cbn [el_children] in Hleaf; subst kcs.
    cbn [reparse map el_text] in *. destruct kx as [[|ch s]|]; try reflexivity.
    exfalso; apply Hne; reflexivity.
  - intros t' Ht'. apply Hp. right. exact Ht'.
  - intros t' Ht'. apply Hst. right. exact Ht'.
Qed.

Lemma check_children_reparse (prefix prefix' : string) (values : list (string * string))
  (tgs : list string) (cs : list element) :
  (forall t, In t tgs -> rename (prefix ++ t) = (prefix' ++ t)%string) ->
  Forall (stable_entry prefix tgs) cs ->
  check_children prefix' values tgs (map rt cs) = check_children prefix values tgs cs.
Proof.
  intros Hp. induction 1 as [|c r Hc _ IH]; [reflexivity|]. cbn [map check_children].
  rewrite (count_matches_reparse _ _ _ _ _ Hp Hc), IH. reflexivity.
Qed.

End ReparseLemmas.

Lemma find_add_or_modify_same (root : element) (tag text : string) (idx : option nat) :
  option_map el_text (find (pom_add_or_modify_tag root tag text idx) tag) = Some (Some text).
Proof.
  unfold pom_add_or_modify_tag, find. destruct root as [t a x cs]. cbn [el_children with_children].
  destruct (find_child tag cs) as [c|] eqn:Hf; cbn [el_children].
  - destruct (find_child_some _ _ _ Hf) as (pre & post & _ & Hpre & Htag & Hupd).
    rewrite Hupd, find_child_found; [| exact Hpre | destruct c; exact Htag]. destruct c; reflexivity.
  - apply find_child_none in Hf. destruct idx as [i|]; cbn [el_children].
    + unfold py_insert. rewrite find_child_found; [reflexivity | | reflexivity].
      rewrite <- (firstn_skipn i cs) in Hf. apply Forall_app in Hf. exact (proj1 Hf).
    + rewrite find_child_found; [reflexivity | exact Hf | reflexivity].
Qed.

Lemma add_sp_deps_find_other (project r : element) (prefix : string) (lines : list string) (tg : string) :
  tg <> (prefix ++ "dependencies")%string ->
  add_sp_deps project prefix lines = Ok r -> find r tg = find project tg.
Proof.
  intros Htg. revert project. induction lines as [|l rest IH]; intros project H; cbn [add_sp_deps] in H.
  - injection H as <-. reflexivity.
  - destruct (Py.startswith (Py.strip l) "#"); [exact (IH _ H)|].
    destruct (validate_and_return_sp_dep (Py.strip l)) as [[[g a] v]| |];
      cbn [obind] in H; try discriminate.
    destruct (pom_add_element project prefix "dependencies" "dependency" (dep_values g a v)
                ["groupId"; "artifactId"] ["groupId"; "artifactId"; "version"])
      as [p1| |] eqn:Hp1; cbn [obind] in H; try discriminate.
    rewrite (IH _ H). exact (pom_add_element_find_other _ _ _ _ _ _ _ _ _ Htg Hp1).
Qed.

Lemma app_prefix_neq (prefix s1 s2 : string) :
  String.eqb s1 s2 = false -> (prefix ++ s1)%string <> (prefix ++ s2)%string.
Proof.
  intros Hs Heq. apply (f_equal (fun x => String.eqb x (prefix ++ s2)%string)) in Heq.
  rewrite String.eqb_refl, eqb_app_l, Hs in Heq. discriminate.
Qed.

(** The scalars of a merged pom hold the name's two parts and the version. *)
Lemma prepare_pom_tree_scalars (existing : option element) (name version : string)
  (deps : option string) (r root0 : element) (prefix g a : string) :
  split_name name = Ok (g, a) -> pom_root existing = Ok (root0, prefix) ->
  prepare_pom_tree existing name version deps = Ok r ->
  option_map el_text (find r (prefix ++ "groupId")) = Some (Some g) /\
  option_map el_text (find r (prefix ++ "artifactId")) = Some (Some a) /\
  option_map el_text (find r (prefix ++ "version")) = Some (Some version).
Proof.
  intros Hn Hr H. unfold prepare_pom_tree in H. rewrite Hn in H. cbn [obind] in H.
  rewrite Hr in H. cbn [obind] in H.
  set (p1 := pom_add_or_modify_tag root0 (prefix ++ "groupId") g (Some 1)) in H.
  set (p2 := pom_add_or_modify_tag p1 (prefix ++ "artifactId") a (Some 2)) in H.
  set (p3 := pom_add_or_modify_tag p2 (prefix ++ "version") version (Some 3)) in H.
  destruct (match deps with
            | Some content => add_sp_deps p3 prefix (readlines content)
            | None => Ok p3
            end) as [p4| |] eqn:E4; cbn [obind] in H; try discriminate.
  assert (Hkeep : forall s, In s ["groupId"; "artifactId"; "version"] ->
            find r (prefix ++ s) = find p3 (prefix ++ s)).
  { intros s Hs. rewrite (pom_add_element_find_other _ _ _ _ _ _ _ _ _ 
      (app_prefix_neq prefix s "repositories" ltac:(destruct Hs as [<-|[<-|[<-|[]]]]; reflexivity)) H).
    destruct deps as [content|]; [|injection E4 as <-; reflexivity].
    exact (add_sp_deps_find_other _ _ _ _ _
      (app_prefix_neq prefix s "dependencies" ltac:(destruct Hs as [<-|[<-|[<-|[]]]]; reflexivity)) E4). }
  rewrite !Hkeep by (cbn; tauto).
  split; [|split].
  - subst p3 p2. rewrite !find_add_or_modify_other by (apply app_prefix_neq; reflexivity).
    apply find_add_or_modify_same.
  - subst p3. rewrite find_add_or_modify_other by (apply app_prefix_neq; reflexivity).
    apply find_add_or_modify_same.
  - apply find_add_or_modify_same.
Qed.

(** The dependency loop of a second run, when every dependency is found. *)
Lemma add_sp_deps_second_run (project : element) (prefix : string) (lines : list string) :
  (forall l, In l lines -> Py.startswith (Py.strip l) "#" = false ->
     exists g a v, validate_and_return_sp_dep (Py.strip l) = Ok (g, a, v) /\
       check_children prefix (dep_values g a v) ["groupId"; "artifactId"]
         (collection project prefix "dependencies") = Ok true) ->
  add_sp_deps project prefix lines = Ok project.
Proof.
  intros Hall. induction lines as [|l rest IH]; cbn [add_sp_deps]; [reflexivity|].
  assert (IH' := IH (fun l' Hin => Hall l' (or_intror Hin))).
  destruct (Py.startswith (Py.strip l) "#") eqn:Hc; [exact IH'|].
  destruct (Hall l (or_introl eq_refl) Hc) as (g & a & v & Hv & Hchk).
  rewrite Hv. cbn [obind]. rewrite (pom_add_element_found _ _ _ _ _ _ _ Hchk). cbn [obind]. exact IH'.
Qed.

Lemma scalars_collection (e : element) (prefix g a v parent : string) (i1 i2 i3 : option nat) :
  String.eqb parent "groupId" = false -> String.eqb parent "artifactId" = false ->
  String.eqb parent "version" = false ->
  collection (pom_add_or_modify_tag (pom_add_or_modify_tag (pom_add_or_modify_tag e
    (prefix ++ "groupId") g i1) (prefix ++ "artifactId") a i2) (prefix ++ "version") v i3)
    prefix parent = collection e prefix parent.
Proof.
  intros H1 H2 H3. unfold collection.
  rewrite !find_add_or_modify_other by (apply app_prefix_neq; assumption). reflexivity.
Qed.

Lemma repo_step_facts :
  sort_by_key_order ["id"; "name"; "url"; "layout"] spark_repo = Ok spark_repo /\
  NoDup (map fst spark_repo) /\
  Forall (fun t => dict_get spark_repo t <> None) ["url"] /\
  forall prefix, stable_entry prefix ["url"] (entry prefix "repository" spark_repo).
Proof.
  split; [reflexivity|]. split; [cbn; repeat constructor; cbn; intuition discriminate|].
  split; [repeat constructor; cbn; discriminate|].
  intros prefix. apply entry_stable. intros t [<-|[]]. cbn. discriminate.
Qed.

(** ** C2: merging the merged pom again *)

(** C2 (amended). Read the pom a merge wrote back in (the reparse renames
    tags by an injective [rename] that maps the prefix of the first run to
    the one detected in the second, keeps the texts of elements without
    children except that an empty text reads back as missing, and gives any
    attributes and any text to the other elements). Merge it again with the
    same name, version and dependency file. Assume every dependency line of
    the file has a non-empty owner and repository, and that the comparison
    children of the existing entries of the original pom are elements
    without children and with non-empty text. Then the second merge
    succeeds, keeps the texts of groupId, artifactId and version, and adds
    no entry to [dependencies] or [repositories]. *)
Theorem prepare_pom_idempotent
  (rename : string -> string) (rt_attrib : element -> list (string * string))
  (container_text : element -> option string)
  (existing : option element) (name version : string) (deps : option string)
  (root0 r1 : element) (prefix prefix' : string) (n : nat) :
  (forall x y, String.eqb (rename x) (rename y) = String.eqb x y) ->
  pom_root existing = Ok (root0, prefix) ->
  Py.find (rename (el_tag root0)) "project" = Some n ->
  prefix' = Py.slice_to (rename (el_tag root0)) n ->
  (forall s, rename (prefix ++ s)%string = (prefix' ++ s)%string) ->
  Forall (stable_entry prefix ["groupId"; "artifactId"]) (collection root0 prefix "dependencies") ->
  Forall (stable_entry prefix ["url"]) (collection root0 prefix "repositories") ->
  (forall content l g a v, deps = Some content -> In l (readlines content) ->
     Py.startswith (Py.strip l) "#" = false ->
     validate_and_return_sp_dep (Py.strip l) = Ok (g, a, v) -> g <> "" /\ a <> "") ->
  prepare_pom_tree existing name version deps = Ok r1 ->
  let r1' := reparse rename rt_attrib container_text r1 in
  exists r2, prepare_pom_tree (Some r1') name version deps = Ok r2 /\
    (forall s, In s ["groupId"; "artifactId"; "version"] ->
       option_map el_text (find r2 (prefix' ++ s)%string) =
       option_map el_text (find r1 (prefix ++ s)%string)) /\
    length (collection r2 prefix' "dependencies") = length (collection r1 prefix "dependencies") /\
    length (collection r2 prefix' "repositories") = length (collection r1 prefix "repositories").
Proof.
  intros Heqb Hroot Hn Hp' Hren Hstd Hstr Hne H1 r1'.
  pose proof H1 as H1c. unfold prepare_pom_tree in H1.
  destruct (split_name name) as [[g a]| |] eqn:Hsn; cbn [obind] in H1; try discriminate.
  rewrite Hroot in H1. cbn [obind] in H1.
  set (p3 := pom_add_or_modify_tag (pom_add_or_modify_tag (pom_add_or_modify_tag root0
               (prefix ++ "groupId") g (Some 1)) (prefix ++ "artifactId") a (Some 2))
               (prefix ++ "version") version (Some 3)) in H1.
  destruct (match deps with
            | Some content => add_sp_deps p3 prefix (readlines content)
            | None => Ok p3
            end) as [p4| |] eqn:E4; cbn [obind] in H1; try discriminate.
  (* the dependency step of the first run *)
  assert (Hp3d : collection p3 prefix "dependencies" = collection root0 prefix "dependencies")
    by (apply scalars_collection; reflexivity).
  assert (Hp3r : collection p3 prefix "repositories" = collection root0 prefix "repositories")
    by (apply scalars_collection; reflexivity).
  assert (F1 : Forall (stable_entry prefix ["groupId"; "artifactId"]) (collection p4 prefix "dependencies") /\
               collection p4 prefix "repositories" = collection root0 prefix "repositories" /\
               forall content l, deps = Some content -> In l (readlines content) ->
                 Py.startswith (Py.strip l) "#" = false ->
                 exists g a v, validate_and_return_sp_dep (Py.strip l) = Ok (g, a, v) /\
                   check_children prefix (dep_values g a v) ["groupId"; "artifactId"]
                     (collection p4 prefix "dependencies") = Ok true).
  { destruct deps as [content|].
    - rewrite <- Hp3d in Hstd.
      destruct (add_sp_deps_first_run p3 p4 prefix (readlines content)
                  (fun l g a v Hin Hc Hv => Hne content l g a v eq_refl Hin Hc Hv) Hstd E4)
        as (Hst4 & _ & Hfind & Hall).
      split; [exact Hst4|]. split.
      + rewrite <- Hp3r. unfold collection.
        rewrite (Hfind _ (app_prefix_neq prefix "repositories" "dependencies" eq_refl)). reflexivity.
      + intros content' l Hc' Hin Hc. injection Hc' as <-. exact (Hall l Hin Hc).
    - injection E4 as <-. split; [rewrite Hp3d; exact Hstd|]. split; [exact Hp3r|].
      intros content l Hc; discriminate Hc. }
  destruct F1 as (Hst4 & Hp4r & Hall).
  (* the repository step of the first run *)
  destruct repo_step_facts as (Hrs & Hrnd & Hrd & Hrst).
  destruct (pom_add_element_after _ _ _ _ _ _ _ _ _ Hrs Hrnd (key_of_entry _ _ _ _) Hrd H1)
    as [Hchkr (extra & Hextr & Hstx)].
  assert (Hr1d : collection r1 prefix "dependencies" = collection p4 prefix "dependencies").
  { unfold collection.
    rewrite (pom_add_element_find_other _ _ _ _ _ _ _ _ _
               (app_prefix_neq prefix "dependencies" "repositories" eq_refl) H1).
    reflexivity. }
  assert (Hst1r : Forall (stable_entry prefix ["url"]) (collection r1 prefix "repositories")).
  { rewrite Hextr, Hp4r. apply Forall_app. split; [exact Hstr | exact (Hstx (Hrst prefix))]. }
  (* the second run *)
  assert (Htag1 : el_tag r1 = el_tag root0)
    by exact (proj1 (prepare_pom_tree_head _ _ _ _ _ _ _ Hroot H1c)).
  assert (Hroot2 : pom_root (Some r1') = Ok (r1', prefix')).
  { unfold pom_root, r1'. rewrite el_tag_reparse, Htag1, Hn. subst prefix'. reflexivity. }
  set (q3 := pom_add_or_modify_tag (pom_add_or_modify_tag (pom_add_or_modify_tag r1'
               (prefix' ++ "groupId") g (Some 1)) (prefix' ++ "artifactId") a (Some 2))
               (prefix' ++ "version") version (Some 3)).
  assert (Hq3d : collection q3 prefix' "dependencies" =
                 map (reparse rename rt_attrib container_text) (collection r1 prefix "dependencies")).
  { unfold q3. rewrite scalars_collection by reflexivity.
    apply collection_reparse; [exact Heqb | apply Hren]. }
  assert (Hq3r : collection q3 prefix' "repositories" =
                 map (reparse rename rt_attrib container_text) (collection r1 prefix "repositories")).
  { unfold q3. rewrite scalars_collection by reflexivity.
    apply collection_reparse; [exact Heqb | apply Hren]. }
  assert (Hdeps2 : match deps with
                   | Some content => add_sp_deps q3 prefix' (readlines content)
                   | None => Ok q3
                   end = Ok q3).
  { destruct deps as [content|]; [|reflexivity]. apply add_sp_deps_second_run.
    intros l Hin Hc. destruct (Hall content l eq_refl Hin Hc) as (g' & a' & v' & Hv & Hchk).
    exists g', a', v'. split; [exact Hv|].
    rewrite Hq3d, (check_children_reparse _ _ _ Heqb prefix prefix').
    - rewrite Hr1d. exact Hchk.
    - intros t _. apply Hren.
    - rewrite Hr1d. exact Hst4. }
  assert (Hrepo2 : pom_add_element q3 prefix' "repositories" "repository" spark_repo ["url"]
                     ["id"; "name"; "url"; "layout"] = Ok q3).
  { apply pom_add_element_found. rewrite Hq3r, (check_children_reparse _ _ _ Heqb prefix prefix').
    - exact Hchkr.
    - intros t _. apply Hren.
    - exact Hst1r. }
  assert (H2 : prepare_pom_tree (Some r1') name version deps = Ok q3).
  { unfold prepare_pom_tree. rewrite Hsn. cbn [obind]. rewrite Hroot2. cbn [obind].
    fold q3. rewrite Hdeps2. cbn [obind]. exact Hrepo2. }
  exists q3. split; [exact H2|]. split; [|split].
  - intros s Hs.
    destruct (prepare_pom_tree_scalars _ _ _ _ _ _ _ _ _ Hsn Hroot H1c) as (G1 & A1 & V1).
    destruct (prepare_pom_tree_scalars _ _ _ _ _ _ _ _ _ Hsn Hroot2 H2) as (G2 & A2 & V2).
    destruct Hs as [<-|[<-|[<-|[]]]]; congruence.
  - rewrite Hq3d, length_map. reflexivity.
  - rewrite Hq3r, length_map. reflexivity.
Qed.

(** C2 (counterexample). A fresh pom merged with a dependency file whose
    line has an empty owner: the first run writes a groupId with empty text,
    which reads back as missing, so the second run does not recognise the
    entry and appends it again; the dependency count grows from 1 to 2. *)
Lemma merge_twice_grows_on_empty_owner :
  match prepare_pom_tree None "test/pkg" "0.1" (Some deps_empty_owner) with
  | Ok r1 =>
      match prepare_pom_tree (Some (reparse ns_rename el_attrib (fun _ => None) r1))
              "test/pkg" "0.1" (Some deps_empty_owner) with
      | Ok r2 =>
          length (collection r1 "" "dependencies") = 1 /\
          length (collection r2 ns_prefix "dependencies") = 2
      | _ => False
      end
  | _ => False
  end.
Proof. vm_compute. split; reflexivity. Qed.

Lemma prepare_pom_idempotent_witness :
  let r1 := match prepare_pom_tree None "test/pkg" "0.1" (Some deps_one) with
            | Ok r => r | _ => fresh_project end in
  exists r2, prepare_pom_tree (Some (reparse ns_rename el_attrib (fun _ => None) r1))
               "test/pkg" "0.1" (Some deps_one) = Ok r2 /\
    (forall s, In s ["groupId"; "artifactId"; "version"] ->
       option_map el_text (find r2 (ns_prefix ++ s)%string) =
       option_map el_text (find r1 ("" ++ s)%string)) /\
    length (collection r2 ns_prefix "dependencies") = length (collection r1 "" "dependencies") /\
    length (collection r2 ns_prefix "repositories") = length (collection r1 "" "repositories").
Proof.
  intros r1.
  apply (prepare_pom_idempotent ns_rename el_attrib (fun _ => None) None "test/pkg" "0.1"
           (Some deps_one) fresh_project r1 "" ns_prefix (String.length ns_prefix)).
  - intros x y. apply eqb_app_l.
  - reflexivity.
  - vm_compute. reflexivity.
  - vm_compute. reflexivity.
  - intros s. reflexivity.
  - vm_compute. constructor.
  - vm_compute. constructor.
  - intros content l g a v Hc Hin _ Hv. injection Hc as <-.
    vm_compute in Hin. destruct Hin as [<-|[]].
    vm_compute in Hv. injection Hv as <- <- _. split; discriminate.
  - vm_compute. reflexivity.
Defined.

(** * Further properties of the tool *)

(** ** Lemmas on strings *)

Lemma sapp_nil_r (s : string) : (s ++ "")%string = s.
Proof. induction s as [|c r IH]; [reflexivity | cbn; rewrite IH; reflexivity]. Qed.

Lemma sapp_nil_l (s : string) : ("" ++ s)%string = s.
Proof. reflexivity. Qed.

Lemma sapp_assoc (a b c : string) : ((a ++ b) ++ c)%string = (a ++ (b ++ c))%string.
Proof. induction a as [|x r IH]; [reflexivity | cbn; rewrite IH; reflexivity]. Qed.

Lemma list_ascii_app (a b : string) :
  list_ascii_of_string (a ++ b) = list_ascii_of_string a ++ list_ascii_of_string b.
Proof. induction a as [|x r IH]; [reflexivity | cbn; rewrite IH; reflexivity]. Qed.

Lemma prefix_cons_neq (h c : ascii) (t r : string) :
  h <> c -> String.prefix (String h t) (String c r) = false.
Proof. intros H. cbn. destruct (ascii_dec h c); congruence. Qed.

Lemma prefix_app_self (x s : string) : String.prefix x (x ++ s) = true.
Proof.
  induction x as [|c r IH]; [destruct s; reflexivity|].
  cbn. destruct (ascii_dec c c); congruence.
Qed.

(** A one-character [sub] that [find] does not find is not a character of [s]. *)
Lemma find_from_char_none (h : ascii) (s : string) (i : nat) :
  Py.find_from (String h EmptyString) s i = None ->
  forall c, In c (list_ascii_of_string s) -> c <> h.
Proof.
  revert i; induction s as [|c r IH]; intros i H c' Hin; [destruct Hin|].
  rewrite find_from_unfold in H. destruct (ascii_dec h c) as [<-|E].
  - replace (String.prefix (String h EmptyString) (String h r)) with true in H
      by (symmetry; exact (prefix_app_self (String h EmptyString) r)). discriminate.
  - rewrite prefix_cons_neq in H by exact E.
    destruct Hin as [<-|Hin]; [congruence | exact (IH _ H c' Hin)].
Qed.

Lemma contains_char (h : ascii) (s : string) :
  Py.contains s (String h EmptyString) = false ->
  forall c, In c (list_ascii_of_string s) -> c <> h.
Proof.
  unfold Py.contains, Py.find. destruct (Py.find_from _ s 0) eqn:E; [discriminate|].
  intros _. exact (find_from_char_none h s 0 E).
Qed.

Lemma split_go_noc (h : ascii) (t s cur : string) :
  (forall c, In c (list_ascii_of_string s) -> c <> h) ->
  Py.split_go (String h t) s 0 cur = [(cur ++ s)%string].
Proof.
  revert cur; induction s as [|c r IH]; intros cur Hs; cbn [Py.split_go].
  - rewrite sapp_nil_r. reflexivity.
  - rewrite prefix_cons_neq by (intros E; exact (Hs c (or_introl eq_refl) (eq_sym E))).
    rewrite IH by (intros c' Hc'; exact (Hs c' (or_intror Hc'))).
    rewrite sapp_assoc. reflexivity.
Qed.

Lemma split_go_app (h : ascii) (t s1 s2 cur : string) :
  (forall c, In c (list_ascii_of_string s1) -> c <> h) ->
  Py.split_go (String h t) (s1 ++ s2) 0 cur = Py.split_go (String h t) s2 0 (cur ++ s1).
Proof.
  revert cur; induction s1 as [|c r IH]; intros cur Hs.
  - rewrite sapp_nil_r. reflexivity.
  - cbn [append Py.split_go].
    rewrite prefix_cons_neq by (intros E; exact (Hs c (or_introl eq_refl) (eq_sym E))).
    rewrite IH by (intros c' Hc'; exact (Hs c' (or_intror Hc'))).
    rewrite sapp_assoc. reflexivity.
Qed.

Lemma split_go_skip (sep t s cur : string) :
  Py.split_go sep (t ++ s) (String.length t) cur = Py.split_go sep s 0 cur.
Proof. induction t as [|c r IH]; [reflexivity | exact IH]. Qed.

Lemma split_go_sep (h : ascii) (t s cur : string) :
  Py.split_go (String h t) (String h t ++ s) 0 cur = cur :: Py.split_go (String h t) s 0 "".
Proof.
  cbn [append Py.split_go].
  replace (String.prefix (String h t) (String h (t ++ s))) with true
    by (symmetry; exact (prefix_app_self (String h t) s)).
  cbn [pred String.length]. rewrite split_go_skip. reflexivity.
Qed.

Lemma drop_spaces_head (l : list ascii) :
  match Py.drop_spaces l with c :: _ => Py.is_space c = false | [] => True end.
Proof.
  induction l as [|c r IH]; [exact I|]. cbn [Py.drop_spaces].
  destruct (Py.is_space c) eqn:E; [exact IH | exact E].
Qed.

Lemma drop_spaces_fix (l : list ascii) :
  match l with c :: _ => Py.is_space c = false | [] => True end -> Py.drop_spaces l = l.
Proof. destruct l as [|c r]; [reflexivity|]. intros H. cbn. rewrite H. reflexivity. Qed.

Lemma drop_spaces_split (l : list ascii) : exists p, l = p ++ Py.drop_spaces l.
Proof.
  induction l as [|c r [p IH]]; [exists []; reflexivity|]. cbn [Py.drop_spaces].
  destruct (Py.is_space c); [exists (c :: p); cbn; rewrite <- IH; reflexivity | exists []; reflexivity].
Qed.

Lemma drop_spaces_nil (l : list ascii) :
  Py.drop_spaces l = [] -> forall c, In c l -> Py.is_space c = true.
Proof.
  induction l as [|x r IH]; intros H c Hc; [destruct Hc|]. cbn in H.
  destruct (Py.is_space x) eqn:E; [|discriminate].
  destruct Hc as [<-|Hc]; [exact E | exact (IH H c Hc)].
Qed.

Lemma strip_idem (s : string) : Py.strip (Py.strip s) = Py.strip s.
Proof.
  unfold Py.strip. rewrite list_ascii_of_string_of_list_ascii.
  set (a := Py.drop_spaces (list_ascii_of_string s)).
  set (b := Py.drop_spaces (rev a)).
  assert (Hb : Py.drop_spaces b = b) by (apply drop_spaces_fix; apply drop_spaces_head).
  assert (Hrb : Py.drop_spaces (rev b) = rev b).
  { destruct (drop_spaces_split (rev a)) as [p Hp]. fold b in Hp.
    assert (Ha : a = rev b ++ rev p) by (rewrite <- rev_app_distr, <- Hp, rev_involutive; reflexivity).
    pose proof (drop_spaces_head (list_ascii_of_string s)) as Hh. fold a in Hh.
    apply drop_spaces_fix. destruct (rev b) as [|x y]; [exact I|].
    rewrite Ha in Hh. exact Hh. }
  rewrite Hrb, rev_involutive, Hb. reflexivity.
Qed.

Lemma strip_nil_spaces (s : string) :
  Py.strip s = "" -> forall c, In c (list_ascii_of_string s) -> Py.is_space c = true.
Proof.
  unfold Py.strip. set (a := Py.drop_spaces (list_ascii_of_string s)). intros H.
  assert (H1 : rev (Py.drop_spaces (rev a)) = []) by (destruct (rev (Py.drop_spaces (rev a))); [reflexivity | discriminate]).
  assert (H2 : Py.drop_spaces (rev a) = []) by (rewrite <- (rev_involutive (Py.drop_spaces (rev a))), H1; reflexivity).
  assert (H3 : a = []).
  { pose proof (drop_spaces_head (list_ascii_of_string s)) as Hh. fold a in Hh.
    destruct a as [|x y]; [reflexivity|]. exfalso.
    assert (Hx : Py.is_space x = true) by (apply (drop_spaces_nil _ H2); apply in_rev; rewrite rev_involutive; left; reflexivity).
    congruence. }
  exact (drop_spaces_nil _ H3).
Qed.

Lemma concat_empty_cons (x : string) (l : list string) :
  String.concat "" (x :: l) = (x ++ String.concat "" l)%string.
Proof. destruct l; [rewrite sapp_nil_r|]; reflexivity. Qed.

Lemma readlines_go_concat (s cur : string) :
  (forall c, In c (list_ascii_of_string s) -> c <> CR) ->
  String.concat "" (readlines_go s cur) = (cur ++ s)%string.
Proof.
  revert cur; induction s as [|c r IH]; intros cur Hs.
  - cbn [readlines_go]. rewrite sapp_nil_r. destruct cur; reflexivity.
  - cbn [readlines_go].
    assert (Hc : Ascii.eqb c CR = false)
      by (apply Ascii.eqb_neq; exact (Hs c (or_introl eq_refl))).
    rewrite Hc. assert (Hr : forall c', In c' (list_ascii_of_string r) -> c' <> CR)
      by (intros c' Hc'; exact (Hs c' (or_intror Hc'))).
    destruct (Ascii.eqb c LF) eqn:Hl.
    + apply Ascii.eqb_eq in Hl. subst c.
      rewrite concat_empty_cons, IH by exact Hr. rewrite sapp_assoc. reflexivity.
    + rewrite IH by exact Hr. rewrite sapp_assoc. reflexivity.
Qed.

(** ** Reading the dependency file *)

(** [readlines] loses nothing: for a text without carriage returns (which
    universal newlines would turn into line feeds), the lines it returns,
    joined, give back the text. *)
Theorem readlines_concat (s : string) :
  Py.contains s (String CR EmptyString) = false -> String.concat "" (readlines s) = s.
Proof.
  intros H. unfold readlines. rewrite readlines_go_concat; [reflexivity|].
  exact (contains_char CR s H).
Qed.

(** [validate_and_return_sp_dep] inverts the line format
    [owner/repo==version]: when owner and repo contain neither '/' nor '='
    and the version contains no '=', the line
    [owner ++ "/" ++ repo ++ "==" ++ version] gives back the three parts. *)
Theorem validate_sp_dep_round_trip (g a v : string) :
  Py.contains g "/" = false -> Py.contains a "/" = false ->
  Py.contains g "=" = false -> Py.contains a "=" = false -> Py.contains v "=" = false ->
  validate_and_return_sp_dep (g ++ "/" ++ a ++ "==" ++ v)%string = Ok (g, a, v).
Proof.
  intros Hg1 Ha1 Hg2 Ha2 Hv.
  pose proof (contains_char _ _ Hg1) as Hg1'. pose proof (contains_char _ _ Ha1) as Ha1'.
  pose proof (contains_char _ _ Hg2) as Hg2'. pose proof (contains_char _ _ Ha2) as Ha2'.
  pose proof (contains_char _ _ Hv) as Hv'. clear Hg1 Ha1 Hg2 Ha2 Hv.
  rename Hg1' into Hg1, Ha1' into Ha1, Hg2' into Hg2, Ha2' into Ha2, Hv' into Hv.
  unfold validate_and_return_sp_dep, Py.split.
  replace (g ++ "/" ++ a ++ "==" ++ v)%string with ((g ++ "/" ++ a) ++ "==" ++ v)%string
    by (rewrite !sapp_assoc; reflexivity).
  rewrite split_go_app.
  2:{ intros c Hc. rewrite !list_ascii_app in Hc. apply in_app_or in Hc as [Hc|Hc]; [exact (Hg2 c Hc)|].
      apply in_app_or in Hc as [[<-|[]]|Hc]; [discriminate | exact (Ha2 c Hc)]. }
  rewrite split_go_sep, split_go_noc by exact Hv. rewrite !sapp_nil_l.
  rewrite split_go_app by exact Hg1. rewrite split_go_sep, split_go_noc by exact Ha1.
  reflexivity.
Qed.

(** ** validate_name *)

(** Every name of the documented form (two non-empty parts over
    [[A-Za-z0-9\-_]] around one '/') passes [validate_name]. *)
Theorem validate_name_accepts_spec_names (n : string) :
  name_valid_per_spec n = true -> validate_name (Some n) = Ok tt.
Proof.
  unfold name_valid_per_spec, validate_name.
  destruct (Py.split n "/") as [|a [|b [|x r]]] eqn:Hs; try discriminate.
  intros H. apply andb_prop in H as [H Hbc]. apply andb_prop in H as [H _].
  apply andb_prop in H as [_ Hac].
  destruct (String.eqb (Py.strip n) "") eqn:Hst.
  - exfalso. apply String.eqb_eq in Hst. pose proof (strip_nil_spaces _ Hst) as Hsp.
    unfold Py.split in Hs. rewrite split_go_noc in Hs; [discriminate|].
    intros c Hc E. subst c. specialize (Hsp _ Hc). discriminate.
  - cbn [length Nat.eqb negb forallb]. unfold name_field_matches. rewrite Hac, Hbc. reflexivity.
Qed.

Lemma readlines_concat_witness :
  String.concat "" (readlines deps_one) = deps_one.
Proof. apply readlines_concat. vm_compute. reflexivity. Defined.

Lemma validate_sp_dep_round_trip_witness :
  validate_and_return_sp_dep ("databricks" ++ "/" ++ "spark-avro" ++ "==" ++ "3.2.0")%string
  = Ok ("databricks", "spark-avro", "3.2.0").
Proof. apply validate_sp_dep_round_trip; vm_compute; reflexivity. Defined.

Lemma validate_name_accepts_spec_names_witness :
  name_valid_per_spec "databricks/spark-csv" = true /\
  validate_name (Some "databricks/spark-csv") = Ok tt.
Proof.
  split; [vm_compute; reflexivity|].
  apply validate_name_accepts_spec_names. vm_compute. reflexivity.
Defined.

(** ** The dependency loop *)

Lemma add_sp_deps_app_stop (project : element) (prefix : string) (l1 l2 : list string) :
  (forall r, add_sp_deps project prefix l1 <> Ok r) ->
  add_sp_deps project prefix (l1 ++ l2) = add_sp_deps project prefix l1.
Proof.
  revert project. induction l1 as [|x r IH]; intros project H; cbn [app add_sp_deps] in *.
  - exfalso. exact (H project eq_refl).
  - destruct (Py.startswith (Py.strip x) "#"); [exact (IH _ H)|].
    destruct (validate_and_return_sp_dep (Py.strip x)) as [[[g a] v]| |];
      cbn [obind] in *; try reflexivity.
    destruct (pom_add_element project prefix "dependencies" "dependency" (dep_values g a v)
                ["groupId"; "artifactId"] ["groupId"; "artifactId"; "version"]);
      cbn [obind] in *; [exact (IH _ H) | reflexivity | reflexivity].
Qed.

(** After the loop, the duplicate check finds every dependency of the
    lines, and the collection only grew at its end. *)
Lemma add_sp_deps_found (project r : element) (prefix : string) (lines : list string) :
  add_sp_deps project prefix lines = Ok r ->
  (exists extra, collection r prefix "dependencies" = collection project prefix "dependencies" ++ extra) /\
  (forall l, In l lines -> Py.startswith (Py.strip l) "#" = false ->
     exists g a v, validate_and_return_sp_dep (Py.strip l) = Ok (g, a, v) /\
       check_children prefix (dep_values g a v) ["groupId"; "artifactId"]
         (collection r prefix "dependencies") = Ok true).
Proof.
  revert project. induction lines as [|l rest IH]; intros project H; cbn [add_sp_deps] in H.
  - injection H as <-. split; [exists []; rewrite app_nil_r; reflexivity | intros l []].
  - destruct (Py.startswith (Py.strip l) "#") eqn:Hc.
    + destruct (IH project H) as [Hext Hall]. split; [exact Hext|].
      intros l' [<-|Hin] Hc'; [congruence | exact (Hall l' Hin Hc')].
    + destruct (validate_and_return_sp_dep (Py.strip l)) as [[[g a] v]| |] eqn:Hv;
        cbn [obind] in H; try discriminate.
      destruct (pom_add_element project prefix "dependencies" "dependency" (dep_values g a v)
                  ["groupId"; "artifactId"] ["groupId"; "artifactId"; "version"]) as [p'| |] eqn:Hp;
        cbn [obind] in H; try discriminate.
      destruct (IH p' H) as [[extra' Hext'] Hall].
      destruct (dep_step_facts g a v) as (Hs & Hnd & Hd).
      destruct (pom_add_element_after _ _ _ _ _ _ _ _ _ Hs Hnd (key_of_entry _ _ _ _) Hd Hp)
        as [Hchk [extra [Hext _]]].
      split; [exists (extra ++ extra'); rewrite Hext', Hext, app_assoc; reflexivity|].
      intros l' [<-|Hin] Hc'; [|exact (Hall l' Hin Hc')].
      exists g, a, v. split; [exact Hv|]. rewrite Hext'. apply check_children_app_true. exact Hchk.
Qed.

(** Repeated lines in python/spark-package-deps.txt are harmless: the
    dependency loop of [prepare_pom] over the lines followed by the same
    lines again gives the same result as over the lines once, whether it
    succeeds or stops. *)
Theorem add_sp_deps_lines_twice (project : element) (prefix : string) (lines : list string) :
  add_sp_deps project prefix (lines ++ lines) = add_sp_deps project prefix lines.
Proof.
  destruct (add_sp_deps project prefix lines) as [r| m| e] eqn:H.
  - rewrite (add_sp_deps_app _ _ _ _ _ H). apply add_sp_deps_second_run.
    exact (proj2 (add_sp_deps_found _ _ _ _ H)).
  - rewrite add_sp_deps_app_stop, H; [reflexivity|]. rewrite H. discriminate.
  - rewrite add_sp_deps_app_stop, H; [reflexivity|]. rewrite H. discriminate.
Qed.

(** ** zip_artifact: what a run leaves behind *)

Ltac zsteps H := cbn [io_bind io_lift io_ret emit fst snd app is_ok] in H.

Lemma zip_artifact_ok_events (d : package_dir) (name version out_dir temp_dir z : string)
  (evs : list fs_event) :
  zip_artifact d name version out_dir temp_dir = (Ok z, evs) ->
  exists art, zip_artifact_name name version = Ok art /\
    z = path_join out_dir (art ++ "zip") /\
    evs = [Mkdir temp_dir; Create (path_join temp_dir (art ++ "jar"));
           Create (path_join temp_dir (art ++ "pom")); Create z; Remove temp_dir].
Proof.
  intros H. unfold zip_artifact, prepare_jar, prepare_pom in H.
  destruct (validate_name (Some name)) as [[]| |]; zsteps H; try discriminate.
  destruct (validate_files_exist d) as [[]| |]; zsteps H; try discriminate.
  destruct (zip_artifact_name name version) as [art| |]; zsteps H; try discriminate.
  destruct (select_jar (has_jvm_sources d) (walk d)) as [j| |]; zsteps H; try discriminate.
  destruct (prepare_pom_tree (existing_pom d) name version (sp_deps_file d)) as [p| |];
    zsteps H; try discriminate.
  destruct (split_name name) as [ga| |]; zsteps H; try discriminate.
  match type of H with context [String.eqb ?x ?y] => destruct (String.eqb x y) eqn:Ep end;
    zsteps H; try discriminate.
  apply String.eqb_eq in Ep. injection H as <- <-.
  exists art. split; [reflexivity|]. split; [reflexivity|].
  replace (path_join temp_dir (snd ga ++ String "-" (version ++ ".pom")))
    with (path_join temp_dir (art ++ "pom")) by (symmetry; exact Ep).
  unfold path_join. rewrite !sapp_assoc. reflexivity.
Qed.

(** A successful [zip] returns out_dir/<repo>-<version>.zip; it has made the
    temporary directory, written the inner jar and the pom into it, written
    the zip, and removed the temporary directory, in this order. *)
Theorem zip_artifact_success (d : package_dir) (name version out_dir temp_dir z : string)
  (evs : list fs_event) :
  zip_artifact d name version out_dir temp_dir = (Ok z, evs) ->
  exists art, zip_artifact_name name version = Ok art /\
    z = path_join out_dir (art ++ "zip") /\
    evs = [Mkdir temp_dir; Create (path_join temp_dir (art ++ "jar"));
           Create (path_join temp_dir (art ++ "pom")); Create z; Remove temp_dir].
Proof. exact (zip_artifact_ok_events d name version out_dir temp_dir z evs). Qed.

(** A [zip] that fails never removes the temporary directory: it stopped
    before creating anything (the name or the README/LICENSE check failed),
    or it had created the temporary directory, which stays behind. *)
Theorem zip_failure_leaves_temp_dir (d : package_dir) (name version out_dir temp_dir : string) :
  let res := zip_artifact d name version out_dir temp_dir in
  is_ok (fst res) = false ->
  ~ In (Remove temp_dir) (snd res) /\
  (snd res = [] \/ exists rest, snd res = Mkdir temp_dir :: rest).
Proof.
  cbv zeta. unfold zip_artifact, prepare_jar, prepare_pom.
  destruct (validate_name (Some name)) as [[]| |]; io_steps;
    try (intros _; split; [intros [] | left; reflexivity]).
  destruct (validate_files_exist d) as [[]| |]; io_steps;
    try (intros _; split; [intros [] | left; reflexivity]).
  destruct (zip_artifact_name name version) as [art| |]; io_steps;
    try (intros _; split; [intros [Hc|[]]; discriminate | right; eexists; reflexivity]).
  destruct (select_jar (has_jvm_sources d) (walk d)) as [j| |]; io_steps;
    try (intros _; split; [intros [Hc|[Hc|[]]]; discriminate | right; eexists; reflexivity]).
  destruct (prepare_pom_tree (existing_pom d) name version (sp_deps_file d)) as [p| |]; io_steps;
    try (intros _; split; [intros [Hc|[Hc|[]]]; discriminate | right; eexists; reflexivity]).
  destruct (split_name name) as [ga| |]; io_steps;
    try (intros _; split; [intros [Hc|[Hc|[]]]; discriminate | right; eexists; reflexivity]).
  match goal with |- context [String.eqb ?x ?y] => destruct (String.eqb x y) end;
    io_steps; [discriminate|].
  intros _. split; [intros [Hc|[Hc|[Hc|[Hc|[]]]]]; discriminate | right; eexists; reflexivity].
Qed.

Lemma zip_artifact_success_witness :
  exists art, zip_artifact_name "test/pkg" "0.2" = Ok art /\
    "out/pkg-0.2.zip" = path_join "out" (art ++ "zip") /\
    snd (zip_artifact (python_package deps_one) "test/pkg" "0.2" "out" "out/tmp1") =
    [Mkdir "out/tmp1"; Create (path_join "out/tmp1" (art ++ "jar"));
     Create (path_join "out/tmp1" (art ++ "pom")); Create "out/pkg-0.2.zip"; Remove "out/tmp1"].
Proof.
  apply (zip_artifact_success (python_package deps_one) "test/pkg" "0.2" "out" "out/tmp1").
  vm_compute. reflexivity.
Defined.

Lemma zip_failure_leaves_temp_dir_witness :
  let res := zip_artifact (python_package ("wrong/format" ++ String LF "")%string)
               "test/pkg" "0.2" "out" "out/tmp1" in
  ~ In (Remove "out/tmp1") (snd res) /\
  (snd res = [] \/ exists rest, snd res = Mkdir "out/tmp1" :: rest).
Proof.
  apply (zip_failure_leaves_temp_dir (python_package ("wrong/format" ++ String LF "")%string)
           "test/pkg" "0.2" "out" "out/tmp1").
  vm_compute. reflexivity.
Defined.

(** ** A name that ends in a newline *)







(** ** Credentials and descriptions *)

Lemma credentials_fold_stripped (lines : list string) (ut : string * string) :
  (fst ut = "" \/ Py.strip (fst ut) = fst ut) -> (snd ut = "" \/ Py.strip (snd ut) = snd ut) ->
  let r := fold_left credentials_step lines ut in
  (fst r = "" \/ Py.strip (fst r) = fst r) /\ (snd r = "" \/ Py.strip (snd r) = snd r).
Proof.
  revert ut. induction lines as [|l rest IH]; intros [u t] Hu Ht; [split; assumption|].
  cbn [fold_left]. apply IH; unfold credentials_step;
    destruct (Py.contains l "user="); [right; apply strip_idem | |exact Ht|];
    destruct (Py.contains l "password="); cbn [fst snd]; try assumption; right; apply strip_idem.
Qed.

Lemma read_credentials_stripped (content u t : string) :
  read_credentials_file content = Done (u, t) ->
  Py.strip u = u /\ Py.strip t = t /\ u <> "" /\ t <> "".
Proof.
  unfold read_credentials_file.
  pose proof (credentials_fold_stripped (map strip_lf (readlines content)) ("", "")
                (or_introl eq_refl) (or_introl eq_refl)) as Hinv.
  cbv zeta in Hinv |- *.
  destruct (fold_left credentials_step (map strip_lf (readlines content)) ("", "")) as [u0 t0].
  cbn [fst snd] in Hinv. destruct Hinv as [Hu Ht].
  destruct (String.eqb u0 "") eqn:Eu; [discriminate|].
  destruct (String.eqb t0 "") eqn:Et; [discriminate|].
  intros H. injection H as <- <-. apply String.eqb_neq in Eu, Et.
  destruct Hu as [Hu|Hu]; [contradiction|]. destruct Ht as [Ht|Ht]; [contradiction|].
  auto.
Qed.

Lemma credential_source_nonblank (o a : option string) (x : string) :
  match o with
  | Some u => if blank (Some u) then prompt a else Done u
  | None => prompt a
  end = Done x -> x <> "" -> Py.strip x <> "".
Proof.
  intros H Hx. destruct o as [u|]; cbn [blank] in H.
  - destruct (String.eqb (Py.strip u) "") eqn:E.
    + unfold prompt in H. destruct a; [|discriminate]. injection H as <-.
      rewrite strip_idem. exact Hx.
    + injection H as <-. apply String.eqb_neq. exact E.
  - unfold prompt in H. destruct a; [|discriminate]. injection H as <-.
    rewrite strip_idem. exact Hx.
Qed.

(** Whatever way [resolve_credentials] obtains them (from the credentials
    file, from the options or from the prompts), the user name and the
    token it returns are not blank: stripped of whitespace, neither is
    empty. *)
Theorem resolve_credentials_nonblank (E : env) (user token file : option string) (u t : string) :
  resolve_credentials E user token file = Done (u, t) ->
  Py.strip u <> "" /\ Py.strip t <> "".
Proof.
  intros H. unfold resolve_credentials in H. cbv zeta in H.
  assert (Hask : rbind (match user with
                        | Some u => if blank (Some u) then prompt (answer_user E) else Done u
                        | None => prompt (answer_user E)
                        end)
                   (fun git_user =>
                      if String.eqb git_user "" then Quit MsgEmptyUser
                      else rbind (match token with
                                  | Some t => if blank (Some t) then prompt (answer_token E) else Done t
                                  | None => prompt (answer_token E)
                                  end)
                             (fun git_token =>
                                if String.eqb git_token "" then Quit MsgEmptyToken
                                else Done (git_user, git_token))) = Done (u, t) ->
                 Py.strip u <> "" /\ Py.strip t <> "").
  { clear H. intros H.
    destruct (match user with
              | Some u => if blank (Some u) then prompt (answer_user E) else Done u
              | None => prompt (answer_user E)
              end) as [x| |] eqn:Eu; cbn [rbind] in H; try discriminate.
    destruct (String.eqb x "") eqn:Ex; [discriminate|].
    destruct (match token with
              | Some t => if blank (Some t) then prompt (answer_token E) else Done t
              | None => prompt (answer_token E)
              end) as [y| |] eqn:Et; cbn [rbind] in H; try discriminate.
    destruct (String.eqb y "") eqn:Ey; [discriminate|].
    injection H as <- <-. apply String.eqb_neq in Ex, Ey.
    split; [exact (credential_source_nonblank _ _ _ Eu Ex) | exact (credential_source_nonblank _ _ _ Et Ey)]. }
  destruct file as [f|]; [destruct (is_file E f)|]; [|exact (Hask H)|exact (Hask H)].
  apply read_credentials_stripped in H as (Hu & Ht & Hu0 & Ht0). rewrite Hu, Ht. auto.
Qed.

(** A description [get_description] returns is never blank: a typed
    description is stripped and checked non-empty, the content of a
    description file is checked non-blank. *)
Theorem get_description_nonblank (E : env) (answer : option string) (d : string) :
  get_description E answer = Done d -> Py.strip d <> "".
Proof.
  unfold get_description, prompt. destruct answer as [s|]; cbn [rbind]; [|discriminate].
  destruct (String.eqb (Py.strip s) "") eqn:E0; [discriminate|].
  destruct (is_file E (Py.strip s)).
  - destruct (String.eqb (Py.strip (read_file E (Py.strip s))) "") eqn:E1; [discriminate|].
    intros H. injection H as <-. apply String.eqb_neq. exact E1.
  - intros H. injection H as <-. rewrite strip_idem. apply String.eqb_neq. exact E0.
Qed.

(** ** main *)

Lemma main_inv (E : env) (o : options) (arguments : list string) (act : action) :
  main E o arguments = Done act ->
  exists arg name, arguments = [arg] /\ o_name o = Some name /\
    validate_name (Some name) = Ok tt /\
    match act with
    | ActInit base n scala java python r =>
        arg = "init" /\ n = name /\ base = o_out o /\ java = o_java o /\ python = o_python o /\
        r = o_r o /\ scala = (if negb (o_scala o) && negb (o_java o) && negb (o_python o)
                                 && negb (o_r o) then true else o_scala o)
    | ActZip folder n version out =>
        arg = "zip" /\ n = name /\ o_folder o = Some folder /\
        check_path_exists E (Some folder) = true /\ o_version o = Some version /\
        blank (Some version) = false /\ out = o_out o
    | ActRegister n u t =>
        arg = "register" /\ n = name /\ resolve_credentials E (o_user o) (o_token o) (o_cred o) = Done (u, t)
    | ActPublish n u t folder version out zip =>
        arg = "publish" /\ n = name /\
        resolve_credentials E (o_user o) (o_token o) (o_cred o) = Done (u, t) /\
        check_path_exists E (o_folder o) || check_path_exists E (o_zip o) = true /\
        folder = o_folder o /\ zip = o_zip o /\ o_version o = Some version /\
        blank (Some version) = false /\ out = o_out o
    end.
Proof.
  intros H. unfold main in H.
  destruct arguments as [|arg [|a2 r]]; try discriminate.
  destruct (validate_name (o_name o)) as [[]| |] eqn:Ev; cbn [rbind of_outcome] in H; try discriminate.
  destruct (o_name o) as [name|] eqn:En; [|discriminate].
  exists arg, name. do 3 (split; [reflexivity || exact Ev|]).
  destruct (String.eqb arg "init") eqn:Ei.
  { apply String.eqb_eq in Ei. injection H as <-. repeat split; assumption. }
  destruct (String.eqb arg "zip") eqn:Ez.
  { apply String.eqb_eq in Ez.
    destruct (o_folder o) as [folder|] eqn:Ef; [|discriminate].
    destruct (check_path_exists E (Some folder)) eqn:Ec; cbn [negb] in H; [|discriminate].
    destruct (o_version o) as [v|] eqn:Evr; cbn [require_version] in H; [|discriminate].
    destruct (blank (Some v)) eqn:Eb; [discriminate|].
    injection H as <-. repeat split; assumption. }
  destruct (String.eqb arg "register") eqn:Er.
  { apply String.eqb_eq in Er.
    destruct (resolve_credentials E (o_user o) (o_token o) (o_cred o)) as [[u t]| |] eqn:Ec;
      cbn [rbind] in H; try discriminate.
    injection H as <-. repeat split; assumption. }
  destruct (String.eqb arg "publish") eqn:Ep; [|discriminate].
  apply String.eqb_eq in Ep.
  destruct (resolve_credentials E (o_user o) (o_token o) (o_cred o)) as [[u t]| |] eqn:Ec;
    cbn [rbind] in H; try discriminate.
  destruct (check_path_exists E (o_folder o)) eqn:Ef;
    destruct (check_path_exists E (o_zip o)) eqn:Ezp; cbn [negb andb] in H; try discriminate;
    (destruct (o_version o) as [v|] eqn:Evr; cbn [require_version] in H; [|discriminate];
     destruct (blank (Some v)) eqn:Eb; [discriminate|];
     injection H as <-; repeat split; assumption).
Qed.

(** Every action [main] goes on to perform carries the package name of
    the [--name] option, and that name has passed [validate_name]; [main]
    has been given exactly one argument. *)
Theorem main_action_name_validated (E : env) (o : options) (arguments : list string) (act : action) :
  main E o arguments = Done act ->
  (exists arg, arguments = [arg]) /\
  exists name, o_name o = Some name /\ validate_name (Some name) = Ok tt /\
    name = match act with
           | ActInit _ n _ _ _ _ | ActZip _ n _ _ | ActRegister n _ _
           | ActPublish n _ _ _ _ _ _ => n
           end.
Proof.
  intros H. destruct (main_inv E o arguments act H) as (arg & name & Ha & Hn & Hv & Hact).
  split; [exists arg; exact Ha|]. exists name. split; [exact Hn|]. split; [exact Hv|].
  destruct act; destruct Hact as (_ & -> & _); reflexivity.
Qed.

(** [init] always creates a package for at least one language: when none
    of --scala, --java, --python and -r is given, Scala is chosen; the
    other flags are passed as given, and the package goes under --out. *)
Theorem main_init_some_language (E : env) (o : options) (arguments : list string)
  (base name : string) (scala java python r : bool) :
  main E o arguments = Done (ActInit base name scala java python r) ->
  arguments = ["init"] /\ base = o_out o /\
  scala || java || python || r = true /\
  (o_scala o = true -> scala = true) /\ java = o_java o /\ python = o_python o /\ r = o_r o.
Proof.
  intros H. destruct (main_inv E o arguments _ H)
    as (arg & n & Ha & _ & _ & (-> & _ & Hb & Hj & Hp & Hr & Hs)).
  subst. repeat split; try reflexivity.
  - destruct (o_scala o), (o_java o), (o_python o), (o_r o); reflexivity.
  - intros Ho. rewrite Ho. match goal with |- context [if ?b then _ else _] => destruct b end;
    reflexivity.
Qed.

(** [zip] is only started on an existing directory given by --folder
    whose name is not blank, and with a version that is not blank. *)
Theorem main_zip_checked (E : env) (o : options) (arguments : list string)
  (folder name version out : string) :
  main E o arguments = Done (ActZip folder name version out) ->
  arguments = ["zip"] /\ o_folder o = Some folder /\ is_dir E folder = true /\
  Py.strip folder <> "" /\ o_version o = Some version /\ Py.strip version <> "" /\ out = o_out o.
Proof.
  intros H. destruct (main_inv E o arguments _ H)
    as (arg & n & Ha & _ & _ & (-> & _ & Hf & Hc & Hv & Hb & Ho)).
  subst. unfold check_path_exists in Hc. cbn [blank] in Hb.
  apply andb_prop in Hc as [Hc1 Hc2]. apply negb_true_iff, String.eqb_neq in Hc1.
  apply String.eqb_neq in Hb. repeat split; assumption.
Qed.

(** [publish] is only started with credentials [resolve_credentials]
    returned, a version that is not blank, and --folder or --zip naming
    an existing directory (for --zip too, [check_path_exists] asks for a
    directory). *)
Theorem main_publish_checked (E : env) (o : options) (arguments : list string)
  (name u t : string) (folder : option string) (version out : string) (zip : option string) :
  main E o arguments = Done (ActPublish name u t folder version out zip) ->
  arguments = ["publish"] /\ resolve_credentials E (o_user o) (o_token o) (o_cred o) = Done (u, t) /\
  folder = o_folder o /\ zip = o_zip o /\
  (check_path_exists E folder = true \/ check_path_exists E zip = true) /\
  o_version o = Some version /\ Py.strip version <> "".
Proof.
  intros H. destruct (main_inv E o arguments _ H)
    as (arg & n & Ha & _ & _ & (-> & _ & Hc & Hfz & -> & -> & Hv & Hb & _)).
  subst. cbn [blank] in Hb. apply String.eqb_neq in Hb. apply orb_prop in Hfz.
  repeat split; assumption.
Qed.


Lemma resolve_credentials_nonblank_witness :
  resolve_credentials sample_env None None (Some "creds") = Done ("alice", "tok") /\
  Py.strip "alice" <> "" /\ Py.strip "tok" <> "".
Proof.
  split; [vm_compute; reflexivity|].
  apply (resolve_credentials_nonblank sample_env None None (Some "creds")). vm_compute. reflexivity.
Defined.

Lemma get_description_nonblank_witness :
  get_description sample_env (Some " A package ") = Done "A package" /\
  Py.strip "A package" <> "".
Proof.
  split; [vm_compute; reflexivity|].
  apply (get_description_nonblank sample_env (Some " A package ")). vm_compute. reflexivity.
Defined.

Lemma main_action_name_validated_witness :
  main sample_env sample_options ["publish"] =
    Done (ActPublish "test/pkg" "alice" "tok" (Some "pkg") "0.2" "out" None) /\
  ((exists arg, ["publish"] = [arg]) /\
   exists name, o_name sample_options = Some name /\ validate_name (Some name) = Ok tt /\
     name = "test/pkg").
Proof.
  split; [vm_compute; reflexivity|].
  apply (main_action_name_validated sample_env sample_options ["publish"]
           (ActPublish "test/pkg" "alice" "tok" (Some "pkg") "0.2" "out" None)).
  vm_compute. reflexivity.
Defined.

Lemma main_init_some_language_witness :
  main sample_env sample_options ["init"] = Done (ActInit "out" "test/pkg" true false false false) /\
  (["init"] = ["init"] /\ "out" = o_out sample_options /\
   true || false || false || false = true /\
   (o_scala sample_options = true -> true = true) /\ false = o_java sample_options /\
   false = o_python sample_options /\ false = o_r sample_options).
Proof.
  split; [vm_compute; reflexivity|].
  apply (main_init_some_language sample_env sample_options ["init"] "out" "test/pkg" true false false false). vm_compute. reflexivity.
Defined.

Lemma main_zip_checked_witness :
  main sample_env sample_options ["zip"] = Done (ActZip "pkg" "test/pkg" "0.2" "out") /\
  (["zip"] = ["zip"] /\ o_folder sample_options = Some "pkg" /\ is_dir sample_env "pkg" = true /\
   Py.strip "pkg" <> "" /\ o_version sample_options = Some "0.2" /\ Py.strip "0.2" <> "" /\
   "out" = o_out sample_options).
Proof.
  split; [vm_compute; reflexivity|].
  apply (main_zip_checked sample_env sample_options ["zip"] "pkg" "test/pkg" "0.2" "out"). vm_compute. reflexivity.
Defined.

Lemma main_publish_checked_witness :
  main sample_env sample_options ["publish"] =
    Done (ActPublish "test/pkg" "alice" "tok" (Some "pkg") "0.2" "out" None) /\
  (["publish"] = ["publish"] /\
   resolve_credentials sample_env (o_user sample_options) (o_token sample_options)
     (o_cred sample_options) = Done ("alice", "tok") /\
   Some "pkg" = o_folder sample_options /\ None = o_zip sample_options /\
   (check_path_exists sample_env (Some "pkg") = true \/ check_path_exists sample_env None = true) /\
   o_version sample_options = Some "0.2" /\ Py.strip "0.2" <> "").
Proof.
  split; [vm_compute; reflexivity|].
  apply (main_publish_checked sample_env sample_options ["publish"]
           "test/pkg" "alice" "tok" (Some "pkg") "0.2" "out" None). vm_compute. reflexivity.
Defined.


(** ** init: the directories and files it creates *)

Lemma slength_app (a b : string) : String.length (a ++ b) = String.length a + String.length b.
Proof. induction a as [|c r IH]; [reflexivity | cbn; rewrite IH; reflexivity]. Qed.


Lemma prefix_length (s1 s2 : string) : String.prefix s1 s2 = true -> String.length s1 <= String.length s2.
Proof.
  revert s2. induction s1 as [|c r IH]; intros s2 H; [cbn; lia|].
  destruct s2 as [|c' r']; [discriminate|]. cbn in H |- *.
  destruct (ascii_dec c c'); [apply IH in H; lia | discriminate].
Qed.





Lemma path_join_eqb (d p q : string) : String.eqb (path_join d p) (path_join d q) = String.eqb p q.
Proof. unfold path_join. rewrite !eqb_app_l. reflexivity. Qed.

Lemma path_join_inj (d p q : string) : path_join d p = path_join d q -> p = q.
Proof.
  intros H. apply String.eqb_eq. rewrite <- path_join_eqb with (d := d). rewrite H.
  apply String.eqb_refl.
Qed.





Lemma init_license_id_range (inputs : list (option Z)) (lid : Z) :
  of_outcome (init_license_id inputs) = Done lid -> (1 <= lid <= 11)%Z.
Proof.
  unfold init_license_id. destruct (get_license_id inputs) as [[k rest]| |] eqn:Eg;
    cbn [obind of_outcome]; try discriminate.
  intros H. injection H as <-. apply get_license_id_range in Eg. exact Eg.
Qed.

Lemma license_id_cases (lid : Z) :
  (1 <= lid <= 11)%Z ->
  lid = 1%Z \/ lid = 2%Z \/ lid = 3%Z \/ lid = 4%Z \/ lid = 5%Z \/ lid = 6%Z \/
  lid = 7%Z \/ lid = 8%Z \/ lid = 9%Z \/ lid = 10%Z \/ lid = 11%Z.
Proof. lia. Qed.

Ltac license_cases H :=
  apply license_id_cases in H;
  destruct H as [->|[->|[->|[->|[->|[->|[->|[->|[->|[->| -> ]]]]]]]]]].


(** A file is among the events of [in_dir d m] after [Mkdir d] iff its
    path under [d] is among the events of [m]. *)
Lemma in_rebase_create (d x : string) (evs : list fs_event) :
  In (Create (path_join d x)) (Mkdir d :: map (rebase d) evs) <-> In (Create x) evs.
Proof.
  split.
  - intros [H|H]; [discriminate|]. apply in_map_iff in H as [e [He Hin]].
    destruct e as [p|p|p]; cbn in He; try discriminate.
    injection He as He. apply path_join_inj in He. subst p. exact Hin.
  - intros H. right. apply in_map_iff. exists (Create x). split; [reflexivity | exact H].
Qed.

Ltac in_iff :=
  split; intros Hin;
  [ repeat (destruct Hin as [Hin|Hin]; [first [discriminate Hin | reflexivity]|]); destruct Hin
  | try discriminate Hin; repeat (first [left; reflexivity | right]) ].

Lemma package_contents_layout (name repo : string) (scala java python r : bool) (lid : Z)
  (today : string) :
  repo_of name = Done repo -> (1 <= lid <= 11)%Z ->
  let evs := snd (package_contents name scala java python r lid today) in
  fst (package_contents name scala java python r lid today) = Done tt /\
  (In (Create "build.sbt") evs <-> scala || java = true) /\
  (In (Create (path_join "python" "setup.py")) evs <-> python = true) /\
  (In (Create (r_pkg "DESCRIPTION")) evs <-> r = true).
Proof.
  intros Er Hl. unfold package_contents, init_r_directories.
  rewrite Er. license_cases Hl; destruct scala, java, python, r; vm_compute;
    (split; [reflexivity|]); (split; [in_iff|]); (split; in_iff).
Qed.


(** A package [init] completes has build.sbt iff --scala or --java was
    chosen, python/setup.py iff --python was chosen and R/pkg/DESCRIPTION
    iff -r was chosen, all under <base_dir>/<repo>. *)
Theorem init_layout (path_exists : string -> bool) (base_dir name : string)
  (scala java python r : bool) (inputs : list (option Z)) (today : string) :
  let res := init_empty_package path_exists base_dir name scala java python r inputs today in
  fst res = Done tt ->
  exists repo, repo_of name = Done repo /\ path_exists (path_join base_dir repo) = false /\
    let pd := path_join base_dir repo in
    (In (Create (path_join pd "build.sbt")) (snd res) <-> scala || java = true) /\
    (In (Create (path_join pd (path_join "python" "setup.py"))) (snd res) <-> python = true) /\
    (In (Create (path_join pd (r_pkg "DESCRIPTION"))) (snd res) <-> r = true).
Proof.
  cbv zeta. unfold init_empty_package.
  destruct (repo_of name) as [repo| |] eqn:Er; cbn [wbind wlift fst snd]; try discriminate.
  destruct (path_exists (path_join base_dir repo)) eqn:Ep; [discriminate|].
  destruct (of_outcome (init_license_id inputs)) as [lid| |] eqn:El;
    cbn [wbind wlift fst snd]; try discriminate.
  apply init_license_id_range in El.
  unfold makedirs, wemit, in_dir. cbn [wbind fst snd app]. intros _.
  exists repo. split; [reflexivity|]. split; [exact Ep|].
  destruct (package_contents_layout name repo scala java python r lid today Er El)
    as (_ & Hb & Hp & Hr).
  rewrite !in_rebase_create. auto.
Qed.

Lemma init_layout_witness :
  let res := init_empty_package (fun _ => false) "out" "test/pkg" true false true false
               [Some 1%Z] "2016-01-01" in
  fst res = Done tt /\
  exists repo, repo_of "test/pkg" = Done repo /\ (fun _ : string => false) (path_join "out" repo) = false /\
    let pd := path_join "out" repo in
    (In (Create (path_join pd "build.sbt")) (snd res) <-> true || false = true) /\
    (In (Create (path_join pd (path_join "python" "setup.py"))) (snd res) <-> true = true) /\
    (In (Create (path_join pd (r_pkg "DESCRIPTION"))) (snd res) <-> false = true).
Proof.
  cbv zeta. split; [vm_compute; reflexivity|].
  apply (init_layout (fun _ => false) "out" "test/pkg" true false true false [Some 1%Z] "2016-01-01").
  vm_compute. reflexivity.
Defined.

(** ** Licenses, register and publish *)

(** For every license number [get_license_id] accepts, the helpers of
    [init] that use it do not fail: [create_license_file] writes LICENSE,
    and [get_license_replacement] gives the license name (or, for the last
    choice, "Please specify a license") and an sbt line. *)
Theorem license_choice_never_raises (inputs rest : list (option Z)) (lid : Z) :
  get_license_id inputs = Ok (lid, rest) ->
  create_license_file lid = (Done tt, [Create "LICENSE"]) /\
  get_license_replacement lid true =
    Done ("$$license$$", if (lid =? Z.of_nat (length licenses))%Z then "Please specify a license"
                          else fst (nth (Z.to_nat (lid - 1)) licenses ("", ""))) /\
  exists line, get_license_replacement lid false = Done ("$$license$$", line).
Proof.
  intros H. apply get_license_id_range in H. cbn [length licenses Z.of_nat] in H.
  license_cases H; vm_compute; (split; [reflexivity|]); (split; [reflexivity | eexists; reflexivity]).
Qed.

Lemma license_choice_never_raises_witness :
  get_license_id [Some 0%Z; Some 3%Z] = Ok (3%Z, []) /\
  (create_license_file 3 = (Done tt, [Create "LICENSE"]) /\
   get_license_replacement 3 true =
     Done ("$$license$$", if (3 =? Z.of_nat (length licenses))%Z then "Please specify a license"
                           else fst (nth (Z.to_nat (3 - 1)) licenses ("", ""))) /\
   exists line, get_license_replacement 3 false = Done ("$$license$$", line)).
Proof.
  split; [reflexivity|].
  apply (license_choice_never_raises [Some 0%Z; Some 3%Z] []). reflexivity.
Defined.



(** When no --zip is given, [publish] sends the release only after its
    folder was a directory, [git rev-parse HEAD] gave a non-blank commit,
    a license was chosen (sent zero-based, in [0, 10]) and [zip_artifact]
    succeeded: the artifact sent is out/<repo>-<version>.zip, and the
    temporary directory has been removed before the request. *)
Theorem publish_posts_after_zip (E : env) (d : package_dir) (temp_dir name user token : string)
  (folder : option string) (version out git_out : string) (inputs : list (option Z))
  (post_status : Z) (auth : string * string) (sha v : string) (lid : Z) (n art : string) :
  let res := publish_release E d temp_dir name user token folder version out None git_out
               inputs post_status in
  In (NetEv (PostRelease auth sha v lid n art)) (snd res) ->
  (exists f, folder = Some f /\ is_dir E f = true) /\
  sha = Py.strip git_out /\ sha <> "" /\ (0 <= lid <= 10)%Z /\
  auth = (user, token) /\ v = version /\ n = name /\
  exists a, zip_artifact_name name version = Ok a /\ art = path_join out (a ++ "zip") /\
    snd res = map FsEv [Mkdir temp_dir; Create (path_join temp_dir (a ++ "jar"));
                        Create (path_join temp_dir (a ++ "pom")); Create art; Remove temp_dir]
              ++ [NetEv (PostRelease auth sha v lid n art)].
Proof.
  cbv zeta. unfold publish_release. intros Hin.
  destruct folder as [f|]; cbn [wbind wlift fst snd] in Hin |- *; [|destruct Hin].
  destruct (is_dir E f) eqn:Ed; cbn [wbind wlift fst snd] in Hin |- *; [|destruct Hin].
  destruct (String.eqb (Py.strip git_out) "") eqn:Eg; cbn [wbind wlift fst snd] in Hin |- *;
    [destruct Hin|].
  destruct (publish_license_id inputs) as [l| |] eqn:El; cbn [of_outcome wbind wlift fst snd] in Hin |- *;
    try destruct Hin.
  unfold of_io in Hin |- *.
  destruct (zip_artifact d name version out temp_dir) as [zr fevs] eqn:Ez.
  cbn [fst snd] in Hin |- *.
  destruct zr as [z| |]; cbn [of_outcome wbind wemit wret fst snd app] in Hin |- *;
    try (rewrite ?app_nil_r in Hin; apply in_map_iff in Hin as [x [Hx _]]; discriminate Hx).
  rewrite ?app_nil_r in Hin |- *. apply in_app_or in Hin as [Hin|[C|[]]].
  { apply in_map_iff in Hin as [x [Hx _]]. discriminate Hx. }
  injection C as <- <- <- <- <- <-.
  apply zip_artifact_ok_events in Ez as (a & Ea & Eart & Efs).
  unfold publish_license_id in El.
  destruct (get_license_id inputs) as [[k rest]| |] eqn:Ek; cbn [obind] in El; try discriminate.
  injection El as <-. apply get_license_id_range in Ek. cbn [length licenses Z.of_nat] in Ek.
  split; [exists f; split; [reflexivity | exact Ed]|].
  split; [reflexivity|]. split; [apply String.eqb_neq; exact Eg|]. split; [cbn [fst]; lia|].
  do 3 (split; [reflexivity|]).
  exists a. split; [exact Ea|]. split; [exact Eart|]. rewrite Efs. reflexivity.
Qed.

Lemma publish_posts_after_zip_witness :
  let res := publish_release sample_env (python_package deps_one) "out/tmp1" "test/pkg" "alice" "tok"
               (Some "pkg") "0.2" "out" None ("abc123" ++ String LF EmptyString)%string
               [Some 1%Z] 201%Z in
  In (NetEv (PostRelease ("alice", "tok") "abc123" "0.2" 0 "test/pkg" "out/pkg-0.2.zip")) (snd res) /\
  ((exists f, Some "pkg" = Some f /\ is_dir sample_env f = true) /\
   "abc123" = Py.strip ("abc123" ++ String LF EmptyString)%string /\ "abc123" <> "" /\
   (0 <= 0 <= 10)%Z /\ ("alice", "tok") = ("alice", "tok") /\ "0.2" = "0.2" /\
   "test/pkg" = "test/pkg" /\
   exists a, zip_artifact_name "test/pkg" "0.2" = Ok a /\ "out/pkg-0.2.zip" = path_join "out" (a ++ "zip") /\
     snd res = map FsEv [Mkdir "out/tmp1"; Create (path_join "out/tmp1" (a ++ "jar"));
                         Create (path_join "out/tmp1" (a ++ "pom")); Create "out/pkg-0.2.zip";
                         Remove "out/tmp1"]
               ++ [NetEv (PostRelease ("alice", "tok") "abc123" "0.2" 0 "test/pkg" "out/pkg-0.2.zip")]).
Proof.
  cbv zeta. split; [vm_compute; do 5 right; left; reflexivity|].
  apply (publish_posts_after_zip sample_env (python_package deps_one) "out/tmp1" "test/pkg" "alice"
           "tok" (Some "pkg") "0.2" "out" ("abc123" ++ String LF EmptyString)%string [Some 1%Z] 201%Z).
  vm_compute. do 5 right; left; reflexivity.
Defined.

(** ** The credentials file, read back *)

Lemma find_from_none_shift (sub s : string) (i j : nat) :
  Py.find_from sub s i = None -> Py.find_from sub s j = None.
Proof.
  revert i j. induction s as [|c r IH]; intros i j H; rewrite find_from_unfold in H |- *;
    destruct (String.prefix sub _); try discriminate; [reflexivity | exact (IH _ _ H)].
Qed.

Lemma find_from_cons_skip (h c : ascii) (sub r : string) (i : nat) :
  h <> c -> Py.find_from (String h sub) (String c r) i = Py.find_from (String h sub) r (S i).
Proof. intros H. rewrite find_from_unfold, prefix_cons_neq by exact H. reflexivity. Qed.

Lemma contains_app_self (p s : string) : Py.contains (p ++ s) p = true.
Proof.
  unfold Py.contains, Py.find. rewrite find_from_unfold, prefix_app_self. reflexivity.
Qed.

(** The key of the token line does not hold the key of the user line. *)
Lemma contains_password_line (t : string) :
  Py.contains t "user=" = false -> Py.contains ("password=" ++ t) "user=" = false.
Proof.
  unfold Py.contains, Py.find. destruct (Py.find_from "user=" t 0) eqn:E; [discriminate|].
  intros _. cbn [append].
  repeat (rewrite find_from_cons_skip by (intros C; discriminate C)).
  rewrite (find_from_none_shift _ _ 0 9 E). reflexivity.
Qed.

Lemma readlines_go_line (s rest cur : string) :
  (forall c, In c (list_ascii_of_string s) -> c <> CR /\ c <> LF) ->
  readlines_go (s ++ String LF rest) cur
  = (cur ++ s ++ String LF EmptyString)%string :: readlines_go rest EmptyString.
Proof.
  revert cur. induction s as [|c r IH]; intros cur Hs.
  - cbn [readlines_go append]. replace (Ascii.eqb LF CR) with false by reflexivity.
    replace (Ascii.eqb LF LF) with true by reflexivity. reflexivity.
  - cbn [readlines_go append]. destruct (Hs c (or_introl eq_refl)) as [Hcr Hlf].
    apply Ascii.eqb_neq in Hcr, Hlf. rewrite Hcr, Hlf.
    rewrite IH by (intros c' Hc'; exact (Hs c' (or_intror Hc'))).
    rewrite sapp_assoc. reflexivity.
Qed.

Lemma drop_lf_fix (l : list ascii) :
  match l with c :: _ => c <> LF | [] => True end -> drop_lf l = l.
Proof.
  destruct l as [|c r]; [reflexivity|]. intros H. cbn [drop_lf]. apply Ascii.eqb_neq in H. rewrite H.
  reflexivity.
Qed.

Lemma strip_lf_line (s : string) :
  s <> "" -> (forall c, In c (list_ascii_of_string s) -> c <> LF) ->
  strip_lf (s ++ String LF EmptyString) = s.
Proof.
  intros Hne Hs. unfold strip_lf. rewrite list_ascii_app. cbn [list_ascii_of_string].
  destruct (list_ascii_of_string s) as [|c r] eqn:El.
  { destruct s; [congruence | discriminate]. }
  rewrite (drop_lf_fix ((c :: r) ++ [LF])) by exact (Hs c (or_introl eq_refl)).
  rewrite rev_app_distr. cbn [rev app].
  replace (drop_lf (LF :: rev r ++ [c])) with (drop_lf (rev r ++ [c]))
    by (cbn [drop_lf]; replace (Ascii.eqb LF LF) with true by reflexivity; reflexivity).
  rewrite drop_lf_fix.
  - replace (rev (rev r ++ [c])) with (c :: r) by (rewrite rev_app_distr, rev_involutive; reflexivity).
    rewrite <- El. apply string_of_list_ascii_of_string.
  - destruct (rev r ++ [c]) as [|x y] eqn:Ex; [exact I|]. apply Hs.
    assert (Hx : In x (rev r ++ [c])) by (rewrite Ex; left; reflexivity).
    apply in_app_or in Hx as [Hx|[<-|[]]]; [right; apply in_rev; exact Hx | left; reflexivity].
Qed.

Lemma strip_fixed_last (u : string) :
  Py.strip u = u ->
  match rev (list_ascii_of_string u) with c :: _ => Py.is_space c = false | [] => True end.
Proof.
  intros H. assert (Hl : list_ascii_of_string u = list_ascii_of_string (Py.strip u))
    by (rewrite H; reflexivity).
  rewrite Hl. unfold Py.strip. rewrite list_ascii_of_string_of_list_ascii, rev_involutive.
  apply drop_spaces_head.
Qed.

Lemma strip_key_value (p u : string) :
  match list_ascii_of_string p with c :: _ => Py.is_space c = false | [] => False end ->
  u <> "" -> Py.strip u = u -> Py.strip (p ++ u) = (p ++ u)%string.
Proof.
  intros Hp Hne Hu. unfold Py.strip. rewrite list_ascii_app.
  rewrite (drop_spaces_fix (list_ascii_of_string p ++ list_ascii_of_string u))
    by (destruct (list_ascii_of_string p); [destruct Hp | exact Hp]).
  rewrite rev_app_distr.
  pose proof (strip_fixed_last u Hu) as Hl.
  destruct (rev (list_ascii_of_string u)) as [|c r] eqn:Er.
  { destruct u; [congruence|]. cbn in Er. apply app_eq_nil in Er as [_ E]. discriminate. }
  rewrite (drop_spaces_fix ((c :: r) ++ rev (list_ascii_of_string p))) by exact Hl.
  rewrite <- Er, <- rev_app_distr, rev_involutive, <- list_ascii_app.
  apply string_of_list_ascii_of_string.
Qed.

Lemma substring_app_r (p u : string) (n : nat) :
  substring (String.length p) n (p ++ u) = substring 0 n u.
Proof. induction p as [|c r IH]; [reflexivity | exact IH]. Qed.

Lemma substring_full (u : string) : substring 0 (String.length u) u = u.
Proof. induction u as [|c r IH]; [reflexivity | cbn; rewrite IH; reflexivity]. Qed.

Lemma slice_from_app (p u : string) : slice_from (p ++ u) (String.length p) = u.
Proof.
  unfold slice_from. rewrite slength_app.
  replace (String.length p + String.length u - String.length p) with (String.length u) by lia.
  rewrite substring_app_r. apply substring_full.
Qed.

(** A credentials file written as the help text of --cred describes it,
    "user=" followed by the user name on the first line and "password="
    followed by the token on the second, reads back as that user name and
    token, when both are non-empty, have no surrounding whitespace and no
    line break, and the token does not contain "user=". *)
Theorem read_credentials_round_trip (u t : string) :
  u <> "" -> t <> "" -> Py.strip u = u -> Py.strip t = t ->
  (forall c, In c (list_ascii_of_string u) -> c <> CR /\ c <> LF) ->
  (forall c, In c (list_ascii_of_string t) -> c <> CR /\ c <> LF) ->
  Py.contains t "user=" = false ->
  read_credentials_file
    ("user=" ++ u ++ String LF EmptyString ++ "password=" ++ t ++ String LF EmptyString)
  = Done (u, t).
Proof.
  intros Hu Ht Hsu Hst Hcu Hct Hkey.
  assert (Hline : forall p s, (forall c, In c (list_ascii_of_string p) -> c <> CR /\ c <> LF) ->
                    (forall c, In c (list_ascii_of_string s) -> c <> CR /\ c <> LF) ->
                    forall c, In c (list_ascii_of_string (p ++ s)) -> c <> CR /\ c <> LF).
  { intros p s Hp Hs c Hc. rewrite list_ascii_app in Hc. apply in_app_or in Hc as [Hc|Hc];
      [exact (Hp c Hc) | exact (Hs c Hc)]. }
  assert (Hkeys : forall p, p = "user="%string \/ p = "password="%string ->
                    forall c, In c (list_ascii_of_string p) -> c <> CR /\ c <> LF).
  { intros p [-> | ->] c Hc; cbn in Hc;
      repeat (destruct Hc as [<-|Hc]; [split; intros C; discriminate C|]); destruct Hc. }
  pose proof (Hline _ _ (Hkeys _ (or_introl eq_refl)) Hcu) as H1.
  pose proof (Hline _ _ (Hkeys _ (or_intror eq_refl)) Hct) as H2.
  unfold read_credentials_file, readlines.
  replace ("user=" ++ u ++ String LF EmptyString ++ "password=" ++ t ++ String LF EmptyString)%string
    with (("user=" ++ u) ++ String LF (("password=" ++ t) ++ String LF EmptyString))%string
    by (rewrite !sapp_assoc; reflexivity).
  rewrite readlines_go_line by exact H1.
  rewrite readlines_go_line by exact H2. cbn [readlines_go map].
  rewrite !sapp_nil_l.
  rewrite !strip_lf_line;
    [| intros C; discriminate C | intros c Hc; exact (proj2 (H2 c Hc))
     | intros C; discriminate C | intros c Hc; exact (proj2 (H1 c Hc))].
  cbn [fold_left]. unfold credentials_step at 2.
  rewrite contains_app_self.
  rewrite (strip_key_value "user=" u) by (exact eq_refl || assumption).
  replace (String.length "user=") with (String.length "user=") by reflexivity.
  rewrite slice_from_app, Hsu.
  unfold credentials_step.
  rewrite contains_password_line by exact Hkey.
  rewrite contains_app_self.
  rewrite (strip_key_value "password=" t) by (exact eq_refl || assumption).
  rewrite slice_from_app, Hst.
  apply String.eqb_neq in Hu, Ht. rewrite Hu, Ht. reflexivity.
Qed.

Lemma read_credentials_round_trip_witness :
  (forall c, In c (list_ascii_of_string "alice") -> c <> CR /\ c <> LF) /\
  read_credentials_file
    ("user=" ++ "alice" ++ String LF EmptyString ++ "password=" ++ "tok" ++ String LF EmptyString)
  = Done ("alice", "tok").
Proof.
  assert (Ha : forall c, In c (list_ascii_of_string "alice") -> c <> CR /\ c <> LF).
  { intros c Hc; cbn in Hc;
      repeat (destruct Hc as [<-|Hc]; [split; intros C; discriminate C|]); destruct Hc. }
  split; [exact Ha|].
  apply read_credentials_round_trip;
    [discriminate | discriminate | reflexivity | reflexivity | exact Ha | | reflexivity].
  intros c Hc; cbn in Hc;
    repeat (destruct Hc as [<-|Hc]; [split; intros C; discriminate C|]); destruct Hc.
Defined.
